(* ===================================================================== *)
(* BudgetManagerPro backend: authentication and access control.          *)
(*                                                                       *)
(* A shallow embedding of                                                *)
(*   app/core/security.py        (SecurityManager, RateLimiter)          *)
(*   app/core/deps.py            (check_account_access)                  *)
(*   app/services/user_service.py, app/services/account_service.py       *)
(*   app/api/api_v1/endpoints/auth.py, app/api/v1/endpoints/accounts.py  *)
(* and the properties of the specification that concern them.            *)
(* ===================================================================== *)

From stdpp Require Import gmap strings list pretty sorting.
From Stdlib Require Import ZArith Lia.

Local Open Scope Z_scope.

(* --------------------------------------------------------------------- *)
(* Python values                                                         *)
(* --------------------------------------------------------------------- *)

(** A Python [str] whose characters are inspected one by one (a password)
    is the sequence of its Unicode code points; [len] is its length.
    Strings that are only stored, compared and returned (e-mails, tokens,
    hashes, messages) are Rocq strings. *)
Definition code_point : Type := N.
Definition pystr : Type := list code_point.

Definition text (s : string) : pystr :=
  map Ascii.N_of_ascii (String.list_ascii_of_string s).

(** [c in s] for a one-character [c]. *)
Definition char_in (c : code_point) (s : pystr) : bool :=
  existsb (N.eqb c) s.

(** [any(p(c) for c in s)]. *)
Definition any (p : code_point → bool) (s : pystr) : bool := existsb p s.

(** The Unicode character database behind [str.isupper], [str.islower] and
    [str.isdigit] on a one-character string. *)
Class Unicode : Type := {
  isupper : code_point → bool;
  islower : code_point → bool;
  isdigit : code_point → bool;
}.

(** Exceptions that the modelled code raises or lets through; the last
    two are what the commit of a row that breaks a constraint raises
    ([sqlalchemy.exc.IntegrityError], with the text of the database) and
    what an attribute of [None] raises. *)
Inductive exn : Type :=
  | HTTPException (status_code : Z) (detail : string)
                  (headers : list (string * string))
  | ValueError (msg : string)
  | UnknownHashError
  | JWTError
  | IntegrityError (detail : string)
  | AttributeError (detail : string).

Inductive result (A : Type) : Type :=
  | Return (a : A)
  | Raise (e : exn).
Arguments Return {A} a.
Arguments Raise {A} e.

(** Python's [int(s)] on a [str]: the integer that [s] spells, or a
    [ValueError]. *)
Class PyInt : Type := {
  int : string → result Z;
}.

Definition HTTP_400_BAD_REQUEST : Z := 400.
Definition HTTP_401_UNAUTHORIZED : Z := 401.
Definition HTTP_403_FORBIDDEN : Z := 403.
Definition HTTP_404_NOT_FOUND : Z := 404.

Definition www_authenticate : list (string * string) :=
  [("WWW-Authenticate", "Bearer")].

(* --------------------------------------------------------------------- *)
(* app/core/config.py                                                    *)
(* --------------------------------------------------------------------- *)

Record Settings : Type := {
  SECRET_KEY : string;
  JWT_ALGORITHM : string;
  JWT_EXPIRE_MINUTES : Z;
  JWT_REFRESH_EXPIRE_DAYS : Z;
  RATE_LIMIT_PER_MINUTE : Z;
}.

Definition default_settings : Settings := {|
  SECRET_KEY := "your-super-secret-key-change-this-in-production";
  JWT_ALGORITHM := "HS256";
  JWT_EXPIRE_MINUTES := 30;
  JWT_REFRESH_EXPIRE_DAYS := 7;
  RATE_LIMIT_PER_MINUTE := 60;
|}.

(* --------------------------------------------------------------------- *)
(* Time                                                                  *)
(* --------------------------------------------------------------------- *)

(** security.py only adds [timedelta]s to [datetime.utcnow()] and compares
    the results, so there a naive UTC [datetime] is the number of
    microseconds since the epoch, and a [timedelta] a number of
    microseconds. *)
Abbreviation timestamp := Z (only parsing).

Definition timedelta_seconds (s : Z) : Z := s * 1000000.
Definition timedelta_minutes (m : Z) : Z := timedelta_seconds (m * 60).
Definition timedelta_days (d : Z) : Z := timedelta_seconds (d * 86400).

(** [calendar.timegm(dt.utctimetuple())]: whole seconds, microseconds
    dropped. *)
Definition timegm (dt : timestamp) : Z := dt / 1000000.

(** user_service.py reads and replaces the hour field, so there a
    [datetime] keeps its fields; the date is kept as its proleptic
    Gregorian ordinal ([date.toordinal()]). *)
Record datetime : Type := {
  ordinal : Z;
  hour : Z;
  minute : Z;
  second : Z;
  microsecond : Z;
}.

(** [dt.replace(hour=h)]: the constructor checks the new field. *)
Definition replace_hour (dt : datetime) (h : Z) : result datetime :=
  if (0 <=? h) && (h <=? 23) then
    Return {| ordinal := ordinal dt; hour := h; minute := minute dt;
              second := second dt; microsecond := microsecond dt |}
  else Raise (ValueError "hour must be in 0..23").

(** The instant a [datetime] denotes, in microseconds from the start of
    day 0 of the ordinal count. *)
Definition to_micro (dt : datetime) : Z :=
  (((ordinal dt * 24 + hour dt) * 60 + minute dt) * 60 + second dt) * 1000000
  + microsecond dt.

(** Duration arithmetic, [dt + timedelta(hours=1)], as the specification
    asks for (the source never calls it). *)
Definition plus_one_hour (dt : datetime) : datetime :=
  if hour dt <? 23 then
    {| ordinal := ordinal dt; hour := hour dt + 1; minute := minute dt;
       second := second dt; microsecond := microsecond dt |}
  else
    {| ordinal := ordinal dt + 1; hour := 0; minute := minute dt;
       second := second dt; microsecond := microsecond dt |}.

(* --------------------------------------------------------------------- *)
(* Libraries the backend calls                                           *)
(* --------------------------------------------------------------------- *)

(** passlib: [CryptContext(schemes=["bcrypt"], deprecated="auto")].
    The bcrypt computation itself is a parameter: [bcrypt_hash] with the
    salt it draws made an argument (it raises on a secret it refuses,
    such as one with a NUL character), and [bcrypt_verify], the handler's
    check of a secret against a hash that carries a bcrypt prefix (it
    raises on a digest it cannot parse). *)
Class Passlib : Type := {
  bcrypt_hash : string → pystr → result string;
  bcrypt_verify : pystr → string → result bool;
}.

(** The prefixes by which passlib's bcrypt handler identifies a hash. *)
Definition bcrypt_ident_values : list string :=
  ["$2$"; "$2a$"; "$2x$"; "$2y$"; "$2b$"].

Definition bcrypt_identify (hash : string) : bool :=
  existsb (λ ident, String.prefix ident hash) bcrypt_ident_values.

(** [pwd_context.verify(secret, hash)] for a [str] hash: the context looks
    for a configured scheme that identifies the hash and raises
    [UnknownHashError] when there is none. *)
Definition pwd_context_verify {P : Passlib} (secret : pystr) (hash : string)
  : result bool :=
  if bcrypt_identify hash then bcrypt_verify secret hash
  else Raise UnknownHashError.

Definition pwd_context_hash {P : Passlib} (salt : string) (secret : pystr)
  : result string :=
  bcrypt_hash salt secret.

(** python-jose.  A claim value is a JSON string or integer; the claims
    are a dict.  A compact token either does not parse, or carries a header
    algorithm, the claims and a signature. *)
Inductive claim : Type :=
  | CStr (s : string)
  | CInt (n : Z).

Global Instance claim_eq_dec : EqDecision claim.
Proof. solve_decision. Defined.

Inductive token : Type :=
  | Malformed (raw : string)
  | Jws (alg : string) (claims : gmap string claim) (signature : string).

(** The keyed signature of a token's signing input. *)
Class Jose : Type := {
  jws_sign : string → string → gmap string claim → string;
}.

(** [jwt.encode(claims, key, algorithm=alg)] for an algorithm that jose
    supports.  jose turns a [datetime] under "exp" into whole seconds
    ([timegm]); the callers below write that conversion out. *)
Definition jwt_encode {J : Jose} (claims : gmap string claim) (key alg : string)
  : token :=
  Jws alg claims (jws_sign alg key claims).

(** The checks of [jose.jwt._validate_claims] under the default options,
    with no audience, issuer, subject or access token given, as
    [verify_token] calls [jwt.decode].  Each answers whether the check
    passes; a check that fails raises [JWTClaimsError] or
    [ExpiredSignatureError], both a [JWTError]. *)
Section Claims.
Context {I : PyInt}.

(** [int(claims[name])] inside [try ... except ValueError]: [None] is a
    [ValueError] (on a [str], [int] raises no other exception). *)
Definition int_of_claim (v : claim) : option Z :=
  match v with
  | CInt n => Some n
  | CStr s =>
    match int s with
    | Return n => Some n
    | Raise _ => None
    end
  end.

Definition is_str (v : claim) : bool :=
  match v with
  | CStr _ => true
  | CInt _ => false
  end.

(** "iat", if present, is read with [int]. *)
Definition validate_iat (claims : gmap string claim) : bool :=
  match claims !! "iat" with
  | None => true
  | Some v => bool_decide (is_Some (int_of_claim v))
  end.

(** "nbf", if present, is read with [int] and must not be later than the
    clock, in whole seconds. *)
Definition validate_nbf (claims : gmap string claim) (now : timestamp)
  : bool :=
  match claims !! "nbf" with
  | None => true
  | Some v =>
    match int_of_claim v with
    | Some nbf => negb (timegm now <? nbf)
    | None => false
    end
  end.

(** "exp", if present, is read with [int] and must not be earlier than
    the clock, in whole seconds. *)
Definition validate_exp (claims : gmap string claim) (now : timestamp)
  : bool :=
  match claims !! "exp" with
  | None => true
  | Some v =>
    match int_of_claim v with
    | Some exp => negb (exp <? timegm now)
    | None => false
    end
  end.

(** "aud", if present, must hold the audience that was given; none was
    given, and [None] is no member of a list of strings. *)
Definition validate_aud (claims : gmap string claim) : bool :=
  bool_decide (claims !! "aud" = None).

(** "sub" and "jti", if present, must be strings. *)
Definition validate_sub (claims : gmap string claim) : bool :=
  match claims !! "sub" with
  | None => true
  | Some v => is_str v
  end.

Definition validate_jti (claims : gmap string claim) : bool :=
  match claims !! "jti" with
  | None => true
  | Some v => is_str v
  end.

(** "at_hash", if present, needs the access token to compare with; none
    was given.  ("iss" is only looked at when an issuer is given.) *)
Definition validate_at_hash (claims : gmap string claim) : bool :=
  bool_decide (claims !! "at_hash" = None).

Definition validate_claims (claims : gmap string claim) (now : timestamp)
  : bool :=
  validate_iat claims && validate_nbf claims now && validate_exp claims now
  && validate_aud claims && validate_sub claims && validate_jti claims
  && validate_at_hash claims.
End Claims.

(** The claim value [v] is the integer [n], or a string that [int]
    reads as [n]. *)
Definition reads_as {I : PyInt} (v : claim) (n : Z) : Prop :=
  v = CInt n ∨ ∃ text, v = CStr text ∧ int text = Return n.

(** [jwt.decode(token, key, algorithms=algs)] at the reading [now] of the
    clock: the algorithm of the header, the signature, then the checks of
    the claims.  Every failure is a [JWTError] (or a subclass of it).
    jose reads the clock once for "nbf" and again for "exp"; [now] stands
    for both readings. *)
Definition jwt_decode {J : Jose} {I : PyInt} (tok : token) (key : string)
    (algorithms : list string) (now : timestamp)
  : result (gmap string claim) :=
  match tok with
  | Malformed _ => Raise JWTError
  | Jws alg claims signature =>
    if negb (bool_decide (alg ∈ algorithms)) then Raise JWTError
    else if negb (String.eqb signature (jws_sign alg key claims))
      then Raise JWTError
    else if validate_claims claims now then Return claims
    else Raise JWTError
  end.

(* --------------------------------------------------------------------- *)
(* app/core/security.py                                                  *)
(* --------------------------------------------------------------------- *)

(** The [subject] argument of the token constructors: a string, or
    anything else; the callers pass the integer user id. *)
Inductive subject : Type :=
  | SubjStr (s : string)
  | SubjInt (n : Z).

(** [str(subject)] *)
Definition str (s : subject) : string :=
  match s with
  | SubjStr s => s
  | SubjInt n => pretty n
  end.

Module SecurityManager.
Section Passwords.
Context {P : Passlib}.

Definition verify_password (plain_password : pystr)
    (hashed_password : string) : result bool :=
  pwd_context_verify plain_password hashed_password.

Definition get_password_hash (salt : string) (password : pystr)
  : result string :=
  pwd_context_hash salt password.
End Passwords.

Section Tokens.
Context {J : Jose} {I : PyInt} (settings : Settings).

(** [if expires_delta:] a [timedelta] is true unless it is zero. *)
Definition truthy (expires_delta : option Z) : bool :=
  match expires_delta with
  | Some d => negb (d =? 0)
  | None => false
  end.

Definition access_expire (expires_delta : option Z) (now : timestamp)
  : timestamp :=
  if truthy expires_delta then now + default 0 expires_delta
  else now + timedelta_minutes (JWT_EXPIRE_MINUTES settings).

Definition create_access_token (subj : subject) (expires_delta : option Z)
    (now : timestamp) : token :=
  let expire := access_expire expires_delta now in
  let to_encode : gmap string claim :=
    <["exp" := CInt (timegm expire)]>
      (<["sub" := CStr (str subj)]> (<["type" := CStr "access"]> ∅)) in
  jwt_encode to_encode (SECRET_KEY settings) (JWT_ALGORITHM settings).

Definition refresh_expire (now : timestamp) : timestamp :=
  now + timedelta_days (JWT_REFRESH_EXPIRE_DAYS settings).

Definition create_refresh_token (subj : subject) (now : timestamp)
  : token :=
  let expire := refresh_expire now in
  let to_encode : gmap string claim :=
    <["exp" := CInt (timegm expire)]>
      (<["sub" := CStr (str subj)]> (<["type" := CStr "refresh"]> ∅)) in
  jwt_encode to_encode (SECRET_KEY settings) (JWT_ALGORITHM settings).

(** [verify_token(token, token_type)] at the reading [now] of the clock;
    [None] is Python's [None]. *)
Definition verify_token (tok : token) (token_type : string)
    (now : timestamp) : option claim :=
  match jwt_decode tok (SECRET_KEY settings) [JWT_ALGORITHM settings] now with
  | Return payload =>
    if bool_decide (payload !! "type" ≠ Some (CStr token_type)) then None
    else
      match payload !! "sub" with
      | None => None
      | Some subject => Some subject
      end
  | Raise _ => None
  end.
End Tokens.

Section Policy.
Context {U : Unicode}.

Definition special_chars : pystr := text "!@#$%^&*()_+-=[]{}|;:,.<>?".

Definition msg_length : string :=
  "Password must be at least 8 characters long".
Definition msg_upper : string :=
  "Password must contain at least one uppercase letter".
Definition msg_lower : string :=
  "Password must contain at least one lowercase letter".
Definition msg_digit : string :=
  "Password must contain at least one digit".
Definition msg_special : string :=
  "Password must contain at least one special character".
Definition msg_strong : string := "Password is strong".

Definition validate_password_strength (password : pystr) : bool * string :=
  if (List.length password <? 8)%nat then (false, msg_length)
  else if negb (any isupper password) then (false, msg_upper)
  else if negb (any islower password) then (false, msg_lower)
  else if negb (any isdigit password) then (false, msg_digit)
  else if negb (any (λ c, char_in c special_chars) password)
    then (false, msg_special)
  else (true, msg_strong).
End Policy.
End SecurityManager.

(** verify_access_token / verify_refresh_token *)
Definition credentials_exception (detail : string) : exn :=
  HTTPException HTTP_401_UNAUTHORIZED detail www_authenticate.

Definition verify_access_token {J : Jose} {I : PyInt} (settings : Settings)
    (tok : token) (now : timestamp) : result claim :=
  match SecurityManager.verify_token settings tok "access" now with
  | None => Raise (credentials_exception "Could not validate credentials")
  | Some user_id => Return user_id
  end.

Definition verify_refresh_token {J : Jose} {I : PyInt} (settings : Settings)
    (tok : token) (now : timestamp) : result claim :=
  match SecurityManager.verify_token settings tok "refresh" now with
  | None => Raise (credentials_exception "Could not validate refresh token")
  | Some user_id => Return user_id
  end.

(** The credentials that [HTTPBearer(auto_error=False)] extracts from the
    Authorization header; [None] when there are none.  The bearer string
    is kept as jose reads it: the empty string is [Malformed ""]. *)
Record HTTPAuthorizationCredentials : Type := {
  scheme : string;
  credentials : token;
}.

(** [not token] for the bearer string. *)
Definition is_empty_token (tok : token) : bool :=
  match tok with
  | Malformed "" => true
  | _ => false
  end.

(** get_current_user_token *)
Definition get_current_user_token
    (creds : option HTTPAuthorizationCredentials) : result token :=
  match creds with
  | None => Raise (credentials_exception "Authorization header missing")
  | Some c =>
    if is_empty_token (credentials c)
    then Raise (credentials_exception "Token missing")
    else Return (credentials c)
  end.

(** The credentials of a request that carries the header
    [Authorization: Bearer tok]. *)
Definition bearer (tok : token) : option HTTPAuthorizationCredentials :=
  Some {| scheme := "Bearer"; credentials := tok |}.

(** [int(user_id)] for the subject that [verify_token] returned. *)
Definition int_of_subject {I : PyInt} (user_id : claim) : result Z :=
  match user_id with
  | CStr s => int s
  | CInt n => Return n
  end.

(** The password policy as the specification words it: five rules, in
    order, the first violated one gives the reason. *)
Module PasswordPolicy.
Import SecurityManager.

Inductive rule : Type :=
  | MinLength | HasUpper | HasLower | HasDigit | HasSpecial.

Definition rules : list rule :=
  [MinLength; HasUpper; HasLower; HasDigit; HasSpecial].

(** The place of a rule in the order of checking. *)
Definition position (r : rule) : nat :=
  match r with
  | MinLength => 0 | HasUpper => 1 | HasLower => 2
  | HasDigit => 3 | HasSpecial => 4
  end.

Definition passes {U : Unicode} (r : rule) (password : pystr) : bool :=
  match r with
  | MinLength => (8 <=? List.length password)%nat
  | HasUpper => any isupper password
  | HasLower => any islower password
  | HasDigit => any isdigit password
  | HasSpecial => any (λ c, char_in c special_chars) password
  end.

Definition reason (r : rule) : string :=
  match r with
  | MinLength => msg_length
  | HasUpper => msg_upper
  | HasLower => msg_lower
  | HasDigit => msg_digit
  | HasSpecial => msg_special
  end.

Definition first_violation {U : Unicode} (password : pystr) : option rule :=
  List.find (λ r, negb (passes r password)) rules.

Definition validate {U : Unicode} (password : pystr) : bool * string :=
  match first_violation password with
  | Some r => (false, reason r)
  | None => (true, msg_strong)
  end.
End PasswordPolicy.

(** The in-memory rate limiter: [self._requests] maps an identifier to
    the list of the times of its admitted requests. *)
Module RateLimiter.
Definition init : gmap string (list timestamp) := ∅.

(** [is_allowed(identifier, max_requests, window_seconds)] at the
    reading [now] of the clock: the answer and the new [_requests].
    (The defaults are [settings.RATE_LIMIT_PER_MINUTE] and 60.) *)
Definition is_allowed (self : gmap string (list timestamp))
    (identifier : string) (max_requests window_seconds : Z)
    (now : timestamp) : bool * gmap string (list timestamp) :=
  let window_start := now - timedelta_seconds window_seconds in
  let cleaned : list timestamp :=
    match self !! identifier with
    | Some reqs => filter (λ req_time, window_start < req_time) reqs
    | None => []
    end in
  if Z.of_nat (List.length cleaned) >=? max_requests
  then (false, <[identifier := cleaned]> self)
  else (true, <[identifier := cleaned ++ [now]]> self).

(** The timestamps of [identifier] that a call at [now] keeps: those
    strictly newer than [now - window_seconds]. *)
Definition kept (self : gmap string (list timestamp)) (identifier : string)
    (window_seconds : Z) (now : timestamp) : list timestamp :=
  filter (λ req_time, now - timedelta_seconds window_seconds < req_time)
         (default [] (self !! identifier)).

(** A run of calls with fixed limits: each call is an identifier and
    the clock reading at that call. *)
Fixpoint run (self : gmap string (list timestamp))
    (max_requests window_seconds : Z) (calls : list (string * timestamp))
  : list bool * gmap string (list timestamp) :=
  match calls with
  | [] => ([], self)
  | (identifier, now) :: rest =>
    let '(ok, self') :=
      is_allowed self identifier max_requests window_seconds now in
    let '(oks, self'') := run self' max_requests window_seconds rest in
    (ok :: oks, self'')
  end.







(** The answers that the calls of [identifier] got in a run. *)
Definition answers_of (identifier : string)
    (calls : list (string * timestamp)) (oks : list bool) : list bool :=
  omap (λ p : (string * timestamp) * bool,
          if decide (p.1.1 = identifier) then Some p.2 else None)
       (zip calls oks).

(** The calls of [identifier] alone. *)
Definition calls_of (identifier : string)
    (calls : list (string * timestamp)) : list (string * timestamp) :=
  filter (λ c, c.1 = identifier) calls.



(** Every list of the state holds at most [max_requests] timestamps. *)
Definition within_limit (max_requests : Z)
    (self : gmap string (list timestamp)) : Prop :=
  ∀ identifier l, self !! identifier = Some l →
                  Z.of_nat (List.length l) ≤ max_requests.
End RateLimiter.

(* --------------------------------------------------------------------- *)
(* app/models: the relational store                                      *)
(* --------------------------------------------------------------------- *)

(** A row of [users] (the columns the authentication code reads or
    writes). *)
Record User : Type := {
  u_id : Z;
  u_email : string;
  u_password_hash : string;
  u_is_active : bool;
  u_is_superuser : bool;
  u_created_at : datetime;
  u_updated_at : datetime;
  u_last_login : option datetime;
  u_password_reset_token : option string;
  u_password_reset_expires : option datetime;
}.

Inductive AccountType : Type :=
  | CHECKING | SAVINGS | CREDIT_CARD | MORTGAGE | LINE_OF_CREDIT.

Global Instance AccountType_eq_dec : EqDecision AccountType.
Proof. solve_decision. Defined.

(** A row of [accounts]; [a_user_id] is the owner. *)
Record Account : Type := {
  a_id : Z;
  a_user_id : Z;
  a_name : string;
  a_account_type : AccountType;
  a_bank_name : option string;
  a_account_number : option string;
  a_description : option string;
  a_is_active : bool;
  a_created_at : datetime;
  a_updated_at : datetime;
}.

(** [Account.id == account_id, Account.user_id == user_id], the filter of
    the service's and of the dependency's query. *)
Definition owned_by (account_id user_id : Z) (a : Account) : bool :=
  (a_id a =? account_id) && (a_user_id a =? user_id).

(** What the database computes in the account queries: [column ILIKE
    pattern] on a non-NULL column, and [ORDER BY accounts.name], which
    rearranges the selected rows. *)
Class Sql : Type := {
  ilike : string → string → bool;
  order_by_name : list Account → list Account;
  order_by_name_perm : ∀ rows, order_by_name rows ≡ₚ rows;
}.

(** [column.ilike(pattern)] on a nullable column: NULL matches nothing. *)
Definition ilike_null {S : Sql} (column : option string) (pattern : string)
  : bool :=
  match column with
  | Some value => ilike value pattern
  | None => false
  end.

(** The committed content of the two tables, rows in scan order. *)
Record Db : Type := {
  users : list User;
  accounts : list Account;
}.

(** The store with every [password_reset_expires] set to NULL: what is
    left of it for a reader that never looks at that column. *)
Definition without_expiry (u : User) : User := {|
  u_id := u_id u;
  u_email := u_email u;
  u_password_hash := u_password_hash u;
  u_is_active := u_is_active u;
  u_is_superuser := u_is_superuser u;
  u_created_at := u_created_at u;
  u_updated_at := u_updated_at u;
  u_last_login := u_last_login u;
  u_password_reset_token := u_password_reset_token u;
  u_password_reset_expires := None |}.

Definition forget_expiry (db : Db) : Db := {|
  users := map without_expiry (users db);
  accounts := accounts db |}.

(** [id] is the primary key of both tables. *)
Definition primary_keys (db : Db) : Prop :=
  NoDup (map u_id (users db)) ∧ NoDup (map a_id (accounts db)).

(** A request handler: it runs on the committed store and leaves a
    response (or an exception) and the store as committed when it ends.
    Changes made to a row before an exception and never committed are
    lost with the session. *)
Definition M (A : Type) : Type := Db → result A * Db.

Definition ret {A} (a : A) : M A := λ db, (Return a, db).
Definition raise {A} (e : exn) : M A := λ db, (Raise e, db).
Definition bind {A B} (m : M A) (k : A → M B) : M B :=
  λ db, match m db with
        | (Return a, db') => k a db'
        | (Raise e, db') => (Raise e, db')
        end.
Definition lift {A} (r : result A) : M A := λ db, (r, db).

(** [db.query(...).filter(...).first()] and friends. *)
Definition query {A} (q : Db → A) : M A := λ db, (Return (q db), db).

Notation "'let*' x ':=' m 'in' k" := (bind m (λ x, k))
  (at level 10, x name, m at level 100, k at level 200).

(** [db.commit()] after the attributes of a tracked row were assigned:
    [UPDATE users SET ... WHERE users.id = ?]. *)
Definition commit_user (row : User) : M unit :=
  λ db, (Return tt,
         {| users := map (λ r, if u_id r =? u_id row then row else r)
                         (users db);
            accounts := accounts db |}).

Definition commit_account (row : Account) : M unit :=
  λ db, (Return tt,
         {| users := users db;
            accounts := map (λ r, if a_id r =? a_id row then row else r)
                            (accounts db) |}).

(** [db.delete(row); db.commit()] *)
Definition commit_delete_account (row : Account) : M unit :=
  λ db, (Return tt,
         {| users := users db;
            accounts := List.filter (λ r, negb (a_id r =? a_id row))
                                    (accounts db) |}).

(* --------------------------------------------------------------------- *)
(* app/services/user_service.py                                          *)
(* --------------------------------------------------------------------- *)

Module UserService.
Section WithPasslib.
Context {P : Passlib}.

Definition user_not_found : exn :=
  HTTPException HTTP_404_NOT_FOUND "User not found" [].

(** The row after [password_reset_token], [password_reset_expires] and
    [updated_at] were assigned. *)
Definition reset_requested (db_user : User) (reset_token : string)
    (expires now : datetime) : User := {|
  u_id := u_id db_user;
  u_email := u_email db_user;
  u_password_hash := u_password_hash db_user;
  u_is_active := u_is_active db_user;
  u_is_superuser := u_is_superuser db_user;
  u_created_at := u_created_at db_user;
  u_updated_at := now;
  u_last_login := u_last_login db_user;
  u_password_reset_token := Some reset_token;
  u_password_reset_expires := Some expires |}.

(** The row after [password_hash] was replaced and the reset token and
    its expiry were set to [None]. *)
Definition password_replaced (db_user : User) (password_hash : string)
    (now : datetime) : User := {|
  u_id := u_id db_user;
  u_email := u_email db_user;
  u_password_hash := password_hash;
  u_is_active := u_is_active db_user;
  u_is_superuser := u_is_superuser db_user;
  u_created_at := u_created_at db_user;
  u_updated_at := now;
  u_last_login := u_last_login db_user;
  u_password_reset_token := None;
  u_password_reset_expires := None |}.

Definition get_user_by_id (user_id : Z) : M (option User) :=
  query (λ db, List.find (λ u, u_id u =? user_id) (users db)).

Definition get_user_by_email (email : string) : M (option User) :=
  query (λ db, List.find (λ u, String.eqb (u_email u) email) (users db)).

(** The three readings of [datetime.utcnow()], in evaluation order: the
    receiver of [replace], the one whose [hour] is taken, and the one
    stored in [updated_at]. *)
Definition set_password_reset_token (user_id : Z) (reset_token : string)
    (now_replaced now_hour now_updated : datetime) : M User :=
  let* found := get_user_by_id user_id in
  match found with
  | None => raise user_not_found
  | Some db_user =>
    let* expires := lift (replace_hour now_replaced (hour now_hour + 1)) in
    let db_user' :=
      reset_requested db_user reset_token expires now_updated in
    let* _ := commit_user db_user' in
    ret db_user'
  end.

(** [salt] is what bcrypt draws for the new hash, [now] the reading of
    the clock stored in [updated_at]. *)
Definition reset_password (user_id : Z) (new_password : pystr)
    (salt : string) (now : datetime) : M User :=
  let* found := get_user_by_id user_id in
  match found with
  | None => raise user_not_found
  | Some db_user =>
    let* password_hash :=
      lift (SecurityManager.get_password_hash salt new_password) in
    let db_user' := password_replaced db_user password_hash now in
    let* _ := commit_user db_user' in
    ret db_user'
  end.

Definition update_last_login (user_id : Z)
    (now_login now_updated : datetime) : M User :=
  let* found := get_user_by_id user_id in
  match found with
  | None => raise user_not_found
  | Some db_user =>
    let db_user' := {|
      u_id := u_id db_user;
      u_email := u_email db_user;
      u_password_hash := u_password_hash db_user;
      u_is_active := u_is_active db_user;
      u_is_superuser := u_is_superuser db_user;
      u_created_at := u_created_at db_user;
      u_updated_at := now_updated;
      u_last_login := Some now_login;
      u_password_reset_token := u_password_reset_token db_user;
      u_password_reset_expires := u_password_reset_expires db_user |} in
    let* _ := commit_user db_user' in
    ret db_user'
  end.

Definition change_password (user_id : Z) (new_password : pystr)
    (salt : string) (now : datetime) : M User :=
  let* found := get_user_by_id user_id in
  match found with
  | None => raise user_not_found
  | Some db_user =>
    let* password_hash :=
      lift (SecurityManager.get_password_hash salt new_password) in
    let db_user' := {|
      u_id := u_id db_user;
      u_email := u_email db_user;
      u_password_hash := password_hash;
      u_is_active := u_is_active db_user;
      u_is_superuser := u_is_superuser db_user;
      u_created_at := u_created_at db_user;
      u_updated_at := now;
      u_last_login := u_last_login db_user;
      u_password_reset_token := u_password_reset_token db_user;
      u_password_reset_expires := u_password_reset_expires db_user |} in
    let* _ := commit_user db_user' in
    ret db_user'
  end.

(** The row with [is_active] assigned. *)
Definition with_is_active (db_user : User) (active : bool) (now : datetime)
  : User := {|
  u_id := u_id db_user;
  u_email := u_email db_user;
  u_password_hash := u_password_hash db_user;
  u_is_active := active;
  u_is_superuser := u_is_superuser db_user;
  u_created_at := u_created_at db_user;
  u_updated_at := now;
  u_last_login := u_last_login db_user;
  u_password_reset_token := u_password_reset_token db_user;
  u_password_reset_expires := u_password_reset_expires db_user |}.

Definition deactivate_user (user_id : Z) (now : datetime) : M User :=
  let* found := get_user_by_id user_id in
  match found with
  | None => raise user_not_found
  | Some db_user =>
    let db_user' := with_is_active db_user false now in
    let* _ := commit_user db_user' in
    ret db_user'
  end.

Definition activate_user (user_id : Z) (now : datetime) : M User :=
  let* found := get_user_by_id user_id in
  match found with
  | None => raise user_not_found
  | Some db_user =>
    let db_user' := with_is_active db_user true now in
    let* _ := commit_user db_user' in
    ret db_user'
  end.
End WithPasslib.
End UserService.

(* --------------------------------------------------------------------- *)
(* app/api/api_v1/endpoints/auth.py                                      *)
(* --------------------------------------------------------------------- *)

(** The instant of a [datetime] on the scale of security.py. *)
Definition epoch_ordinal : Z := 719163.
Definition timestamp_of (dt : datetime) : timestamp :=
  to_micro dt - epoch_ordinal * 86400 * 1000000.

(** Request bodies, as the handlers receive them after validation. *)
Record UserLogin : Type := {
  login_email : string;
  login_password : pystr;
}.

Record PasswordReset : Type := {
  reset_token : string;
  reset_new_password : pystr;
}.

Record Token : Type := {
  access_token : token;
  refresh_token : token;
  token_type : string;
  expires_in : Z;
}.

Module auth.
Section WithLibraries.
Context {U : Unicode} {P : Passlib} {J : Jose} (settings : Settings).

Definition incorrect_email_or_password : exn :=
  HTTPException HTTP_401_UNAUTHORIZED "Incorrect email or password"
                www_authenticate.

(** POST /login.  The clock is read for the access token, for the
    refresh token and twice by [update_last_login]. *)
Definition login (user_credentials : UserLogin)
    (now_access now_refresh now_login now_updated : datetime) : M Token :=
  let* found := UserService.get_user_by_email (login_email user_credentials) in
  match found with
  | None => raise incorrect_email_or_password
  | Some user =>
    let* verified :=
      lift (SecurityManager.verify_password
              (login_password user_credentials) (u_password_hash user)) in
    if negb verified then raise incorrect_email_or_password
    else if negb (u_is_active user) then
      raise (HTTPException HTTP_401_UNAUTHORIZED
                           "User account is inactive" [])
    else
      let access_token_expires :=
        timedelta_minutes (JWT_EXPIRE_MINUTES settings) in
      let access := SecurityManager.create_access_token settings
                      (SubjInt (u_id user)) (Some access_token_expires)
                      (timestamp_of now_access) in
      let refresh := SecurityManager.create_refresh_token settings
                       (SubjInt (u_id user)) (timestamp_of now_refresh) in
      let* _ := UserService.update_last_login (u_id user)
                  now_login now_updated in
      ret {| access_token := access;
             refresh_token := refresh;
             token_type := "bearer";
             expires_in := JWT_EXPIRE_MINUTES settings * 60 |}
  end.

(** POST /request-password-reset; [fresh_token] is what
    [secrets.token_urlsafe(32)] draws.  The answer is the message and,
    when a token was generated, the token. *)
Definition request_password_reset (email : string) (fresh_token : string)
    (now_replaced now_hour now_updated : datetime)
  : M (string * option string) :=
  let* found := UserService.get_user_by_email email in
  match found with
  | None => ret ("If the email exists, a reset link has been sent", None)
  | Some user =>
    let* _ := UserService.set_password_reset_token (u_id user) fresh_token
                now_replaced now_hour now_updated in
    ret ("Password reset token generated", Some fresh_token)
  end.

Definition invalid_reset_token : exn :=
  HTTPException HTTP_400_BAD_REQUEST "Invalid reset token" [].

(** The row that [User.password_reset_token == token] selects; a NULL
    column matches no token. *)
Definition has_reset_token (tok : string) (u : User) : bool :=
  match u_password_reset_token u with
  | Some t => String.eqb t tok
  | None => false
  end.

(** POST /reset-password *)
Definition reset_password (reset_data : PasswordReset)
    (salt : string) (now : datetime) : M string :=
  let* found :=
    query (λ db, List.find (has_reset_token (reset_token reset_data))
                           (users db)) in
  match found with
  | None => raise invalid_reset_token
  | Some user =>
    let '(is_valid, message) :=
      SecurityManager.validate_password_strength
        (reset_new_password reset_data) in
    if negb is_valid then
      raise (HTTPException HTTP_400_BAD_REQUEST message [])
    else
      let* _ := UserService.reset_password (u_id user)
                  (reset_new_password reset_data) salt now in
      ret "Password reset successfully"
  end.

Context {I : PyInt}.

Definition not_found_or_inactive : exn :=
  HTTPException HTTP_401_UNAUTHORIZED "User not found or inactive"
                www_authenticate.

(** POST /refresh.  The clock is read when the refresh token is verified
    and for each of the two new tokens. *)
Definition refresh_token (creds : option HTTPAuthorizationCredentials)
    (now now_access now_refresh : timestamp) : M Token :=
  let* refresh_tok := lift (get_current_user_token creds) in
  let* user_id := lift (verify_refresh_token settings refresh_tok now) in
  let* uid := lift (int_of_subject user_id) in
  let* found := query (λ db, List.find (λ u, u_id u =? uid) (users db)) in
  match found with
  | None => raise not_found_or_inactive
  | Some user =>
    if negb (u_is_active user) then raise not_found_or_inactive
    else
      let access_token_expires :=
        timedelta_minutes (JWT_EXPIRE_MINUTES settings) in
      let access := SecurityManager.create_access_token settings
                      (SubjInt (u_id user)) (Some access_token_expires)
                      now_access in
      let new_refresh := SecurityManager.create_refresh_token settings
                           (SubjInt (u_id user)) now_refresh in
      ret {| access_token := access;
             refresh_token := new_refresh;
             token_type := "bearer";
             expires_in := JWT_EXPIRE_MINUTES settings * 60 |}
  end.
End WithLibraries.
End auth.

(* --------------------------------------------------------------------- *)
(* app/services/account_service.py                                       *)
(* --------------------------------------------------------------------- *)

(** A field of a request body whose schema makes it optional: the body
    leaves it out, sets it to JSON [null], or gives it a value.  The
    attribute of the validated object is [None] in the first two cases;
    [dict(exclude_unset=True)] keeps the last two. *)
Inductive field (A : Type) : Type :=
  | Unset
  | Null
  | Value (v : A).
Arguments Unset {A}.
Arguments Null {A}.
Arguments Value {A} v.

(** [account_data.<field>] *)
Definition attribute {A} (f : field A) : option A :=
  match f with
  | Value v => Some v
  | Unset | Null => None
  end.

(** [AccountUpdate] *)
Record AccountUpdate : Type := {
  upd_name : field string;
  upd_account_type : field AccountType;
  upd_bank_name : field string;
  upd_account_number : field string;
  upd_description : field string;
  upd_is_active : field bool;
}.

(** [AccountStats], without the two fields that are constants for now
    ([current_balance], the float 0.0, and [last_transaction_date],
    [None]). *)
Record AccountStats : Type := {
  stat_id : Z;
  stat_name : string;
  stat_account_type : AccountType;
  stat_transaction_count : Z;
}.

(** [AccountCreate] *)
Record AccountCreate : Type := {
  new_name : string;
  new_account_type : AccountType;
  new_bank_name : option string;
  new_account_number : option string;
  new_description : option string;
}.

(** [db.add(row); db.commit()]: the row goes to the end of the table. *)
Definition commit_add_account (row : Account) : M unit :=
  λ db, (Return tt,
         {| users := users db; accounts := accounts db ++ [row] |}).

Module AccountService.

(** [get_account(account_id, user_id)]: the row with this id that this
    user owns. *)
Definition get_account (account_id user_id : Z) : M (option Account) :=
  query (λ db, List.find (owned_by account_id user_id) (accounts db)).

Definition name_taken (account_id user_id : Z) (name : string) (db : Db)
  : option Account :=
  List.find (λ a, (a_user_id a =? user_id) && String.eqb (a_name a) name
                  && a_is_active a && negb (a_id a =? account_id))
            (accounts db).

(** [setattr(account, field, value)] for the fields of
    [dict(exclude_unset=True)]: on a column that may be NULL, and on one
    that may not (there a [None] makes the commit fail, see
    [null_column]). *)
Definition assign_nullable {A} (old : option A) (f : field A) : option A :=
  match f with
  | Unset => old
  | Null => None
  | Value v => Some v
  end.

Definition assign {A} (old : A) (f : field A) : A :=
  match f with
  | Value v => v
  | Unset | Null => old
  end.

(** The first column declared [nullable=False] that the body sets to
    [null], in the order of the table. *)
Definition null_column (account_data : AccountUpdate) : option string :=
  match upd_name account_data, upd_account_type account_data,
        upd_is_active account_data with
  | Null, _, _ => Some "name"
  | _, Null, _ => Some "account_type"
  | _, _, Null => Some "is_active"
  | _, _, _ => None
  end.

(** The row after the loop of [setattr] and the assignment of
    [updated_at], when no column that may not be NULL was set to
    [None]. *)
Definition apply_update (account : Account) (account_data : AccountUpdate)
    (now : datetime) : Account := {|
  a_id := a_id account;
  a_user_id := a_user_id account;
  a_name := assign (a_name account) (upd_name account_data);
  a_account_type :=
    assign (a_account_type account) (upd_account_type account_data);
  a_bank_name :=
    assign_nullable (a_bank_name account) (upd_bank_name account_data);
  a_account_number :=
    assign_nullable (a_account_number account)
                    (upd_account_number account_data);
  a_description :=
    assign_nullable (a_description account) (upd_description account_data);
  a_is_active := assign (a_is_active account) (upd_is_active account_data);
  a_created_at := a_created_at account;
  a_updated_at := now |}.

(** [update_account].  The commit of a row with [None] in a column that
    may not be NULL raises [IntegrityError] (the text is SQLite's) and
    writes nothing. *)
Definition update_account (account_id : Z) (account_data : AccountUpdate)
    (user_id : Z) (now : datetime) : M (option Account) :=
  let* found := get_account account_id user_id in
  match found with
  | None => ret None
  | Some account =>
    let save : M (option Account) :=
      match null_column account_data with
      | Some column =>
        raise (IntegrityError
                 ("NOT NULL constraint failed: accounts." +:+ column))
      | None =>
        let account' := apply_update account account_data now in
        let* _ := commit_account account' in
        ret (Some account')
      end in
    match attribute (upd_name account_data) with
    | Some name =>
      if negb (String.eqb name "") && negb (String.eqb name (a_name account))
      then
        let* existing_account := query (name_taken account_id user_id name) in
        match existing_account with
        | Some _ =>
          raise (HTTPException HTTP_400_BAD_REQUEST
                   ("Account with name '" +:+ name +:+ "' already exists") [])
        | None => save
        end
      else save
    | None => save
    end
  end.

(** Soft delete. *)
Definition delete_account (account_id user_id : Z) (now : datetime)
  : M bool :=
  let* found := get_account account_id user_id in
  match found with
  | None => ret false
  | Some account =>
    let* _ := commit_account {|
      a_id := a_id account;
      a_user_id := a_user_id account;
      a_name := a_name account;
      a_account_type := a_account_type account;
      a_bank_name := a_bank_name account;
      a_account_number := a_account_number account;
      a_description := a_description account;
      a_is_active := false;
      a_created_at := a_created_at account;
      a_updated_at := now |} in
    ret true
  end.

Definition hard_delete_account (account_id user_id : Z) : M bool :=
  let* found := get_account account_id user_id in
  match found with
  | None => ret false
  | Some account => let* _ := commit_delete_account account in ret true
  end.

(** The answer of [create_account]: the row as inserted.  [new_id] is the
    key that the database assigns; [is_active] takes its column default
    and the two timestamps their defaults, each a reading of the clock. *)
Definition create_account (account_data : AccountCreate) (user_id : Z)
    (new_id : Z) (now_created now_updated : datetime) : M Account :=
  let* user := query (λ db, List.find (λ u, u_id u =? user_id) (users db)) in
  match user with
  | None => raise (HTTPException HTTP_404_NOT_FOUND "User not found" [])
  | Some _ =>
    let* existing_account :=
      query (λ db, List.find
                     (λ a, (a_user_id a =? user_id)
                           && String.eqb (a_name a) (new_name account_data)
                           && a_is_active a)
                     (accounts db)) in
    match existing_account with
    | Some _ =>
      raise (HTTPException HTTP_400_BAD_REQUEST
               ("Account with name '" +:+ new_name account_data
                +:+ "' already exists") [])
    | None =>
      let db_account := {|
        a_id := new_id;
        a_user_id := user_id;
        a_name := new_name account_data;
        a_account_type := new_account_type account_data;
        a_bank_name := new_bank_name account_data;
        a_account_number := new_account_number account_data;
        a_description := new_description account_data;
        a_is_active := true;
        a_created_at := now_created;
        a_updated_at := now_updated |} in
      let* _ := commit_add_account db_account in
      ret db_account
    end
  end.

Section Queries.
Context {S : Sql}.

(** The filters that [get_accounts] and [get_accounts_count] share. *)
Definition selected (user_id : Z) (account_type : option AccountType)
    (is_active : option bool) (search : option string) (a : Account) : bool :=
  (a_user_id a =? user_id)
  && match account_type with
     | Some t => bool_decide (a_account_type a = t)
     | None => true
     end
  && match is_active with
     | Some b => Bool.eqb (a_is_active a) b
     | None => true
     end
  && match search with
     | Some text =>
       if String.eqb text "" then true
       else
         let search_term := "%" +:+ text +:+ "%" in
         ilike (a_name a) search_term
         || ilike_null (a_bank_name a) search_term
         || ilike_null (a_description a) search_term
     | None => true
     end.

(** [skip] and [limit] are natural numbers, as the endpoint admits them
    ([ge=0], [ge=1]). *)
Definition get_accounts (user_id : Z) (skip limit : nat)
    (account_type : option AccountType) (is_active : option bool)
    (search : option string) : M (list Account) :=
  query (λ db,
    take limit
      (drop skip
         (order_by_name
            (List.filter (selected user_id account_type is_active search)
                         (accounts db))))).

Definition get_accounts_count (user_id : Z)
    (account_type : option AccountType) (is_active : option bool)
    (search : option string) : M nat :=
  query (λ db,
    List.length (List.filter (selected user_id account_type is_active search)
                             (accounts db))).

(** [get_account_stats]: it calls [get_accounts(user_id, is_active=True)],
    so with the defaults [skip=0] and [limit=100]. *)
Definition get_account_stats (user_id : Z) : M (list AccountStats) :=
  let* accounts := get_accounts user_id 0 100 None (Some true) None in
  ret (map (λ account, {| stat_id := a_id account;
                          stat_name := a_name account;
                          stat_account_type := a_account_type account;
                          stat_transaction_count := 0 |})
           accounts).
End Queries.
End AccountService.

(* --------------------------------------------------------------------- *)
(* app/api/v1/endpoints/accounts.py                                      *)
(* --------------------------------------------------------------------- *)

(** The handlers receive [current_user] from [get_current_user]: the row
    of the identity that the bearer token names. *)
Module accounts.

Definition account_not_found : exn :=
  HTTPException HTTP_404_NOT_FOUND "Account not found" [].

(** GET /{account_id} *)
Definition get_account (account_id : Z) (current_user : User) : M Account :=
  let* account := AccountService.get_account account_id (u_id current_user) in
  match account with
  | None => raise account_not_found
  | Some account => ret account
  end.

(** PUT /{account_id} *)
Definition update_account (account_id : Z) (account_data : AccountUpdate)
    (current_user : User) (now : datetime) : M Account :=
  let* account := AccountService.update_account account_id account_data
                    (u_id current_user) now in
  match account with
  | None => raise account_not_found
  | Some account => ret account
  end.

(** DELETE /{account_id} *)
Definition delete_account (account_id : Z) (hard_delete : bool)
    (current_user : User) (now : datetime) : M (string * bool) :=
  let* outcome :=
    (if hard_delete then
       let* success := AccountService.hard_delete_account account_id
                         (u_id current_user) in
       ret (success, "Account permanently deleted")
     else
       let* success := AccountService.delete_account account_id
                         (u_id current_user) now in
       ret (success, "Account deactivated successfully")) in
  let '(success, message) := outcome in
  if negb success then raise account_not_found
  else ret (message, true).

(** PATCH /{account_id}/activate *)
Definition activate_account (account_id : Z) (current_user : User)
    (now : datetime) : M (string * bool) :=
  let account_data := {|
    upd_name := Unset; upd_account_type := Unset; upd_bank_name := Unset;
    upd_account_number := Unset; upd_description := Unset;
    upd_is_active := Value true |} in
  let* account := AccountService.update_account account_id account_data
                    (u_id current_user) now in
  match account with
  | None => raise account_not_found
  | Some _ => ret ("Account activated successfully", true)
  end.

(** POST / *)
Definition create_account (account_data : AccountCreate)
    (current_user : User) (new_id : Z) (now_created now_updated : datetime)
  : M Account :=
  AccountService.create_account account_data (u_id current_user) new_id
    now_created now_updated.
End accounts.

(** No user has two active accounts of the same name: what the checks
    of [create_account] and [update_account] are there for. *)
Definition unique_active_names (db : Db) : Prop :=
  ∀ a b, In a (accounts db) → In b (accounts db) →
    a_user_id a = a_user_id b → a_name a = a_name b →
    a_is_active a = true → a_is_active b = true → a_id a = a_id b.

(** The accounts of everybody but [user_id]. *)
Definition accounts_of_others (user_id : Z) (db : Db) : list Account :=
  List.filter (λ a, negb (a_user_id a =? user_id)) (accounts db).

(** The account with [is_active] and [updated_at] assigned. *)
Definition with_status (account : Account) (active : bool) (now : datetime)
  : Account := {|
  a_id := a_id account;
  a_user_id := a_user_id account;
  a_name := a_name account;
  a_account_type := a_account_type account;
  a_bank_name := a_bank_name account;
  a_account_number := a_account_number account;
  a_description := a_description account;
  a_is_active := active;
  a_created_at := a_created_at account;
  a_updated_at := now |}.

(** The body of [PATCH /{account_id}/activate]. *)
Definition activation : AccountUpdate := {|
  upd_name := Unset; upd_account_type := Unset; upd_bank_name := Unset;
  upd_account_number := Unset; upd_description := Unset;
  upd_is_active := Value true |}.

(* --------------------------------------------------------------------- *)
(* app/core/deps.py                                                      *)
(* --------------------------------------------------------------------- *)

Module deps.

(** get_current_superuser *)
Definition get_current_superuser (current_user : User) : M User :=
  if negb (u_is_superuser current_user) then
    raise (HTTPException HTTP_403_FORBIDDEN "Not enough permissions" [])
  else ret current_user.

(** [check_account_access(account_id)], the dependency it returns. *)
Definition check_account_access (account_id : Z) (current_user : User)
  : M User :=
  let* account :=
    query (λ db, List.find (owned_by account_id (u_id current_user))
                           (accounts db)) in
  if negb (bool_decide (is_Some account))
     && negb (u_is_superuser current_user)
  then raise (HTTPException HTTP_403_FORBIDDEN
                            "Access denied to this account" [])
  else ret current_user.

Section Gateway.
Context {J : Jose} {I : PyInt} (settings : Settings).

(** [get_current_user] at the reading [now] of the clock.  The identity
    it returns is the row it found. *)
Definition get_current_user (creds : option HTTPAuthorizationCredentials)
    (now : timestamp) : M User :=
  let* tok := lift (get_current_user_token creds) in
  let* user_id := lift (verify_access_token settings tok now) in
  let* uid := lift (int_of_subject user_id) in
  let* user := query (λ db, List.find (λ u, u_id u =? uid) (users db)) in
  match user with
  | None => raise (credentials_exception "User not found")
  | Some user =>
    if negb (u_is_active user)
    then raise (credentials_exception "Inactive user")
    else ret user
  end.

(** The body of the [try] of [get_optional_user]. *)
Definition try_current_user (creds : option HTTPAuthorizationCredentials)
    (now : timestamp) : M (option User) :=
  let* tok := lift (get_current_user_token creds) in
  let* user_id := lift (verify_access_token settings tok now) in
  let* uid := lift (int_of_subject user_id) in
  query (λ db, List.find (λ u, u_id u =? uid) (users db)).

(** [get_optional_user]: the bare [except] turns every exception of the
    [try] into [None]. *)
Definition get_optional_user (creds : option HTTPAuthorizationCredentials)
    (now : timestamp) : M (option User) :=
  match creds with
  | None => ret None
  | Some _ =>
    λ db,
      match try_current_user creds now db with
      | (Return (Some user), _) =>
        if u_is_active user then (Return (Some user), db)
        else (Return None, db)
      | (Return None, _) => (Return None, db)
      | (Raise _, _) => (Return None, db)
      end
  end.
End Gateway.

(** get_current_active_user *)
Definition get_current_active_user (current_user : User) : M User :=
  if negb (u_is_active current_user) then
    raise (HTTPException HTTP_400_BAD_REQUEST "Inactive user" [])
  else ret current_user.

(** [require_permissions] applied to its permissions, the dependency it
    returns.  The identity schema has no [permissions] attribute, so
    [getattr(current_user, 'permissions', [])] is the empty list. *)
Definition require_permissions (required_permissions : list string)
    (current_user : User) : M User :=
  let user_permissions : list string := [] in
  let missing_permissions :=
    List.filter (λ perm, negb (bool_decide (perm ∈ user_permissions)))
                required_permissions in
  if negb (bool_decide (missing_permissions = []))
     && negb (u_is_superuser current_user)
  then raise (HTTPException HTTP_403_FORBIDDEN
                ("Missing permissions: "
                 +:+ String.concat ", " missing_permissions) [])
  else ret current_user.
End deps.

(* --------------------------------------------------------------------- *)
(* Registration and the change of password                               *)
(* --------------------------------------------------------------------- *)

(** The handlers of this part answer what they return or raise
    themselves on the left, and on the right the exception that the
    database session or the interpreter raises under them: an
    [IntegrityError] or an [AttributeError]. *)
Abbreviation crash := exn (only parsing).

Definition MX (A : Type) : Type := Db → (result A + crash) * Db.

Record UserCreate : Type := {
  create_email : string;
  create_password : pystr;
  create_first_name : string;
  create_last_name : string;
}.

Record PasswordChange : Type := {
  current_password : pystr;
  new_password : pystr;
}.

Module Registration.
Section WithLibraries.
Context {U : Unicode} {P : Passlib}.

(** [UserService.create_user].  [new_id] is the key that the database
    assigns, [salt] what bcrypt draws; the first and last name go to
    columns that the row of this model does not keep.  [users.email] is
    UNIQUE: the commit of a second row with the same e-mail fails and
    leaves the table as it was. *)
Definition create_user (user_create : UserCreate) (new_id : Z)
    (salt : string) (now_created now_updated : datetime) : MX User :=
  λ db,
    match SecurityManager.get_password_hash salt
            (create_password user_create) with
    | Raise e => (inl (Raise e), db)
    | Return password_hash =>
      let db_user := {|
        u_id := new_id;
        u_email := create_email user_create;
        u_password_hash := password_hash;
        u_is_active := true;
        u_is_superuser := false;
        u_created_at := now_created;
        u_updated_at := now_updated;
        u_last_login := None;
        u_password_reset_token := None;
        u_password_reset_expires := None |} in
      if existsb (λ u, String.eqb (u_email u) (create_email user_create))
                 (users db)
      then (inr (IntegrityError "UNIQUE constraint failed: users.email"), db)
      else (inl (Return db_user),
            {| users := users db ++ [db_user]; accounts := accounts db |})
    end.

(** POST /register ([UserRegister] has the fields of [UserCreate]). *)
Definition register (user_data : UserCreate) (new_id : Z) (salt : string)
    (now_created now_updated : datetime) : MX User :=
  λ db,
    match List.find (λ u, String.eqb (u_email u) (create_email user_data))
                    (users db) with
    | Some _ =>
      (inl (Raise (HTTPException HTTP_400_BAD_REQUEST
                     "Email already registered" [])), db)
    | None =>
      let '(is_valid, message) :=
        SecurityManager.validate_password_strength
          (create_password user_data) in
      if negb is_valid then
        (inl (Raise (HTTPException HTTP_400_BAD_REQUEST message [])), db)
      else create_user user_data new_id salt now_created now_updated db
    end.

(** POST /change-password, for the identity that
    [get_current_active_user] let through. *)
Definition change_password (password_data : PasswordChange)
    (current_user : User) (salt : string) (now : datetime) : MX string :=
  λ db,
    match List.find (λ u, u_id u =? u_id current_user) (users db) with
    | None =>
      (inr (AttributeError
              "'NoneType' object has no attribute 'password_hash'"), db)
    | Some user =>
      match SecurityManager.verify_password
              (current_password password_data) (u_password_hash user) with
      | Raise e => (inl (Raise e), db)
      | Return false =>
        (inl (Raise (HTTPException HTTP_400_BAD_REQUEST
                       "Current password is incorrect" [])), db)
      | Return true =>
        let '(is_valid, message) :=
          SecurityManager.validate_password_strength
            (new_password password_data) in
        if negb is_valid then
          (inl (Raise (HTTPException HTTP_400_BAD_REQUEST message [])), db)
        else
          match UserService.change_password (u_id current_user)
                  (new_password password_data) salt now db with
          | (Return _, db') =>
            (inl (Return "Password changed successfully"), db')
          | (Raise e, db') => (inl (Raise e), db')
          end
      end
    end.
End WithLibraries.
End Registration.

(* --------------------------------------------------------------------- *)
(* Sample data                                                           *)
(* --------------------------------------------------------------------- *)

(** Concrete libraries and a small store for the worked examples: the
    scenario of the specification, account 42 owned by user 7, with user 9
    a plain identity and user 1 a superuser. *)
Module Sample.

(** [str.isupper], [str.islower], [str.isdigit] on the ASCII range (all
    sample passwords are ASCII). *)
Definition unicode : Unicode := {|
  isupper c := ((65 <=? c) && (c <=? 90))%N;
  islower c := ((97 <=? c) && (c <=? 122))%N;
  isdigit c := ((48 <=? c) && (c <=? 57))%N;
|}.

Definition of_pystr (s : pystr) : string :=
  String.string_of_list_ascii (map Ascii.ascii_of_N s).

(** A stand-in for bcrypt that keeps the shape of its hashes: the
    prefix, then the digest and the salt. *)
Definition passlib : Passlib := {|
  bcrypt_hash salt secret :=
    if existsb (N.eqb 0) secret then Raise (ValueError "NUL in password")
    else Return ("$2b$" +:+ of_pystr secret +:+ "$" +:+ salt);
  bcrypt_verify secret hash :=
    Return (String.prefix ("$2b$" +:+ of_pystr secret +:+ "$") hash);
|}.

(** A stand-in for the keyed signature. *)
Definition jose : Jose := {|
  jws_sign alg key claims := alg +:+ ":" +:+ key;
|}.

Definition morning : datetime :=
  {| ordinal := 739558; hour := 10; minute := 30; second := 0;
     microsecond := 0 |}.
Definition late_evening : datetime :=
  {| ordinal := 739558; hour := 23; minute := 30; second := 15;
     microsecond := 250000 |}.
Definition just_before_eleven : datetime :=
  {| ordinal := 739558; hour := 10; minute := 59; second := 59;
     microsecond := 999999 |}.
Definition just_after_eleven : datetime :=
  {| ordinal := 739558; hour := 11; minute := 0; second := 0;
     microsecond := 1 |}.
Definition next_day : datetime :=
  {| ordinal := 739559; hour := 12; minute := 0; second := 0;
     microsecond := 0 |}.

Definition identity (id : Z) (email : string) (superuser : bool)
    (reset : option (string * datetime)) : User := {|
  u_id := id;
  u_email := email;
  u_password_hash := "$2b$Strong1!$salt";
  u_is_active := true;
  u_is_superuser := superuser;
  u_created_at := morning;
  u_updated_at := morning;
  u_last_login := None;
  u_password_reset_token := fst <$> reset;
  u_password_reset_expires := snd <$> reset |}.

(** User 7 has asked for a reset in the morning; the token expired at
    11:30. *)
Definition user7 : User :=
  identity 7 "a@x.com" false
    (Some ("kq3vVd0cXo", {| ordinal := 739558; hour := 11; minute := 30;
                            second := 0; microsecond := 0 |})).
Definition user9 : User := identity 9 "b@x.com" false None.
Definition admin : User := identity 1 "admin@x.com" true None.

Definition account42 : Account := {|
  a_id := 42;
  a_user_id := 7;
  a_name := "Everyday";
  a_account_type := CHECKING;
  a_bank_name := Some "Test Bank";
  a_account_number := Some "1234567890";
  a_description := None;
  a_is_active := true;
  a_created_at := morning;
  a_updated_at := morning |}.

Definition db : Db := {|
  users := [admin; user7; user9];
  accounts := [account42] |}.

(** The reset that user 7 sends the next day, and the store after it. *)
Definition reset : PasswordReset := {|
  reset_token := "kq3vVd0cXo";
  reset_new_password := text "Fresh-Pass2" |}.

Definition after_reset : Db :=
  (auth.reset_password (U := unicode) (P := passlib) reset "pepper"
     next_day db).2.



(** Calls of two clients, times in microseconds. *)
Definition calls : list (string * timestamp) :=
  [("10.0.0.1", 0); ("10.0.0.1", 1000000); ("10.0.0.2", 1500000);
   ("10.0.0.1", 2000000); ("10.0.0.1", 60000000); ("10.0.0.1", 60000001)].

Definition rename : AccountUpdate := {|
  upd_name := Value "Renamed"; upd_account_type := Unset;
  upd_bank_name := Unset; upd_account_number := Unset;
  upd_description := Unset; upd_is_active := Unset |}.
End Sample.

(** More sample data: a decimal [int], a database that sorts by name,
    and the sessions, registrations and accounts of the examples that
    follow the further properties. *)
Module Scenario.

(** [int] on plain decimal numerals, with an optional minus sign. *)
Fixpoint parse_digits (acc : Z) (s : string) : option Z :=
  match s with
  | EmptyString => Some acc
  | String c rest =>
    let n := Z.of_N (Ascii.N_of_ascii c) in
    if (48 <=? n) && (n <=? 57) then parse_digits (acc * 10 + (n - 48)) rest
    else None
  end.

Definition parse_int (s : string) : result Z :=
  let invalid := Raise (ValueError "invalid literal for int() with base 10") in
  let digits (sign : Z) (d : string) : result Z :=
    match d with
    | EmptyString => invalid
    | _ =>
      match parse_digits 0 d with
      | Some n => Return (sign * n)
      | None => invalid
      end
    end in
  match s with
  | EmptyString => invalid
  | String c rest =>
    if (Ascii.N_of_ascii c =? 45)%N then digits (-1) rest else digits 1 s
  end.

Definition pyint : PyInt := {| int := parse_int |}.

(** [ILIKE] for patterns of the shape [%text%] on ASCII text, and
    [ORDER BY name] as a merge sort on the names. *)
Definition lower_ascii (c : Ascii.ascii) : Ascii.ascii :=
  let n := Ascii.N_of_ascii c in
  if ((65 <=? n) && (n <=? 90))%N then Ascii.ascii_of_N (n + 32) else c.

Fixpoint lower (s : string) : string :=
  match s with
  | EmptyString => EmptyString
  | String c rest => String (lower_ascii c) (lower rest)
  end.

Fixpoint contains (needle hay : string) : bool :=
  String.prefix needle hay
  || match hay with
     | EmptyString => false
     | String _ rest => contains needle rest
     end.

Definition name_le (a b : Account) : Prop :=
  String.leb (a_name a) (a_name b) = true.

#[local] Instance name_le_dec (a b : Account) : Decision (name_le a b) :=
  decide (String.leb (a_name a) (a_name b) = true).

Definition sql : Sql := {|
  ilike value pattern :=
    match pattern with
    | String c rest =>
      if (Ascii.N_of_ascii c =? 37)%N then
        contains (lower (String.substring 0 (String.length rest - 1) rest))
                 (lower value)
      else String.eqb (lower value) (lower pattern)
    | EmptyString => String.eqb value ""
    end;
  order_by_name := merge_sort name_le;
  order_by_name_perm := merge_sort_Permutation name_le;
|}.

(** What a handler returned, or [default] when it raised. *)
Definition returned {A} (default : A) (outcome : result A * Db) : A :=
  match outcome.1 with
  | Return a => a
  | Raise _ => default
  end.

Definition registered {A} (default : A) (outcome : (result A + crash) * Db)
  : A :=
  match outcome.1 with
  | inl (Return a) => a
  | _ => default
  end.


(** A token signed with the application's key, and one whose "exp" is
    a string of digits (12:10 of the sample day). *)
Definition signed (claims : gmap string claim) : token :=
  jwt_encode (J := Sample.jose) claims (SECRET_KEY default_settings)
    (JWT_ALGORITHM default_settings).

Definition text_exp_claims : gmap string claim :=
  <["exp" := CStr "1762171800"]>
    (<["sub" := CStr "7"]> (<["type" := CStr "access"]> ∅)).

Definition text_exp_token : token := signed text_exp_claims.

(** User 7 logs in at 10:30 and uses the access token just before
    11:00. *)
Definition login7 : UserLogin := {|
  login_email := "a@x.com";
  login_password := text "Strong1!" |}.

Definition logged_in : result Token * Db :=
  auth.login (P := Sample.passlib) (J := Sample.jose) default_settings login7
    Sample.morning Sample.morning Sample.morning Sample.morning Sample.db.

Definition session : Token :=
  returned {| access_token := Malformed ""; refresh_token := Malformed "";
              token_type := ""; expires_in := 0 |} logged_in.

Definition after_login : Db := logged_in.2.

Definition credentials7 : option HTTPAuthorizationCredentials :=
  bearer (access_token session).

Definition now7 : timestamp := timestamp_of Sample.just_before_eleven.

Definition current7 : User :=
  returned Sample.user7
    (deps.get_current_user (J := Sample.jose) (I := pyint) default_settings
       credentials7 now7 after_login).

(** User 7 is deactivated the next day, and activated again. *)
Definition deactivated : result User * Db :=
  UserService.deactivate_user 7 Sample.next_day Sample.db.

Definition activated : result User * Db :=
  UserService.activate_user 7 Sample.next_day deactivated.2.

(** User 7 changes the password, with the reset token of the morning
    still pending. *)
Definition new_password7 : PasswordChange := {|
  current_password := text "Strong1!";
  new_password := text "Newer-Pass3" |}.

Definition password_changed : (result string + crash) * Db :=
  Registration.change_password (U := Sample.unicode) (P := Sample.passlib)
    new_password7 Sample.user7 "salt3" Sample.next_day Sample.db.

Definition service_changed : result User * Db :=
  UserService.change_password (P := Sample.passlib) 7 (text "Newer-Pass3")
    "salt3" Sample.next_day Sample.db.

(** A new user registers. *)
Definition newcomer : UserCreate := {|
  create_email := "c@x.com";
  create_password := text "Fresh-Pass2";
  create_first_name := "Cleo";
  create_last_name := "Xu" |}.

Definition registration : (result User + crash) * Db :=
  Registration.register (U := Sample.unicode) (P := Sample.passlib) newcomer
    10 "pepper" Sample.morning Sample.morning Sample.db.

(** User 7 opens a second account, and a third one under the name of
    account 42 once that one is deactivated. *)
Definition holiday : AccountCreate := {|
  new_name := "Holiday";
  new_account_type := SAVINGS;
  new_bank_name := None;
  new_account_number := None;
  new_description := Some "Summer fund" |}.

Definition holiday_created : result Account * Db :=
  accounts.create_account holiday Sample.user7 43 Sample.morning
    Sample.morning Sample.db.

Definition everyday : AccountCreate := {|
  new_name := "Everyday";
  new_account_type := CHECKING;
  new_bank_name := None;
  new_account_number := None;
  new_description := None |}.

Definition account42_off : Account :=
  with_status Sample.account42 false Sample.morning.

Definition two_everyday : Db :=
  (accounts.create_account everyday Sample.user7 44 Sample.next_day
     Sample.next_day
     (accounts.delete_account 42 false Sample.user7 Sample.morning
        Sample.db).2).2.

Definition account44 : Account := {|
  a_id := 44;
  a_user_id := 7;
  a_name := "Everyday";
  a_account_type := CHECKING;
  a_bank_name := None;
  a_account_number := None;
  a_description := None;
  a_is_active := true;
  a_created_at := Sample.next_day;
  a_updated_at := Sample.next_day |}.

Definition renamed : result (option Account) * Db :=
  AccountService.update_account 42 Sample.rename 7 Sample.next_day Sample.db.

(** A body that sets the name to [null]. *)
Definition null_name : AccountUpdate := {|
  upd_name := Null; upd_account_type := Unset; upd_bank_name := Unset;
  upd_account_number := Unset; upd_description := Unset;
  upd_is_active := Unset |}.

Definition name_nulled : result (option Account) * Db :=
  AccountService.update_account 42 null_name 7 Sample.next_day Sample.db.

(** The state of the limiter after the sample calls, limit 3 per
    minute. *)
Definition limiter : gmap string (list timestamp) :=
  (RateLimiter.run RateLimiter.init 3 60 Sample.calls).2.
End Scenario.

(* ===================================================================== *)
(* Properties                                                            *)
(* ===================================================================== *)

(* --------------------------------------------------------------------- *)
(* Password policy                                                       *)
(* --------------------------------------------------------------------- *)

Section PolicyFacts.
Context {U : Unicode}.
Import SecurityManager PasswordPolicy.

Lemma min_length_passes (password : pystr) :
  passes MinLength password = negb (List.length password <? 8)%nat.
Proof.
  unfold passes. now rewrite Nat.ltb_antisym, negb_involutive.
Qed.

Lemma validate_unfold (password : pystr) :
  validate_password_strength password =
    if negb (passes MinLength password) then (false, msg_length)
    else if negb (passes HasUpper password) then (false, msg_upper)
    else if negb (passes HasLower password) then (false, msg_lower)
    else if negb (passes HasDigit password) then (false, msg_digit)
    else if negb (passes HasSpecial password) then (false, msg_special)
    else (true, msg_strong).
Proof.
  rewrite min_length_passes, negb_involutive. reflexivity.
Qed.

(** C6.  [validate_password_strength] is the five rules length >= 8,
    uppercase, lowercase, digit, special character, checked in this
    order: it agrees with the first-violation reading of the
    specification, it answers valid exactly when all five rules pass,
    and when a rule fails while every rule before it passes, the reason
    returned is that rule's. *)
Theorem validate_password_strength_rules (password : pystr) :
  validate_password_strength password = validate password
  ∧ (fst (validate_password_strength password) = true
     ↔ ∀ r, passes r password = true)
  ∧ (∀ r, passes r password = false →
          (∀ r', (position r' < position r)%nat → passes r' password = true) →
          validate_password_strength password = (false, reason r)).
Proof.
  rewrite validate_unfold. unfold validate, first_violation, rules.
  cbn [List.find].
  split; [|split].
  - destruct (passes MinLength password), (passes HasUpper password),
      (passes HasLower password), (passes HasDigit password),
      (passes HasSpecial password); reflexivity.
  - split.
    + intros Hv r.
      destruct (passes MinLength password) eqn:E1; [|discriminate Hv].
      destruct (passes HasUpper password) eqn:E2; [|discriminate Hv].
      destruct (passes HasLower password) eqn:E3; [|discriminate Hv].
      destruct (passes HasDigit password) eqn:E4; [|discriminate Hv].
      destruct (passes HasSpecial password) eqn:E5; [|discriminate Hv].
      destruct r; assumption.
    + intros Hall.
      rewrite (Hall MinLength), (Hall HasUpper), (Hall HasLower),
        (Hall HasDigit), (Hall HasSpecial). reflexivity.
  - intros r Hfail Hbefore.
    destruct r; cbn [position] in Hbefore;
      repeat match goal with
      | |- context [passes ?q password] =>
        first [ rewrite Hfail
              | rewrite (Hbefore q) by (cbn [position]; lia) ]
      end; reflexivity.
Qed.
End PolicyFacts.

(* --------------------------------------------------------------------- *)
(* Tokens                                                                *)
(* --------------------------------------------------------------------- *)

Section TokenFacts.
Context {J : Jose} {I : PyInt} (settings : Settings).
Import SecurityManager.

Lemma timegm_mono (a b : timestamp) : a ≤ b → timegm a ≤ timegm b.
Proof. intros Hab. unfold timegm. apply Z.div_le_mono; lia. Qed.

(** What [jwt.decode] answers on a token that this process signed with
    the three claims of [create_access_token] / [create_refresh_token]. *)
Lemma jwt_decode_own (exp : Z) (sub type : string) (now : timestamp) :
  let claims : gmap string claim :=
    <["exp" := CInt exp]>
      (<["sub" := CStr sub]> (<["type" := CStr type]> ∅)) in
  jwt_decode (jwt_encode claims (SECRET_KEY settings) (JWT_ALGORITHM settings))
             (SECRET_KEY settings) [JWT_ALGORITHM settings] now
  = if exp <? timegm now then Raise JWTError else Return claims.
Proof.
  intros claims. unfold jwt_encode, jwt_decode.
  rewrite bool_decide_eq_true_2 by (apply list_elem_of_singleton; reflexivity).
  rewrite String.eqb_refl. cbn [negb].
  assert (Hexp : claims !! "exp" = Some (CInt exp))
    by (unfold claims; apply lookup_insert_eq).
  assert (Hsub : claims !! "sub" = Some (CStr sub)).
  { unfold claims. rewrite lookup_insert_ne by discriminate.
    apply lookup_insert_eq. }
  assert (Hother : ∀ name, name ≠ "exp" → name ≠ "sub" → name ≠ "type" →
                           claims !! name = None).
  { intros name Hne1 Hne2 Hne3. unfold claims.
    rewrite !lookup_insert_ne by congruence. apply lookup_empty. }
  unfold validate_claims, validate_iat, validate_nbf, validate_exp,
    validate_aud, validate_sub, validate_jti, validate_at_hash.
  rewrite Hexp, Hsub, !Hother by discriminate.
  cbn [int_of_claim is_str].
  rewrite !bool_decide_eq_true_2 by reflexivity. cbn [andb].
  rewrite !andb_true_r.
  destruct (exp <? timegm now); reflexivity.
Qed.

Lemma verify_token_own (exp : Z) (sub type expected : string)
    (now : timestamp) :
  let claims : gmap string claim :=
    <["exp" := CInt exp]>
      (<["sub" := CStr sub]> (<["type" := CStr type]> ∅)) in
  verify_token settings
    (jwt_encode claims (SECRET_KEY settings) (JWT_ALGORITHM settings))
    expected now
  = if exp <? timegm now then None
    else if String.eqb type expected then Some (CStr sub) else None.
Proof.
  intros claims. unfold verify_token.
  pose proof (jwt_decode_own exp sub type now) as Hdec.
  cbv zeta in Hdec. fold claims in Hdec. rewrite Hdec.
  destruct (exp <? timegm now); [reflexivity|].
  assert (Htype : claims !! "type" = Some (CStr type)).
  { unfold claims. do 2 (rewrite lookup_insert_ne by discriminate).
    apply lookup_insert_eq. }
  assert (Hsub : claims !! "sub" = Some (CStr sub)).
  { unfold claims. rewrite lookup_insert_ne by discriminate.
    apply lookup_insert_eq. }
  rewrite Htype, Hsub.
  destruct (String.eqb_spec type expected) as [->|Hne].
  - rewrite bool_decide_eq_false_2; [reflexivity|]. intros Hc. now apply Hc.
  - rewrite bool_decide_eq_true_2; [reflexivity|]. congruence.
Qed.

(** C5.  An access token issued for [subj] and verified no later than
    its expiry gives back [str(subj)] when an access token is expected
    and nothing when a refresh token is expected; a refresh token is
    never accepted as an access token, at any time. *)
Theorem access_token_round_trip (subj : subject) (expires_delta : option Z)
    (issued verified : timestamp) :
  verified ≤ access_expire settings expires_delta issued →
  let tok := create_access_token settings subj expires_delta issued in
  verify_token settings tok "access" verified = Some (CStr (str subj))
  ∧ verify_token settings tok "refresh" verified = None
  ∧ ∀ t issued',
      verify_token settings (create_refresh_token settings subj issued')
                   "access" t = None.
Proof.
  intros Hlive tok. unfold tok, create_access_token, create_refresh_token.
  cbv zeta. repeat split.
  - rewrite verify_token_own.
    apply timegm_mono in Hlive.
    destruct (Z.ltb_spec (timegm (access_expire settings expires_delta issued))
                         (timegm verified)); [lia|reflexivity].
  - rewrite verify_token_own.
    destruct (_ <? _); reflexivity.
  - intros t issued'. rewrite verify_token_own.
    destruct (_ <? _); reflexivity.
Qed.
End TokenFacts.

(* --------------------------------------------------------------------- *)
(* Rate limiter                                                          *)
(* --------------------------------------------------------------------- *)

Section RateLimiterFacts.
Import RateLimiter.
Implicit Types (self : gmap string (list timestamp)) (l : list timestamp).

Lemma is_allowed_step self identifier max_requests window_seconds now :
  let cleaned := kept self identifier window_seconds now in
  let ok := Z.of_nat (List.length cleaned) <? max_requests in
  is_allowed self identifier max_requests window_seconds now
  = (ok, <[identifier := if ok then cleaned ++ [now] else cleaned]> self).
Proof.
  intros cleaned ok. unfold is_allowed.
  assert (Hc : match self !! identifier with
               | Some reqs =>
                 filter (λ req_time,
                   now - timedelta_seconds window_seconds < req_time) reqs
               | None => []
               end = cleaned).
  { unfold cleaned, kept. destruct (self !! identifier); reflexivity. }
  rewrite Hc. unfold ok. rewrite Z.geb_leb, Z.ltb_antisym.
  destruct (max_requests <=? Z.of_nat (List.length cleaned)); reflexivity.
Qed.













End RateLimiterFacts.

(* --------------------------------------------------------------------- *)
(* Password verification and login                                       *)
(* --------------------------------------------------------------------- *)

Section PasswordFacts.
Context {P : Passlib}.
Import SecurityManager.

(** C8, as the code has it.  [verify_password] hands both arguments to
    the passlib context and has no handler of its own: on a hash that
    carries no bcrypt prefix the context's [UnknownHashError] reaches
    the caller, so no boolean is returned. *)
Theorem verify_password_unknown_hash (plain_password : pystr)
    (hashed_password : string) :
  bcrypt_identify hashed_password = false →
  verify_password plain_password hashed_password = Raise UnknownHashError
  ∧ ∀ b, verify_password plain_password hashed_password ≠ Return b.
Proof.
  intros Hunknown. unfold verify_password, pwd_context_verify.
  rewrite Hunknown. split; [reflexivity|]. intros b. discriminate.
Qed.

(** On a hash with a bcrypt prefix the answer is bcrypt's, whether a
    boolean or an exception. *)
Lemma verify_password_bcrypt (plain_password : pystr)
    (hashed_password : string) :
  bcrypt_identify hashed_password = true →
  verify_password plain_password hashed_password
  = bcrypt_verify plain_password hashed_password.
Proof.
  intros Hknown. unfold verify_password, pwd_context_verify.
  now rewrite Hknown.
Qed.
End PasswordFacts.

Section LoginFacts.
Context {U : Unicode} {P : Passlib} {J : Jose} (settings : Settings).

End LoginFacts.

(* --------------------------------------------------------------------- *)
(* Password reset                                                        *)
(* --------------------------------------------------------------------- *)

Section StoreFacts.

Lemma find_all_false {A} (f : A → bool) (l : list A) :
  (∀ x, In x l → f x = false) → List.find f l = None.
Proof.
  induction l as [|x l IH]; intros Hall; [reflexivity|].
  cbn. rewrite (Hall x) by now left.
  apply IH. intros y Hy. apply Hall. now right.
Qed.

(** After [UPDATE users SET ... WHERE id = i], a lookup by [i] finds the
    new row, provided the table had a row [i]. *)
Lemma find_user_after_commit (row : User) (rows : list User) :
  (∃ r, In r rows ∧ u_id r = u_id row) →
  List.find (λ u, u_id u =? u_id row)
            (map (λ r, if u_id r =? u_id row then row else r) rows)
  = Some row.
Proof.
  induction rows as [|x rows IH]; intros (r & Hin & Hid).
  - destruct Hin.
  - cbn [map List.find].
    destruct (Z.eqb_spec (u_id x) (u_id row)) as [Heq|Hne].
    + now rewrite Z.eqb_refl.
    + destruct (Z.eqb_spec (u_id x) (u_id row)); [contradiction|].
      apply IH. destruct Hin as [->|Hin]; [contradiction|]. eauto.
Qed.

Lemma find_by_id_some (i : Z) (rows : list User) (row : User) :
  In row rows → u_id row = i →
  ∃ r, List.find (λ u, u_id u =? i) rows = Some r ∧ u_id r = i.
Proof.
  induction rows as [|x rows IH]; intros Hin Hid; [destruct Hin|].
  cbn [List.find]. destruct (Z.eqb_spec (u_id x) i) as [Heq|Hne].
  - eauto.
  - destruct Hin as [->|Hin]; [contradiction|]. now apply IH.
Qed.

(** A lookup by primary key finds the row itself. *)
Lemma find_user_by_primary_key (rows : list User) (row : User) :
  NoDup (map u_id rows) → In row rows →
  List.find (λ u, u_id u =? u_id row) rows = Some row.
Proof.
  induction rows as [|x rows IH]; intros Hnd Hin; [destruct Hin|].
  cbn [map] in Hnd. apply NoDup_cons in Hnd as [Hx Hnd].
  cbn [List.find]. destruct Hin as [->|Hin].
  - now rewrite Z.eqb_refl.
  - destruct (Z.eqb_spec (u_id x) (u_id row)) as [Heq|Hne].
    + exfalso. apply Hx. rewrite Heq.
      apply list_elem_of_In, in_map, Hin.
    + now apply IH.
Qed.
End StoreFacts.

Section ResetFacts.
Import UserService.

Lemma plus_one_hour_is_duration (dt : datetime) :
  0 ≤ hour dt ≤ 23 →
  to_micro (plus_one_hour dt) = to_micro dt + 3600 * 1000000.
Proof.
  intros Hh. unfold plus_one_hour, to_micro.
  destruct (Z.ltb_spec (hour dt) 23); cbn [ordinal hour minute second microsecond];
    lia.
Qed.

Lemma set_password_reset_token_raises (db : Db) (user_id : Z)
    (reset_token : string) (now_replaced now_hour now_updated : datetime)
    (user : User) :
  List.find (λ u, u_id u =? user_id) (users db) = Some user →
  hour now_hour = 23 →
  set_password_reset_token user_id reset_token
    now_replaced now_hour now_updated db
  = (Raise (ValueError "hour must be in 0..23"), db).
Proof.
  intros Hfound H23.
  unfold set_password_reset_token, bind, get_user_by_id, query, lift.
  rewrite Hfound. unfold replace_hour. rewrite H23. reflexivity.
Qed.

(** C9.  When the clock reading whose hour is taken has hour 23,
    [set_password_reset_token] asks [replace] for hour 24 and ends in a
    [ValueError]: nothing is committed and no expiry is set, although
    one hour after that reading is a well-defined instant. *)
Theorem set_password_reset_token_hour_23 (db : Db) (user_id : Z)
    (reset_token : string) (now_replaced now_hour now_updated : datetime)
    (user : User) :
  List.find (λ u, u_id u =? user_id) (users db) = Some user →
  hour now_hour = 23 →
  set_password_reset_token user_id reset_token
    now_replaced now_hour now_updated db
  = (Raise (ValueError "hour must be in 0..23"), db)
  ∧ (∀ row, (set_password_reset_token user_id reset_token
               now_replaced now_hour now_updated db).1 ≠ Return row)
  ∧ to_micro (plus_one_hour now_hour) = to_micro now_hour + 3600 * 1000000.
Proof.
  intros Hfound H23.
  pose proof (set_password_reset_token_raises db user_id reset_token
                now_replaced now_hour now_updated user Hfound H23) as Hraise.
  split; [exact Hraise|]. split.
  - intros row. rewrite Hraise. discriminate.
  - apply plus_one_hour_is_duration. lia.
Qed.

(** Before 23:00, with one reading of the clock, the stored expiry is
    one hour after it. *)
Lemma set_password_reset_token_before_23 (db : Db) (user_id : Z)
    (reset_token : string) (now : datetime) (user : User) :
  List.find (λ u, u_id u =? user_id) (users db) = Some user →
  0 ≤ hour now < 23 →
  (set_password_reset_token user_id reset_token now now now db).1
  = Return (reset_requested user reset_token (plus_one_hour now) now).
Proof.
  intros Hfound Hh.
  unfold set_password_reset_token, bind, get_user_by_id, query, lift.
  rewrite Hfound. unfold replace_hour, plus_one_hour.
  destruct (Z.leb_spec 0 (hour now + 1)); [|lia].
  destruct (Z.leb_spec (hour now + 1) 23); [|lia].
  destruct (Z.ltb_spec (hour now) 23); [|lia].
  reflexivity.
Qed.

(** The endpoint lets the [ValueError] through. *)
Lemma request_password_reset_hour_23 (db : Db) (email fresh_token : string)
    (now_replaced now_hour now_updated : datetime) (user : User) :
  List.find (λ u, String.eqb (u_email u) email) (users db) = Some user →
  hour now_hour = 23 →
  auth.request_password_reset email fresh_token
    now_replaced now_hour now_updated db
  = (Raise (ValueError "hour must be in 0..23"), db).
Proof.
  intros Hfound H23.
  apply List.find_some in Hfound as Hin. destruct Hin as [Hin _].
  destruct (find_by_id_some (u_id user) (users db) user Hin eq_refl)
    as (r & Hr & _).
  unfold auth.request_password_reset. unfold bind at 1.
  unfold get_user_by_email, query. rewrite Hfound. unfold bind.
  rewrite (set_password_reset_token_raises db (u_id user) fresh_token
             now_replaced now_hour now_updated r Hr H23).
  reflexivity.
Qed.
End ResetFacts.

Section ResetPasswordFacts.
Context {U : Unicode} {P : Passlib}.
Import UserService.

(** The endpoint, with the monad unfolded. *)
Lemma reset_password_cases (db : Db) (reset_data : PasswordReset)
    (salt : string) (now : datetime) :
  auth.reset_password reset_data salt now db
  = match List.find (auth.has_reset_token (reset_token reset_data))
                    (users db) with
    | None => (Raise (HTTPException 400 "Invalid reset token" []), db)
    | Some user =>
      if (SecurityManager.validate_password_strength
            (reset_new_password reset_data)).1
      then
        match List.find (λ u, u_id u =? u_id user) (users db) with
        | None => (Raise user_not_found, db)
        | Some row =>
          match SecurityManager.get_password_hash salt
                  (reset_new_password reset_data) with
          | Raise e => (Raise e, db)
          | Return password_hash =>
            (Return "Password reset successfully",
             {| users := map (λ r, if u_id r =? u_id row
                                   then password_replaced row password_hash now
                                   else r)
                             (users db);
                accounts := accounts db |})
          end
        end
      else
        (Raise (HTTPException 400
                  (SecurityManager.validate_password_strength
                     (reset_new_password reset_data)).2 []), db)
    end.
Proof.
  cbv [auth.reset_password bind query].
  destruct (List.find (auth.has_reset_token (reset_token reset_data))
                      (users db)) as [user|]; [|reflexivity].
  destruct (SecurityManager.validate_password_strength
              (reset_new_password reset_data)) as [is_valid message].
  destruct is_valid; [|reflexivity]. cbn [negb fst].
  cbv [bind reset_password get_user_by_id query lift].
  destruct (List.find (λ u, u_id u =? u_id user) (users db)); [|reflexivity].
  destruct (SecurityManager.get_password_hash salt
              (reset_new_password reset_data)); reflexivity.
Qed.

(** What a reset does once the token selects [user], the new password
    passes the policy and bcrypt hashes it. *)
Lemma reset_password_success (db : Db) (reset_data : PasswordReset)
    (salt : string) (now : datetime) (user : User) (password_hash : string) :
  primary_keys db →
  List.find (auth.has_reset_token (reset_token reset_data)) (users db)
  = Some user →
  (SecurityManager.validate_password_strength
     (reset_new_password reset_data)).1 = true →
  SecurityManager.get_password_hash salt (reset_new_password reset_data)
  = Return password_hash →
  auth.reset_password reset_data salt now db
  = (Return "Password reset successfully",
     {| users := map (λ r, if u_id r =? u_id user
                           then password_replaced user password_hash now
                           else r)
                     (users db);
        accounts := accounts db |}).
Proof.
  intros [Hpk _] Hfound Hvalid Hhash.
  pose proof (List.find_some _ _ Hfound) as [Hin _].
  rewrite reset_password_cases, Hfound, Hvalid.
  now rewrite (find_user_by_primary_key (users db) user Hpk Hin), Hhash.
Qed.

(** A reset that succeeds found a row, a valid password and a hash. *)
Lemma reset_password_return_inv (db db' : Db) (reset_data : PasswordReset)
    (salt : string) (now : datetime) (message : string) :
  auth.reset_password reset_data salt now db = (Return message, db') →
  ∃ user password_hash,
    List.find (auth.has_reset_token (reset_token reset_data)) (users db)
    = Some user
    ∧ (SecurityManager.validate_password_strength
         (reset_new_password reset_data)).1 = true
    ∧ SecurityManager.get_password_hash salt (reset_new_password reset_data)
      = Return password_hash.
Proof.
  rewrite reset_password_cases.
  destruct (List.find (auth.has_reset_token (reset_token reset_data))
                      (users db)) as [user|]; [|discriminate].
  destruct ((SecurityManager.validate_password_strength
               (reset_new_password reset_data)).1); [|discriminate].
  destruct (List.find _ (users db)); [|discriminate].
  destruct (SecurityManager.get_password_hash salt
              (reset_new_password reset_data)) as [password_hash|];
    [|discriminate].
  intros _. now exists user, password_hash.
Qed.



Lemma find_without_expiry (f : User → bool) (rows : list User) :
  (∀ u, f (without_expiry u) = f u) →
  List.find f (map without_expiry rows) = without_expiry <$> List.find f rows.
Proof.
  intros Hf. induction rows as [|x rows IH]; [reflexivity|].
  cbn [map List.find]. rewrite Hf. destruct (f x); [reflexivity|exact IH].
Qed.

(** The reset never reads [password_reset_expires]: on the store with
    that column blanked it gives the same response and the same store,
    blanked. *)
Lemma reset_password_expiry_blind (db : Db) (reset_data : PasswordReset)
    (salt : string) (now : datetime) :
  auth.reset_password reset_data salt now (forget_expiry db)
  = ((auth.reset_password reset_data salt now db).1,
     forget_expiry (auth.reset_password reset_data salt now db).2).
Proof.
  rewrite !reset_password_cases. cbn [forget_expiry users accounts].
  rewrite find_without_expiry by reflexivity.
  destruct (List.find (auth.has_reset_token (reset_token reset_data))
                      (users db)) as [user|]; [|reflexivity].
  cbn [fmap option_fmap option_map].
  destruct ((SecurityManager.validate_password_strength
               (reset_new_password reset_data)).1); [|reflexivity].
  rewrite find_without_expiry by reflexivity.
  cbn [without_expiry u_id].
  destruct (List.find (λ u, u_id u =? u_id user) (users db)) as [row|];
    [|reflexivity].
  cbn [fmap option_fmap option_map].
  destruct (SecurityManager.get_password_hash salt
              (reset_new_password reset_data)) as [password_hash|];
    [|reflexivity].
  cbn [fst snd]. unfold forget_expiry. cbn [users accounts].
  f_equal. f_equal. rewrite !map_map. apply map_ext. intros x.
  cbn [password_replaced without_expiry u_id].
  destruct (u_id x =? u_id row); reflexivity.
Qed.

(** C4.  The reset looks only at the token and at the new password:
    when a row holds the presented token, the password passes the
    policy and bcrypt hashes it, the reset succeeds, at every reading
    [now] of the clock and whatever the row's [password_reset_expires]
    is, so also when [now] is past it: the answer is "Password reset
    successfully" and the row now has the new hash and no token and no
    expiry.  Blanking every [password_reset_expires] in the store
    changes nothing in the outcome. *)
Theorem reset_password_ignores_expiry (db : Db) (reset_data : PasswordReset)
    (salt : string) (now : datetime) (user : User) (password_hash : string) :
  primary_keys db →
  List.find (auth.has_reset_token (reset_token reset_data)) (users db)
  = Some user →
  (SecurityManager.validate_password_strength
     (reset_new_password reset_data)).1 = true →
  SecurityManager.get_password_hash salt (reset_new_password reset_data)
  = Return password_hash →
  (auth.reset_password reset_data salt now db).1
  = Return "Password reset successfully"
  ∧ List.find (λ u, u_id u =? u_id user)
              (users (auth.reset_password reset_data salt now db).2)
    = Some {| u_id := u_id user;
              u_email := u_email user;
              u_password_hash := password_hash;
              u_is_active := u_is_active user;
              u_is_superuser := u_is_superuser user;
              u_created_at := u_created_at user;
              u_updated_at := now;
              u_last_login := u_last_login user;
              u_password_reset_token := None;
              u_password_reset_expires := None |}
  ∧ auth.reset_password reset_data salt now (forget_expiry db)
    = ((auth.reset_password reset_data salt now db).1,
       forget_expiry (auth.reset_password reset_data salt now db).2).
Proof.
  intros Hpk Hfound Hvalid Hhash.
  split; [|split; [|apply reset_password_expiry_blind]].
  - now rewrite (reset_password_success db reset_data salt now user
                   password_hash Hpk Hfound Hvalid Hhash).
  - rewrite (reset_password_success db reset_data salt now user
               password_hash Hpk Hfound Hvalid Hhash).
    cbn [snd users].
    apply List.find_some in Hfound as [Hin _].
    apply (find_user_after_commit (password_replaced user password_hash now)).
    exists user. split; [exact Hin | reflexivity].
Qed.
End ResetPasswordFacts.

(* --------------------------------------------------------------------- *)
(* Ownership                                                             *)
(* --------------------------------------------------------------------- *)

Section OwnershipFacts.

Lemma account_key_unique (rows : list Account) (a b : Account) :
  NoDup (map a_id rows) → In a rows → In b rows → a_id a = a_id b → a = b.
Proof.
  induction rows as [|x rows IH]; intros Hnd Ha Hb Hid; [destruct Ha|].
  cbn [map] in Hnd. apply NoDup_cons in Hnd as [Hx Hnd].
  assert (Hfresh : ∀ c, In c rows → a_id c ≠ a_id x).
  { intros c Hc Heq. apply Hx. rewrite <- Heq.
    apply list_elem_of_In, in_map, Hc. }
  destruct Ha as [->|Ha], Hb as [->|Hb].
  - reflexivity.
  - exfalso. now apply (Hfresh b Hb).
  - exfalso. now apply (Hfresh a Ha).
  - now apply IH.
Qed.

Lemma find_not_owned (db : Db) (account : Account) (user_id : Z) :
  primary_keys db → In account (accounts db) →
  a_user_id account ≠ user_id →
  List.find (owned_by (a_id account) user_id) (accounts db) = None.
Proof.
  intros [_ Hpk] Hin Hother. apply find_all_false. intros x Hx.
  unfold owned_by.
  destruct (Z.eqb_spec (a_id x) (a_id account)) as [Heq|]; [|reflexivity].
  rewrite (account_key_unique (accounts db) x account Hpk Hx Hin Heq).
  cbn. now apply Z.eqb_neq.
Qed.

Lemma find_owned (db : Db) (account : Account) :
  primary_keys db → In account (accounts db) →
  List.find (owned_by (a_id account) (a_user_id account)) (accounts db)
  = Some account.
Proof.
  intros [_ Hpk] Hin.
  destruct (List.find (owned_by (a_id account) (a_user_id account))
                      (accounts db)) as [x|] eqn:Hfind.
  - apply List.find_some in Hfind as [Hx Hown]. unfold owned_by in Hown.
    apply andb_prop in Hown as [Hid _]. apply Z.eqb_eq in Hid.
    now rewrite (account_key_unique (accounts db) x account Hpk Hx Hin Hid).
  - exfalso. apply (List.find_none _ _ Hfind) in Hin.
    unfold owned_by in Hin. now rewrite !Z.eqb_refl in Hin.
Qed.

(** When the owner-filtered query finds nothing, every handler that
    targets one account answers 404 and commits nothing. *)
Lemma handlers_not_found (db : Db) (account_id : Z) (current_user : User)
    (account_data : AccountUpdate) (hard_delete : bool) (now : datetime) :
  List.find (owned_by account_id (u_id current_user)) (accounts db) = None →
  let not_found : result Account * Db :=
    (Raise (HTTPException 404 "Account not found" []), db) in
  accounts.get_account account_id current_user db = not_found
  ∧ accounts.update_account account_id account_data current_user now db
    = not_found
  ∧ accounts.delete_account account_id hard_delete current_user now db
    = (Raise (HTTPException 404 "Account not found" []), db)
  ∧ accounts.activate_account account_id current_user now db
    = (Raise (HTTPException 404 "Account not found" []), db).
Proof.
  intros Hnone not_found. repeat split.
  - cbv [accounts.get_account AccountService.get_account bind query].
    now rewrite Hnone.
  - cbv [accounts.update_account AccountService.update_account
           AccountService.get_account bind query].
    now rewrite Hnone.
  - destruct hard_delete;
      cbv [accounts.delete_account AccountService.hard_delete_account
             AccountService.delete_account AccountService.get_account
             bind query];
      now rewrite Hnone.
  - cbv [accounts.activate_account AccountService.update_account
           AccountService.get_account bind query].
    now rewrite Hnone.
Qed.

(** An account that is not in the table at all gets the same answer as
    one that another identity owns. *)
Lemma handlers_absent_account (db : Db) (account_id : Z) (current_user : User)
    (account_data : AccountUpdate) (hard_delete : bool) (now : datetime) :
  (∀ a, In a (accounts db) → a_id a ≠ account_id) →
  accounts.get_account account_id current_user db
  = (Raise (HTTPException 404 "Account not found" []), db)
  ∧ accounts.update_account account_id account_data current_user now db
    = (Raise (HTTPException 404 "Account not found" []), db)
  ∧ accounts.delete_account account_id hard_delete current_user now db
    = (Raise (HTTPException 404 "Account not found" []), db)
  ∧ accounts.activate_account account_id current_user now db
    = (Raise (HTTPException 404 "Account not found" []), db).
Proof.
  intros Habsent. apply handlers_not_found. apply find_all_false.
  intros a Ha. unfold owned_by.
  destruct (Z.eqb_spec (a_id a) account_id) as [Heq|]; [|reflexivity].
  now destruct (Habsent a Ha).
Qed.

Lemma check_account_access_decision (db : Db) (account_id : Z)
    (current_user : User) :
  deps.check_account_access account_id current_user db
  = if bool_decide (is_Some (List.find (owned_by account_id (u_id current_user))
                                       (accounts db)))
       || u_is_superuser current_user
    then (Return current_user, db)
    else (Raise (HTTPException 403 "Access denied to this account" []), db).
Proof.
  cbv [deps.check_account_access bind query].
  destruct (bool_decide _), (u_is_superuser current_user); reflexivity.
Qed.

(** C1.  For an identity that is not a superuser and an account that
    another identity owns, each of the four requests that target one
    account (read, update, delete, activate) ends in 404 "Account not
    found" and changes nothing: the handler turns the empty answer of
    the owner-filtered lookup into "not found", and no request ends in
    a 403, whatever its detail and headers. *)
Theorem ownership_mismatch_outcomes (db : Db) (account : Account)
    (current_user : User) (account_data : AccountUpdate)
    (hard_delete : bool) (now : datetime) :
  primary_keys db → In account (accounts db) →
  u_is_superuser current_user = false →
  a_user_id account ≠ u_id current_user →
  (accounts.get_account (a_id account) current_user db
   = (Raise (HTTPException 404 "Account not found" []), db)
   ∧ accounts.update_account (a_id account) account_data current_user now db
     = (Raise (HTTPException 404 "Account not found" []), db)
   ∧ accounts.delete_account (a_id account) hard_delete current_user now db
     = (Raise (HTTPException 404 "Account not found" []), db)
   ∧ accounts.activate_account (a_id account) current_user now db
     = (Raise (HTTPException 404 "Account not found" []), db))
  ∧ ∀ detail headers,
      (accounts.get_account (a_id account) current_user db).1
      ≠ Raise (HTTPException 403 detail headers)
      ∧ (accounts.update_account (a_id account) account_data current_user now
           db).1
        ≠ Raise (HTTPException 403 detail headers)
      ∧ (accounts.delete_account (a_id account) hard_delete current_user now
           db).1
        ≠ Raise (HTTPException 403 detail headers)
      ∧ (accounts.activate_account (a_id account) current_user now db).1
        ≠ Raise (HTTPException 403 detail headers).
Proof.
  intros Hpk Hin _ Hother.
  pose proof (find_not_owned db account (u_id current_user) Hpk Hin Hother)
    as Hnone.
  destruct (handlers_not_found db (a_id account) current_user account_data
              hard_delete now Hnone) as (Hget & Hupd & Hdel & Hact).
  split; [now repeat split|].
  intros detail headers. rewrite Hget, Hupd, Hdel, Hact.
  repeat split; discriminate.
Qed.

(** C2, as the code has it.  The handlers decide by ownership alone:
    reading an account succeeds exactly when the identity owns it, and
    for any other identity, superuser or not, read, update, delete and
    activate answer 404.  The superuser exception exists only in the
    dependency [check_account_access], which lets an identity through
    exactly when it owns the account or is a superuser. *)
Theorem ownership_decision (db : Db) (account : Account)
    (current_user : User) :
  primary_keys db → In account (accounts db) →
  (accounts.get_account (a_id account) current_user db = (Return account, db)
   ↔ a_user_id account = u_id current_user)
  ∧ (a_user_id account ≠ u_id current_user →
     ∀ account_data hard_delete now,
       accounts.get_account (a_id account) current_user db
       = (Raise (HTTPException 404 "Account not found" []), db)
       ∧ accounts.update_account (a_id account) account_data current_user
           now db
         = (Raise (HTTPException 404 "Account not found" []), db)
       ∧ accounts.delete_account (a_id account) hard_delete current_user
           now db
         = (Raise (HTTPException 404 "Account not found" []), db)
       ∧ accounts.activate_account (a_id account) current_user now db
         = (Raise (HTTPException 404 "Account not found" []), db))
  ∧ (deps.check_account_access (a_id account) current_user db
     = (Return current_user, db)
     ↔ a_user_id account = u_id current_user
       ∨ u_is_superuser current_user = true).
Proof.
  intros Hpk Hin. split; [|split].
  - split.
    + intros Hget.
      destruct (Z.eq_dec (a_user_id account) (u_id current_user))
        as [|Hother]; [assumption|].
      pose proof (find_not_owned db account _ Hpk Hin Hother) as Hnone.
      cbv [accounts.get_account AccountService.get_account bind query]
        in Hget.
      rewrite Hnone in Hget. discriminate.
    + intros Hown.
      cbv [accounts.get_account AccountService.get_account bind query].
      rewrite <- Hown.
      now rewrite (find_owned db account Hpk Hin).
  - intros Hother account_data hard_delete now.
    apply (handlers_not_found db (a_id account) current_user account_data
             hard_delete now).
    now apply find_not_owned.
  - rewrite check_account_access_decision.
    destruct (Z.eq_dec (a_user_id account) (u_id current_user))
      as [Hown|Hother].
    + rewrite <- Hown, (find_owned db account Hpk Hin).
      rewrite bool_decide_eq_true_2 by eauto. cbn. split; auto.
    + rewrite (find_not_owned db account _ Hpk Hin Hother).
      rewrite bool_decide_eq_false_2 by apply is_Some_None. cbn.
      destruct (u_is_superuser current_user); split; intros H;
        try reflexivity; try discriminate; auto.
      destruct H as [H|H]; [contradiction|discriminate].
Qed.
End OwnershipFacts.

(* ===================================================================== *)
(* Worked examples                                                       *)
(* ===================================================================== *)

(** From here on the sample libraries stand for the three interfaces. *)
#[local] Existing Instance Sample.unicode.
#[local] Existing Instance Sample.passlib.
#[local] Existing Instance Sample.jose.
#[local] Existing Instance Scenario.pyint.

Example validate_Weak1 :
  SecurityManager.validate_password_strength (U := Sample.unicode)
    (text "Weak1!")
  = (false, "Password must be at least 8 characters long").
Proof. reflexivity. Qed.

Example validate_Strong1 :
  SecurityManager.validate_password_strength (U := Sample.unicode)
    (text "Strong1!")
  = (true, "Password is strong").
Proof. reflexivity. Qed.

Example validate_no_special :
  SecurityManager.validate_password_strength (U := Sample.unicode)
    (text "Strong123")
  = (false, "Password must contain at least one special character").
Proof. reflexivity. Qed.

Lemma sample_primary_keys : primary_keys Sample.db.
Proof.
  split; refine (bool_decide_unpack (NoDup _) _); vm_compute; exact I.
Defined.

(** The dependency [check_account_access], which no route uses, would
    raise 403 for user 9 and account 42 of user 7. *)
Example check_account_access_forbidden :
  u_is_superuser Sample.user9 = false
  ∧ In Sample.account42 (accounts Sample.db)
  ∧ a_user_id Sample.account42 ≠ u_id Sample.user9
  ∧ deps.check_account_access 42 Sample.user9 Sample.db
    = (Raise (HTTPException 403 "Access denied to this account" []),
       Sample.db).
Proof.
  split; [reflexivity|]. split; [now left|]. split; [discriminate|].
  reflexivity.
Qed.

(** User 9, not a superuser, asks for account 42 of user 7: 404 for each
    of the four requests. *)
Lemma ownership_mismatch_outcomes_witness :
  (accounts.get_account 42 Sample.user9 Sample.db
   = (Raise (HTTPException 404 "Account not found" []), Sample.db)
   ∧ accounts.update_account 42 Sample.rename Sample.user9 Sample.next_day
       Sample.db
     = (Raise (HTTPException 404 "Account not found" []), Sample.db)
   ∧ accounts.delete_account 42 true Sample.user9 Sample.next_day Sample.db
     = (Raise (HTTPException 404 "Account not found" []), Sample.db)
   ∧ accounts.activate_account 42 Sample.user9 Sample.next_day Sample.db
     = (Raise (HTTPException 404 "Account not found" []), Sample.db))
  ∧ ∀ detail headers,
      (accounts.get_account 42 Sample.user9 Sample.db).1
      ≠ Raise (HTTPException 403 detail headers)
      ∧ (accounts.update_account 42 Sample.rename Sample.user9
           Sample.next_day Sample.db).1
        ≠ Raise (HTTPException 403 detail headers)
      ∧ (accounts.delete_account 42 true Sample.user9 Sample.next_day
           Sample.db).1
        ≠ Raise (HTTPException 403 detail headers)
      ∧ (accounts.activate_account 42 Sample.user9 Sample.next_day
           Sample.db).1
        ≠ Raise (HTTPException 403 detail headers).
Proof.
  apply (ownership_mismatch_outcomes Sample.db Sample.account42 Sample.user9
           Sample.rename true Sample.next_day).
  - exact sample_primary_keys.
  - now left.
  - reflexivity.
  - discriminate.
Defined.

(** The superuser asks for account 42 of user 7: 404 as well. *)
Lemma superuser_read_not_found :
  u_is_superuser Sample.admin = true
  ∧ In Sample.account42 (accounts Sample.db)
  ∧ accounts.get_account 42 Sample.admin Sample.db
    = (Raise (HTTPException 404 "Account not found" []), Sample.db)
  ∧ accounts.update_account 42 Sample.rename Sample.admin Sample.next_day
      Sample.db
    = (Raise (HTTPException 404 "Account not found" []), Sample.db)
  ∧ accounts.delete_account 42 false Sample.admin Sample.next_day Sample.db
    = (Raise (HTTPException 404 "Account not found" []), Sample.db).
Proof.
  split; [reflexivity|]. split; [now left|]. repeat split; reflexivity.
Qed.

Lemma ownership_decision_witness :
  (accounts.get_account 42 Sample.admin Sample.db
   = (Return Sample.account42, Sample.db)
   ↔ a_user_id Sample.account42 = u_id Sample.admin)
  ∧ (a_user_id Sample.account42 ≠ u_id Sample.admin →
     ∀ account_data hard_delete now,
       accounts.get_account 42 Sample.admin Sample.db
       = (Raise (HTTPException 404 "Account not found" []), Sample.db)
       ∧ accounts.update_account 42 account_data Sample.admin now Sample.db
         = (Raise (HTTPException 404 "Account not found" []), Sample.db)
       ∧ accounts.delete_account 42 hard_delete Sample.admin now Sample.db
         = (Raise (HTTPException 404 "Account not found" []), Sample.db)
       ∧ accounts.activate_account 42 Sample.admin now Sample.db
         = (Raise (HTTPException 404 "Account not found" []), Sample.db))
  ∧ (deps.check_account_access 42 Sample.admin Sample.db
     = (Return Sample.admin, Sample.db)
     ↔ a_user_id Sample.account42 = u_id Sample.admin
       ∨ u_is_superuser Sample.admin = true).
Proof.
  apply (ownership_decision Sample.db Sample.account42 Sample.admin).
  - exact sample_primary_keys.
  - now left.
Defined.



Lemma reset_password_ignores_expiry_witness :
  u_password_reset_expires Sample.user7
  = Some {| ordinal := 739558; hour := 11; minute := 30; second := 0;
            microsecond := 0 |}
  ∧ to_micro {| ordinal := 739558; hour := 11; minute := 30; second := 0;
                microsecond := 0 |} < to_micro Sample.next_day
  ∧ (auth.reset_password Sample.reset "pepper" Sample.next_day Sample.db).1
    = Return "Password reset successfully"
  ∧ List.find (λ u, u_id u =? u_id Sample.user7)
              (users (auth.reset_password Sample.reset "pepper"
                        Sample.next_day Sample.db).2)
    = Some {| u_id := u_id Sample.user7;
              u_email := u_email Sample.user7;
              u_password_hash := "$2b$Fresh-Pass2$pepper";
              u_is_active := u_is_active Sample.user7;
              u_is_superuser := u_is_superuser Sample.user7;
              u_created_at := u_created_at Sample.user7;
              u_updated_at := Sample.next_day;
              u_last_login := u_last_login Sample.user7;
              u_password_reset_token := None;
              u_password_reset_expires := None |}
  ∧ auth.reset_password Sample.reset "pepper" Sample.next_day
      (forget_expiry Sample.db)
    = ((auth.reset_password Sample.reset "pepper" Sample.next_day
          Sample.db).1,
       forget_expiry (auth.reset_password Sample.reset "pepper"
                        Sample.next_day Sample.db).2).
Proof.
  split; [reflexivity|]. split; [reflexivity|].
  apply (reset_password_ignores_expiry Sample.db Sample.reset "pepper"
           Sample.next_day Sample.user7 "$2b$Fresh-Pass2$pepper").
  - exact sample_primary_keys.
  - reflexivity.
  - reflexivity.
  - reflexivity.
Defined.

Lemma access_token_round_trip_witness :
  let tok :=
    SecurityManager.create_access_token (J := Sample.jose) default_settings
      (SubjInt 7) None 1762170000000000 in
  SecurityManager.verify_token default_settings tok "access" 1762170600000000
  = Some (CStr (str (SubjInt 7)))
  ∧ SecurityManager.verify_token default_settings tok "refresh"
      1762170600000000 = None
  ∧ ∀ t issued',
      SecurityManager.verify_token default_settings
        (SecurityManager.create_refresh_token default_settings (SubjInt 7)
           issued') "access" t = None.
Proof.
  apply (access_token_round_trip (J := Sample.jose) default_settings
           (SubjInt 7) None 1762170000000000 1762170600000000).
  vm_compute. discriminate.
Defined.

Example access_token_subject :
  SecurityManager.verify_token (J := Sample.jose) default_settings
    (SecurityManager.create_access_token default_settings (SubjInt 7) None
       1762170000000000)
    "access" 1762170600000000
  = Some (CStr "7").
Proof. vm_compute. reflexivity. Qed.

Example access_token_expired :
  SecurityManager.verify_token (J := Sample.jose) default_settings
    (SecurityManager.create_access_token default_settings (SubjInt 7) None
       1762170000000000)
    "access" 1762171801000000
  = None.
Proof. vm_compute. reflexivity. Qed.



(** Two admitted, the third of the same window denied; the call of
    another client is not counted; a call exactly [window_seconds] after
    the first finds the first one dropped. *)
Example rate_limiter_run :
  (RateLimiter.run RateLimiter.init 2 60 Sample.calls).1
  = [true; true; true; false; true; false].
Proof. vm_compute. reflexivity. Qed.

Lemma verify_password_unknown_hash_witness :
  SecurityManager.verify_password (P := Sample.passlib) (text "Strong1!")
    "not-a-hash" = Raise UnknownHashError
  ∧ ∀ b, SecurityManager.verify_password (P := Sample.passlib)
           (text "Strong1!") "not-a-hash" ≠ Return b.
Proof.
  apply (verify_password_unknown_hash (P := Sample.passlib)).
  reflexivity.
Defined.

(** Whatever bcrypt does, a hash argument without a bcrypt prefix makes
    [verify_password] raise: it does not return [False]. *)
Lemma verify_password_raises :
  ¬ ∃ P : Passlib,
      SecurityManager.verify_password (P := P) (text "Strong1!") "not-a-hash"
      = Return false.
Proof. intros [P HP]. vm_compute in HP. discriminate HP. Qed.

Lemma set_password_reset_token_hour_23_witness :
  UserService.set_password_reset_token 7 "kq3vVd0cXo"
    Sample.late_evening Sample.late_evening Sample.late_evening Sample.db
  = (Raise (ValueError "hour must be in 0..23"), Sample.db)
  ∧ (∀ row, (UserService.set_password_reset_token 7 "kq3vVd0cXo"
               Sample.late_evening Sample.late_evening Sample.late_evening
               Sample.db).1 ≠ Return row)
  ∧ to_micro (plus_one_hour Sample.late_evening)
    = to_micro Sample.late_evening + 3600 * 1000000.
Proof.
  apply (set_password_reset_token_hour_23 Sample.db 7 "kq3vVd0cXo"
           Sample.late_evening Sample.late_evening Sample.late_evening
           Sample.user7).
  - reflexivity.
  - reflexivity.
Defined.


(** The clock is read twice for the expiry: when the hour turns between
    the two readings, the stored expiry is almost two hours ahead. *)
Example expiry_across_the_hour :
  (UserService.set_password_reset_token 7 "kq3vVd0cXo"
     Sample.just_before_eleven Sample.just_after_eleven
     Sample.just_after_eleven Sample.db).1
  = Return (UserService.reset_requested Sample.user7 "kq3vVd0cXo"
              {| ordinal := 739558; hour := 12; minute := 59; second := 59;
                 microsecond := 999999 |}
              Sample.just_after_eleven).
Proof. reflexivity. Qed.

(* ===================================================================== *)
(* Further properties                                                    *)
(* ===================================================================== *)

(* --------------------------------------------------------------------- *)
(* Tokens: expiry, refresh tokens, what is accepted                      *)
(* --------------------------------------------------------------------- *)

Section MoreTokenFacts.
Context {J : Jose} {I : PyInt} (settings : Settings).
Import SecurityManager.

Lemma timegm_next_second (a b : Z) : a + 1000000 ≤ b → timegm a < timegm b.
Proof.
  intros Hab. unfold timegm.
  assert (H1 : (a + 1 * 1000000) / 1000000 ≤ b / 1000000)
    by (apply Z.div_le_mono; lia).
  rewrite Z.div_add in H1 by lia. lia.
Qed.

(** X1.  A refresh token verified as a refresh token no later than its
    expiry, [JWT_REFRESH_EXPIRE_DAYS] days after it was issued, gives
    back [str(subject)]. *)
Theorem refresh_token_round_trip (subj : subject) (issued verified : Z) :
  verified ≤ issued + JWT_REFRESH_EXPIRE_DAYS settings * 86400 * 1000000 →
  verify_token settings (create_refresh_token settings subj issued)
               "refresh" verified
  = Some (CStr (str subj))
  ∧ verify_refresh_token settings (create_refresh_token settings subj issued)
                         verified
    = Return (CStr (str subj)).
Proof.
  intros Hlive.
  assert (Hv : verify_token settings (create_refresh_token settings subj issued)
                 "refresh" verified = Some (CStr (str subj))).
  { unfold create_refresh_token. cbv zeta. rewrite verify_token_own.
    assert (Hle : verified ≤ refresh_expire settings issued)
      by (unfold refresh_expire, timedelta_days, timedelta_seconds; lia).
    apply timegm_mono in Hle.
    destruct (Z.ltb_spec (timegm (refresh_expire settings issued))
                         (timegm verified)); [lia|reflexivity]. }
  split; [exact Hv|]. unfold verify_refresh_token. now rewrite Hv.
Qed.

(** X2.  From one second after its expiry on, a token is not accepted
    any more, each kind on its own expiry: an access token gives
    nothing and makes [verify_access_token] raise 401, whether or not
    the refresh token issued with it is still good, and an expired
    refresh token gives nothing and makes [verify_refresh_token] raise
    401. *)
Theorem expired_token_rejected (subj : subject) (expires_delta : option Z)
    (issued verified : Z) :
  (access_expire settings expires_delta issued + 1000000 ≤ verified →
   verify_token settings
     (create_access_token settings subj expires_delta issued) "access" verified
   = None
   ∧ verify_access_token settings
       (create_access_token settings subj expires_delta issued) verified
     = Raise (HTTPException 401 "Could not validate credentials"
                            [("WWW-Authenticate", "Bearer")]))
  ∧ (refresh_expire settings issued + 1000000 ≤ verified →
     verify_token settings (create_refresh_token settings subj issued)
                  "refresh" verified
     = None
     ∧ verify_refresh_token settings
         (create_refresh_token settings subj issued) verified
       = Raise (HTTPException 401 "Could not validate refresh token"
                              [("WWW-Authenticate", "Bearer")])).
Proof.
  split.
  - intros Ha. apply timegm_next_second in Ha.
    assert (Hv : verify_token settings
                   (create_access_token settings subj expires_delta issued)
                   "access" verified = None).
    { unfold create_access_token. cbv zeta. rewrite verify_token_own.
      destruct (Z.ltb_spec
                  (timegm (access_expire settings expires_delta issued))
                  (timegm verified)); [reflexivity|lia]. }
    split; [exact Hv|]. unfold verify_access_token. now rewrite Hv.
  - intros Hr. apply timegm_next_second in Hr.
    assert (Hv : verify_token settings
                   (create_refresh_token settings subj issued)
                   "refresh" verified = None).
    { unfold create_refresh_token. cbv zeta. rewrite verify_token_own.
      destruct (Z.ltb_spec (timegm (refresh_expire settings issued))
                           (timegm verified)); [reflexivity|lia]. }
    split; [exact Hv|]. unfold verify_refresh_token. now rewrite Hv.
Qed.

Lemma int_of_claim_reads (v : claim) (n : Z) :
  int_of_claim v = Some n → reads_as v n.
Proof.
  destruct v as [text|m]; cbn [int_of_claim].
  - destruct (int text) as [k|] eqn:Hint; [|discriminate].
    intros [= <-]. right. now exists text.
  - intros [= <-]. now left.
Qed.

(** X3.  Whatever [verify_token] accepts is a well-formed token of the
    configured algorithm, signed with the configured key, whose "type"
    is the expected one and whose "sub" is the string returned.  Of the
    registered claims: an "exp", if there is one, reads as a number of
    seconds not yet passed, be it a number or a string that [int]
    accepts; an "nbf" reads as a number of seconds not in the future;
    an "iat" reads as a number; a "jti" is a string; and there is no
    "aud" and no "at_hash". *)
Theorem verify_token_sound (tok : token) (token_type : string) (now : Z)
    (subject : claim) :
  verify_token settings tok token_type now = Some subject →
  ∃ claims,
    tok = Jws (JWT_ALGORITHM settings) claims
              (jws_sign (JWT_ALGORITHM settings) (SECRET_KEY settings) claims)
    ∧ claims !! "type" = Some (CStr token_type)
    ∧ claims !! "sub" = Some subject
    ∧ (∃ sub, subject = CStr sub)
    ∧ (∀ exp, claims !! "exp" = Some exp →
              ∃ seconds, reads_as exp seconds ∧ timegm now ≤ seconds)
    ∧ (∀ nbf, claims !! "nbf" = Some nbf →
              ∃ seconds, reads_as nbf seconds ∧ seconds ≤ timegm now)
    ∧ (∀ iat, claims !! "iat" = Some iat → ∃ seconds, reads_as iat seconds)
    ∧ (∀ jti, claims !! "jti" = Some jti → ∃ text, jti = CStr text)
    ∧ claims !! "aud" = None
    ∧ claims !! "at_hash" = None.
Proof.
  unfold verify_token, jwt_decode.
  destruct tok as [raw|alg claims signature]; [discriminate|].
  destruct (bool_decide (alg ∈ [JWT_ALGORITHM settings])) eqn:Halg;
    [|discriminate].
  apply bool_decide_eq_true_1, list_elem_of_singleton in Halg. subst alg.
  destruct (String.eqb_spec signature
              (jws_sign (JWT_ALGORITHM settings) (SECRET_KEY settings) claims))
    as [->|]; [|discriminate].
  cbn [negb].
  destruct (validate_claims claims now) eqn:Hvalid; [|discriminate].
  destruct (bool_decide (claims !! "type" ≠ Some (CStr token_type))) eqn:Hty;
    [discriminate|].
  apply bool_decide_eq_false_1 in Hty.
  destruct (claims !! "sub") as [found|] eqn:Hsub; [|discriminate].
  intros [= <-].
  unfold validate_claims in Hvalid.
  repeat (apply andb_prop in Hvalid as [Hvalid ?]).
  rename Hvalid into Hiat.
  match goal with H : validate_nbf _ _ = true |- _ => rename H into Hnbf end.
  match goal with H : validate_exp _ _ = true |- _ => rename H into Hexp end.
  match goal with H : validate_aud _ = true |- _ => rename H into Haud end.
  match goal with H : validate_sub _ = true |- _ => rename H into Hstr end.
  match goal with H : validate_jti _ = true |- _ => rename H into Hjti end.
  match goal with H : validate_at_hash _ = true |- _ => rename H into Hat end.
  exists claims.
  split; [reflexivity|].
  split.
  { destruct (decide (claims !! "type" = Some (CStr token_type)));
      [assumption|contradiction]. }
  split; [exact Hsub|].
  split.
  { unfold validate_sub in Hstr. rewrite Hsub in Hstr.
    destruct found as [sub|n]; [eauto|discriminate]. }
  split.
  { intros exp Heq. unfold validate_exp in Hexp. rewrite Heq in Hexp.
    destruct (int_of_claim exp) as [seconds|] eqn:Hint; [|discriminate].
    exists seconds. split; [now apply int_of_claim_reads|].
    destruct (Z.ltb_spec seconds (timegm now)); [discriminate|lia]. }
  split.
  { intros nbf Heq. unfold validate_nbf in Hnbf. rewrite Heq in Hnbf.
    destruct (int_of_claim nbf) as [seconds|] eqn:Hint; [|discriminate].
    exists seconds. split; [now apply int_of_claim_reads|].
    destruct (Z.ltb_spec (timegm now) seconds); [discriminate|lia]. }
  split.
  { intros iat Heq. unfold validate_iat in Hiat. rewrite Heq in Hiat.
    apply bool_decide_eq_true_1 in Hiat as [seconds Hint].
    exists seconds. now apply int_of_claim_reads. }
  split.
  { intros jti Heq. unfold validate_jti in Hjti. rewrite Heq in Hjti.
    destruct jti as [text|n]; [eauto|discriminate]. }
  split.
  - now apply bool_decide_eq_true_1 in Haud.
  - now apply bool_decide_eq_true_1 in Hat.
Qed.

(** X4.  A zero [expires_delta] is false for [if expires_delta:], so the
    token it asks for is the one without [expires_delta]: it is still
    accepted [JWT_EXPIRE_MINUTES] minutes after it was issued. *)
Theorem zero_expires_delta_is_default (subj : subject) (issued verified : Z) :
  verified ≤ issued + JWT_EXPIRE_MINUTES settings * 60 * 1000000 →
  create_access_token settings subj (Some 0) issued
  = create_access_token settings subj None issued
  ∧ verify_token settings (create_access_token settings subj (Some 0) issued)
                 "access" verified
    = Some (CStr (str subj)).
Proof.
  intros Hlive. split; [reflexivity|].
  unfold create_access_token. cbv zeta. rewrite verify_token_own.
  assert (Hle : verified ≤ access_expire settings (Some 0) issued)
    by (unfold access_expire, timedelta_minutes, timedelta_seconds; cbn; lia).
  apply timegm_mono in Hle.
  destruct (Z.ltb_spec (timegm (access_expire settings (Some 0) issued))
                       (timegm verified)); [lia|reflexivity].
Qed.
End MoreTokenFacts.

(* --------------------------------------------------------------------- *)
(* Rate limiter: identifiers, recovery, the size of the state            *)
(* --------------------------------------------------------------------- *)

Section MoreRateLimiterFacts.
Import RateLimiter.
Implicit Types (self : gmap string (list Z)).

Lemma kept_same self1 self2 identifier window_seconds now :
  self1 !! identifier = self2 !! identifier →
  kept self1 identifier window_seconds now
  = kept self2 identifier window_seconds now.
Proof. intros Heq. unfold kept. now rewrite Heq. Qed.

(** X5.  The answers that an identifier gets depend on nothing but its
    own calls and its own list in the state: they are the answers it
    would get if the calls of the other identifiers were taken out, from
    any state that holds the same list for it. *)
Theorem run_isolated identifier max_requests window_seconds calls :
  ∀ self1 self2,
    self1 !! identifier = self2 !! identifier →
    answers_of identifier calls
      (run self1 max_requests window_seconds calls).1
    = (run self2 max_requests window_seconds (calls_of identifier calls)).1.
Proof.
  induction calls as [|[k now] rest IH]; intros self1 self2 Heq;
    [reflexivity|].
  cbn [run]. rewrite (is_allowed_step self1).
  cbv zeta.
  set (self1' := <[k := _]> self1).
  destruct (run self1' max_requests window_seconds rest) as [oks s1] eqn:Hrun1.
  unfold calls_of. rewrite filter_cons.
  destruct (decide ((k, now).1 = identifier)) as [Hk|Hk]; cbn [fst] in Hk.
  - subst k. cbn [run]. rewrite (is_allowed_step self2). cbv zeta.
    set (self2' := <[identifier := _]> self2).
    assert (Heq' : self1' !! identifier = self2' !! identifier).
    { unfold self1', self2'. rewrite !lookup_insert_eq.
      now rewrite (kept_same self1 self2 identifier window_seconds now Heq). }
    specialize (IH self1' self2' Heq'). rewrite Hrun1 in IH.
    fold (calls_of identifier rest).
    destruct (run self2' max_requests window_seconds
                (calls_of identifier rest)) as [oks2 s2] eqn:Hrun2.
    cbn [fst] in *. unfold answers_of. cbn [zip zip_with omap list_omap fst snd].
    rewrite decide_True by reflexivity.
    fold (answers_of identifier rest oks). rewrite IH.
    now rewrite (kept_same self1 self2 identifier window_seconds now Heq).
  - assert (Heq' : self1' !! identifier = self2 !! identifier).
    { unfold self1'. now rewrite lookup_insert_ne. }
    specialize (IH self1' self2 Heq'). rewrite Hrun1 in IH.
    cbn [fst] in *. unfold answers_of. cbn [zip zip_with omap list_omap fst snd].
    rewrite decide_False by assumption.
    exact IH.
Qed.

(** X6.  A refusal does not last: when every timestamp recorded for the
    identifier is at least [window_seconds] old and [max_requests] is
    positive, the call is admitted, and the identifier's list becomes
    the one timestamp of this call. *)
Theorem is_allowed_after_window self identifier max_requests window_seconds
    now :
  0 < max_requests →
  Forall (λ t, t ≤ now - timedelta_seconds window_seconds)
         (default [] (self !! identifier)) →
  is_allowed self identifier max_requests window_seconds now
  = (true, <[identifier := [now]]> self).
Proof.
  intros Hmax Hold. rewrite is_allowed_step. cbv zeta.
  assert (Hkept : kept self identifier window_seconds now = []).
  { unfold kept. induction Hold as [|t l Ht _ IH]; [reflexivity|].
    rewrite filter_cons_False by lia. exact IH. }
  rewrite Hkept. cbn [List.length].
  destruct (Z.ltb_spec (Z.of_nat 0) max_requests); [reflexivity|lia].
Qed.

Lemma is_allowed_within_limit self identifier max_requests window_seconds now :
  0 ≤ max_requests → within_limit max_requests self →
  within_limit max_requests
    (is_allowed self identifier max_requests window_seconds now).2.
Proof.
  intros Hmax Hinv. rewrite is_allowed_step. cbv zeta. cbn [snd].
  intros k l Hl.
  destruct (decide (identifier = k)) as [<-|Hne].
  2: { rewrite lookup_insert_ne in Hl by assumption. now apply (Hinv k). }
  rewrite lookup_insert_eq in Hl. injection Hl as <-.
  assert (Hkept : Z.of_nat (List.length (kept self identifier window_seconds now))
                  ≤ max_requests).
  { unfold kept. destruct (self !! identifier) as [old|] eqn:Hold.
    - cbn [default from_option id]. specialize (Hinv identifier old Hold).
      pose proof (length_filter
                    (λ x, now - timedelta_seconds window_seconds < x) old).
      lia.
    - cbn. exact Hmax. }
  destruct (Z.ltb_spec
              (Z.of_nat (List.length (kept self identifier window_seconds now)))
              max_requests); [|exact Hkept].
  rewrite length_app. cbn [List.length]. lia.
Qed.

Lemma is_allowed_dom self identifier max_requests window_seconds now :
  dom (is_allowed self identifier max_requests window_seconds now).2
  = {[identifier]} ∪ dom self.
Proof.
  rewrite is_allowed_step. cbv zeta. cbn [snd]. apply dom_insert_L.
Qed.

Lemma run_shape max_requests window_seconds calls :
  0 ≤ max_requests →
  ∀ self, within_limit max_requests self →
    within_limit max_requests (run self max_requests window_seconds calls).2
    ∧ dom (run self max_requests window_seconds calls).2
      = dom self ∪ list_to_set calls.*1.
Proof.
  intros Hmax. induction calls as [|[k now] rest IH]; intros self Hinv.
  - cbn. split; [exact Hinv|]. now rewrite (right_id_L ∅ (∪)).
  - cbn [run].
    pose proof (is_allowed_within_limit self k max_requests window_seconds now
                  Hmax Hinv) as Hinv'.
    pose proof (is_allowed_dom self k max_requests window_seconds now) as Hdom.
    destruct (is_allowed self k max_requests window_seconds now)
      as [ok self'] eqn:Hstep.
    cbn [snd] in Hinv', Hdom.
    destruct (IH self' Hinv') as [IH1 IH2].
    destruct (run self' max_requests window_seconds rest) as [oks self''].
    cbn [snd] in *. split; [exact IH1|].
    rewrite IH2, Hdom. cbn [fmap list_fmap fst list_to_set].
    rewrite (comm_L (∪) {[k]} (dom self)). now rewrite (assoc_L (∪)).
Qed.

(** X7.  What the limiter keeps in memory: after any run from the empty
    state no identifier has more than [max_requests] timestamps, and
    the identifiers kept are exactly those that ever called; none is
    dropped, whether its calls were admitted or are long past. *)
Theorem run_state_shape max_requests window_seconds calls :
  0 ≤ max_requests →
  within_limit max_requests (run init max_requests window_seconds calls).2
  ∧ dom (run init max_requests window_seconds calls).2
    = list_to_set calls.*1.
Proof.
  intros Hmax.
  destruct (run_shape max_requests window_seconds calls Hmax init)
    as [Hlim Hdom].
  { intros k l Hl. unfold init in Hl. now rewrite lookup_empty in Hl. }
  split; [exact Hlim|].
  rewrite Hdom. unfold init. rewrite dom_empty_L.
  now rewrite (left_id_L ∅ (∪)).
Qed.
End MoreRateLimiterFacts.

(* --------------------------------------------------------------------- *)
(* The gateway: from the bearer token to the identity                    *)
(* --------------------------------------------------------------------- *)

Section GatewayFacts.
Context {U : Unicode} {P : Passlib} {J : Jose} {I : PyInt}
        (settings : Settings).
Import SecurityManager.

(** [get_current_user], with the monad unfolded. *)
Lemma get_current_user_cases (creds : option HTTPAuthorizationCredentials)
    (now : Z) (db : Db) :
  deps.get_current_user settings creds now db
  = match get_current_user_token creds with
    | Raise e => (Raise e, db)
    | Return tok =>
      match verify_access_token settings tok now with
      | Raise e => (Raise e, db)
      | Return user_id =>
        match int_of_subject user_id with
        | Raise e => (Raise e, db)
        | Return uid =>
          match List.find (λ u, u_id u =? uid) (users db) with
          | None => (Raise (credentials_exception "User not found"), db)
          | Some user =>
            if u_is_active user then (Return user, db)
            else (Raise (credentials_exception "Inactive user"), db)
          end
        end
      end
    end.
Proof.
  unfold deps.get_current_user, bind, lift, query, raise, ret.
  destruct (get_current_user_token creds) as [tok|]; [|reflexivity].
  destruct (verify_access_token settings tok now) as [user_id|];
    [|reflexivity].
  destruct (int_of_subject user_id) as [uid|]; [|reflexivity].
  destruct (List.find _ (users db)) as [user|]; [|reflexivity].
  now destruct (u_is_active user).
Qed.

(** [refresh_token], with the monad unfolded. *)
Lemma refresh_token_cases (creds : option HTTPAuthorizationCredentials)
    (now now_access now_refresh : Z) (db : Db) :
  auth.refresh_token settings creds now now_access now_refresh db
  = match get_current_user_token creds with
    | Raise e => (Raise e, db)
    | Return tok =>
      match verify_refresh_token settings tok now with
      | Raise e => (Raise e, db)
      | Return user_id =>
        match int_of_subject user_id with
        | Raise e => (Raise e, db)
        | Return uid =>
          match List.find (λ u, u_id u =? uid) (users db) with
          | None => (Raise auth.not_found_or_inactive, db)
          | Some user =>
            if u_is_active user then
              (Return {|
                 access_token :=
                   create_access_token settings (SubjInt (u_id user))
                     (Some (timedelta_minutes (JWT_EXPIRE_MINUTES settings)))
                     now_access;
                 refresh_token :=
                   create_refresh_token settings (SubjInt (u_id user))
                     now_refresh;
                 token_type := "bearer";
                 expires_in := JWT_EXPIRE_MINUTES settings * 60 |}, db)
            else (Raise auth.not_found_or_inactive, db)
          end
        end
      end
    end.
Proof.
  unfold auth.refresh_token, bind, lift, query, raise, ret.
  destruct (get_current_user_token creds) as [tok|]; [|reflexivity].
  destruct (verify_refresh_token settings tok now) as [user_id|];
    [|reflexivity].
  destruct (int_of_subject user_id) as [uid|]; [|reflexivity].
  destruct (List.find _ (users db)) as [user|]; [|reflexivity].
  now destruct (u_is_active user).
Qed.

(** The expiry of the access token that [login] and [refresh_token] ask
    for. *)
Lemma access_expire_minutes (issued : Z) :
  access_expire settings
    (Some (timedelta_minutes (JWT_EXPIRE_MINUTES settings))) issued
  = issued + JWT_EXPIRE_MINUTES settings * 60 * 1000000.
Proof.
  unfold access_expire, truthy, timedelta_minutes, timedelta_seconds.
  cbn [default from_option id].
  destruct (Z.eqb_spec (JWT_EXPIRE_MINUTES settings * 60 * 1000000) 0)
    as [Hz|Hnz]; cbn [negb]; lia.
Qed.

Lemma verify_access_token_own (subj : subject) (expires_delta : option Z)
    (issued now : Z) :
  now ≤ access_expire settings expires_delta issued →
  verify_access_token settings
    (create_access_token settings subj expires_delta issued) now
  = Return (CStr (str subj)).
Proof.
  intros Hlive. unfold verify_access_token, create_access_token. cbv zeta.
  rewrite verify_token_own. apply timegm_mono in Hlive.
  destruct (Z.ltb_spec (timegm (access_expire settings expires_delta issued))
                       (timegm now)); [lia|reflexivity].
Qed.

Lemma verify_refresh_token_own (subj : subject) (issued now : Z) :
  now ≤ refresh_expire settings issued →
  verify_refresh_token settings
    (create_refresh_token settings subj issued) now
  = Return (CStr (str subj)).
Proof.
  intros Hlive. unfold verify_refresh_token, create_refresh_token. cbv zeta.
  rewrite verify_token_own. apply timegm_mono in Hlive.
  destruct (Z.ltb_spec (timegm (refresh_expire settings issued))
                       (timegm now)); [lia|reflexivity].
Qed.

(** A token that this process issued is not the empty string. *)
Lemma bearer_access_token (subj : subject) (expires_delta : option Z)
    (issued : Z) :
  get_current_user_token
    (bearer (create_access_token settings subj expires_delta issued))
  = Return (create_access_token settings subj expires_delta issued).
Proof. reflexivity. Qed.

Lemma bearer_refresh_token (subj : subject) (issued : Z) :
  get_current_user_token (bearer (create_refresh_token settings subj issued))
  = Return (create_refresh_token settings subj issued).
Proof. reflexivity. Qed.

(** A login that returns found the identity, verified the password,
    saw an active row and committed the new [last_login]. *)
Lemma login_return_inv (db db' : Db) (user_credentials : UserLogin)
    (now_access now_refresh now_login now_updated : datetime) (tok : Token) :
  auth.login settings user_credentials now_access now_refresh now_login
             now_updated db = (Return tok, db') →
  ∃ user row,
    List.find (λ u, String.eqb (u_email u) (login_email user_credentials))
              (users db) = Some user
    ∧ verify_password (login_password user_credentials)
                      (u_password_hash user) = Return true
    ∧ u_is_active user = true
    ∧ List.find (λ u, u_id u =? u_id user) (users db) = Some row
    ∧ tok = {| access_token :=
                 create_access_token settings (SubjInt (u_id user))
                   (Some (timedelta_minutes (JWT_EXPIRE_MINUTES settings)))
                   (timestamp_of now_access);
               refresh_token :=
                 create_refresh_token settings (SubjInt (u_id user))
                   (timestamp_of now_refresh);
               token_type := "bearer";
               expires_in := JWT_EXPIRE_MINUTES settings * 60 |}
    ∧ users db'
      = map (λ r, if u_id r =? u_id row then
                    {| u_id := u_id row;
                       u_email := u_email row;
                       u_password_hash := u_password_hash row;
                       u_is_active := u_is_active row;
                       u_is_superuser := u_is_superuser row;
                       u_created_at := u_created_at row;
                       u_updated_at := now_updated;
                       u_last_login := Some now_login;
                       u_password_reset_token := u_password_reset_token row;
                       u_password_reset_expires :=
                         u_password_reset_expires row |}
                  else r) (users db)
    ∧ accounts db' = accounts db.
Proof.
  cbv [auth.login bind UserService.get_user_by_email query lift raise
       UserService.update_last_login UserService.get_user_by_id commit_user
       ret].
  destruct (List.find _ (users db)) as [user|] eqn:Hfound; [|discriminate].
  destruct (verify_password _ _) as [[|]|] eqn:Hverify; cbn [negb];
    [|discriminate|discriminate].
  destruct (u_is_active user) eqn:Hactive; cbn [negb]; [|discriminate].
  destruct (List.find (λ u, u_id u =? u_id user) (users db)) as [row|]
    eqn:Hrow; [|discriminate].
  intros Heq. injection Heq as <- <-.
  exists user, row. cbn [users accounts u_id]. repeat split; assumption.
Qed.

(** X8.  The access token that a login returns opens the gateway: sent
    as a bearer token no later than [JWT_EXPIRE_MINUTES] minutes after
    the login, [get_current_user] answers the identity that logged in,
    as the login left it, with [last_login] set. *)
Theorem login_then_get_current_user (db db' : Db)
    (user_credentials : UserLogin)
    (now_access now_refresh now_login now_updated : datetime) (tok : Token)
    (user : User) (now : Z) :
  primary_keys db →
  List.find (λ u, String.eqb (u_email u) (login_email user_credentials))
            (users db) = Some user →
  int (pretty (u_id user)) = Return (u_id user) →
  auth.login settings user_credentials now_access now_refresh now_login
             now_updated db = (Return tok, db') →
  now ≤ timestamp_of now_access + JWT_EXPIRE_MINUTES settings * 60 * 1000000 →
  ∃ current_user,
    deps.get_current_user settings (bearer (access_token tok)) now db'
    = (Return current_user, db')
    ∧ u_id current_user = u_id user
    ∧ u_email current_user = u_email user
    ∧ u_last_login current_user = Some now_login
    ∧ In current_user (users db').
Proof.
  intros [Hpk _] Hfound Hint Hlogin Hlive.
  apply login_return_inv in Hlogin
    as (user0 & row & Hfound0 & _ & Hactive & Hrow & -> & Husers & _).
  rewrite Hfound in Hfound0. injection Hfound0 as <-.
  pose proof (List.find_some _ _ Hfound) as [Hin _].
  rewrite (find_user_by_primary_key (users db) user Hpk Hin) in Hrow.
  injection Hrow as <-.
  set (row' := {| u_id := u_id user; u_last_login := Some now_login |})
    in Husers.
  exists row'.
  rewrite get_current_user_cases. cbn [access_token].
  rewrite bearer_access_token.
  rewrite verify_access_token_own by (rewrite access_expire_minutes; lia).
  cbn [int_of_subject str]. rewrite Hint.
  assert (Hrow' : List.find (λ u, u_id u =? u_id user) (users db')
                  = Some row').
  { rewrite Husers.
    apply (find_user_after_commit row' (users db)). exists user. now split. }
  rewrite Hrow'. cbn [row' u_is_active]. rewrite Hactive.
  repeat split; try reflexivity.
  apply (List.find_some _ _ Hrow').
Qed.

(** X9.  What [get_current_user] lets through: it changes nothing, and
    the identity it returns is a row of the store, active, whose key is
    the subject of an access token that verifies; so the second check
    of [get_current_active_user] always passes on it. *)
Theorem get_current_user_returns (creds : option HTTPAuthorizationCredentials)
    (now : Z) (db db' : Db) (user : User) :
  deps.get_current_user settings creds now db = (Return user, db') →
  db' = db
  ∧ In user (users db)
  ∧ u_is_active user = true
  ∧ (∃ c subject,
       creds = Some c
       ∧ verify_token settings (credentials c) "access" now = Some subject
       ∧ int_of_subject subject = Return (u_id user))
  ∧ deps.get_current_active_user user db = (Return user, db).
Proof.
  rewrite get_current_user_cases.
  destruct creds as [c|]; cbn [get_current_user_token]; [|discriminate].
  destruct (is_empty_token (credentials c)); [discriminate|].
  unfold verify_access_token.
  destruct (verify_token settings (credentials c) "access" now)
    as [subject|] eqn:Hverify; [|discriminate].
  destruct (int_of_subject subject) as [uid|] eqn:Hint; [|discriminate].
  destruct (List.find _ (users db)) as [row|] eqn:Hrow; [|discriminate].
  destruct (u_is_active row) eqn:Hactive; [|discriminate].
  intros Heq. injection Heq as <- <-.
  pose proof (List.find_some _ _ Hrow) as [Hin Hid].
  apply Z.eqb_eq in Hid. subst uid.
  repeat split; try assumption.
  - exists c, subject. now repeat split.
  - unfold deps.get_current_active_user. now rewrite Hactive.
Qed.

(** X10.  [get_optional_user] never raises and never changes the
    store: it answers the identity exactly when [get_current_user]
    answers it, and [None] whenever [get_current_user] raises, be it
    for a missing header, a bad token, an unknown or an inactive
    identity, or a subject that is not a number. *)
Theorem get_optional_user_agrees
    (creds : option HTTPAuthorizationCredentials) (now : Z) (db : Db) :
  deps.get_optional_user settings creds now db
  = (match (deps.get_current_user settings creds now db).1 with
     | Return user => Return (Some user)
     | Raise _ => Return None
     end, db).
Proof.
  rewrite get_current_user_cases.
  unfold deps.get_optional_user, deps.try_current_user, bind, lift, query,
    ret.
  destruct creds as [c|]; [|reflexivity].
  destruct (get_current_user_token (Some c)) as [tok|]; [|reflexivity].
  destruct (verify_access_token settings tok now) as [user_id|];
    [|reflexivity].
  destruct (int_of_subject user_id) as [uid|]; [|reflexivity].
  destruct (List.find _ (users db)) as [user|]; [|reflexivity].
  now destruct (u_is_active user).
Qed.

(** X11.  No identity carries permissions, so the check of
    [require_permissions] comes down to this: it passes when nothing is
    required or the identity is a superuser, and otherwise it raises
    Forbidden and lists every required permission as missing. *)
Theorem require_permissions_decision (required_permissions : list string)
    (current_user : User) (db : Db) :
  deps.require_permissions required_permissions current_user db
  = if bool_decide (required_permissions = []) || u_is_superuser current_user
    then (Return current_user, db)
    else (Raise (HTTPException 403
                   ("Missing permissions: "
                    +:+ String.concat ", " required_permissions) []), db).
Proof.
  unfold deps.require_permissions. cbv zeta.
  assert (Hall : List.filter (λ perm : string,
                    negb (bool_decide (perm ∈ ([] : list string))))
                   required_permissions = required_permissions).
  { induction required_permissions as [|perm rest IH]; [reflexivity|].
    cbn [List.filter].
    rewrite bool_decide_eq_false_2 by apply not_elem_of_nil.
    cbn [negb]. now rewrite IH. }
  rewrite Hall.
  destruct (bool_decide (required_permissions = [])); cbn [negb orb andb];
    [reflexivity|].
  now destruct (u_is_superuser current_user).
Qed.
End GatewayFacts.

(* --------------------------------------------------------------------- *)
(* Sessions: refresh, deactivation, change of password                   *)
(* --------------------------------------------------------------------- *)

Section SessionFacts.
Context {U : Unicode} {P : Passlib} {J : Jose} {I : PyInt}
        (settings : Settings).
Import SecurityManager.

(** X12.  The two kinds of token are not interchangeable at the
    endpoints: the refresh endpoint refuses every access token and the
    gateway refuses every refresh token, whatever the clock and the
    store, each with its own 401. *)
Theorem token_kinds_not_interchangeable (subj : subject)
    (expires_delta : option Z) (issued now now_access now_refresh : Z)
    (db : Db) :
  auth.refresh_token settings
    (bearer (create_access_token settings subj expires_delta issued))
    now now_access now_refresh db
  = (Raise (HTTPException 401 "Could not validate refresh token"
                          [("WWW-Authenticate", "Bearer")]), db)
  ∧ deps.get_current_user settings
      (bearer (create_refresh_token settings subj issued)) now db
    = (Raise (HTTPException 401 "Could not validate credentials"
                            [("WWW-Authenticate", "Bearer")]), db).
Proof.
  split.
  - rewrite refresh_token_cases, bearer_access_token.
    unfold verify_refresh_token, create_access_token. cbv zeta.
    rewrite verify_token_own. now destruct (_ <? _).
  - rewrite get_current_user_cases, bearer_refresh_token.
    unfold verify_access_token, create_refresh_token. cbv zeta.
    rewrite verify_token_own. now destruct (_ <? _).
Qed.

(** X13.  A refresh token is not used up: while it has not expired and
    its identity is active, every call of the refresh endpoint with it
    answers a new pair of tokens for that identity and leaves the store
    as it was, so the same token works again at any later reading of
    the clock within its life. *)
Theorem refresh_token_reusable (db : Db) (user : User)
    (issued now now_access now_refresh : Z) :
  List.find (λ u, u_id u =? u_id user) (users db) = Some user →
  u_is_active user = true →
  int (pretty (u_id user)) = Return (u_id user) →
  now ≤ issued + JWT_REFRESH_EXPIRE_DAYS settings * 86400 * 1000000 →
  auth.refresh_token settings
    (bearer (create_refresh_token settings (SubjInt (u_id user)) issued))
    now now_access now_refresh db
  = (Return {|
       access_token :=
         create_access_token settings (SubjInt (u_id user))
           (Some (timedelta_minutes (JWT_EXPIRE_MINUTES settings)))
           now_access;
       refresh_token :=
         create_refresh_token settings (SubjInt (u_id user)) now_refresh;
       token_type := "bearer";
       expires_in := JWT_EXPIRE_MINUTES settings * 60 |}, db).
Proof.
  intros Hrow Hactive Hint Hlive.
  rewrite refresh_token_cases, bearer_refresh_token.
  rewrite verify_refresh_token_own
    by (unfold refresh_expire, timedelta_days, timedelta_seconds; lia).
  cbn [int_of_subject str]. now rewrite Hint, Hrow, Hactive.
Qed.

(** After [UPDATE users SET ... WHERE id = i], a lookup by another key
    finds what it found before. *)
Lemma find_other_user_after_commit (row : User) (i : Z) (rows : list User) :
  i ≠ u_id row →
  List.find (λ u, u_id u =? i)
            (map (λ r, if u_id r =? u_id row then row else r) rows)
  = List.find (λ u, u_id u =? i) rows.
Proof.
  intros Hne. induction rows as [|x rows IH]; [reflexivity|].
  cbn [map List.find].
  destruct (Z.eqb_spec (u_id x) (u_id row)) as [Heq|Hneq].
  - destruct (Z.eqb_spec (u_id row) i); [congruence|].
    destruct (Z.eqb_spec (u_id x) i); [congruence|]. exact IH.
  - destruct (u_id x =? i); [reflexivity|exact IH].
Qed.

(** What a lookup by key finds after the row of [row]'s key was
    replaced by [row]. *)
Lemma find_after_commit (row : User) (i : Z) (rows : list User) :
  List.find (λ u, u_id u =? i)
            (map (λ r, if u_id r =? u_id row then row else r) rows)
  = match List.find (λ u, u_id u =? i) rows with
    | Some r => Some (if u_id r =? u_id row then row else r)
    | None => None
    end.
Proof.
  induction rows as [|x rows IH]; [reflexivity|].
  cbn [map List.find].
  destruct (Z.eqb_spec (u_id x) (u_id row)) as [Heq|Hneq].
  - destruct (Z.eqb_spec (u_id row) i), (Z.eqb_spec (u_id x) i);
      try congruence.
    rewrite Heq. now rewrite Z.eqb_refl.
  - destruct (Z.eqb_spec (u_id x) i) as [Hi|Hi]; [|exact IH].
    destruct (Z.eqb_spec (u_id x) (u_id row)); [contradiction|reflexivity].
Qed.

(** The first row that satisfies [f], once that row was replaced by a
    row of the same key that satisfies [f] too. *)
Lemma find_after_commit_same (f : User → bool) (rows : list User)
    (user row : User) :
  NoDup (map u_id rows) →
  List.find f rows = Some user → u_id row = u_id user → f row = true →
  List.find f (map (λ r, if u_id r =? u_id row then row else r) rows)
  = Some row.
Proof.
  induction rows as [|x rows IH]; intros Hnd Hfound Hid Hrow; [discriminate|].
  cbn [map] in Hnd. apply NoDup_cons in Hnd as [Hx Hnd].
  cbn [List.find] in Hfound. cbn [map List.find].
  destruct (f x) eqn:Hfx.
  - injection Hfound as ->. rewrite Hid, Z.eqb_refl. now rewrite Hrow.
  - pose proof (List.find_some _ _ Hfound) as [Hin _].
    destruct (Z.eqb_spec (u_id x) (u_id row)) as [Heq|Hne].
    + exfalso. apply Hx. rewrite Heq, Hid.
      apply list_elem_of_In, in_map, Hin.
    + rewrite Hfx. now apply IH.
Qed.

(** X14.  Deactivation locks the identity out at once: every access
    token that names it, however fresh, is refused by the gateway with
    401 "Inactive user", every refresh token that names it by the
    refresh endpoint with 401 "User not found or inactive", and a login
    with the right password with 401 "User account is inactive". *)
Theorem deactivated_user_locked_out (db db' : Db) (user_id : Z)
    (now_deactivated : datetime) (row : User) :
  UserService.deactivate_user user_id now_deactivated db = (Return row, db') →
  (∀ creds now tok subject,
     get_current_user_token creds = Return tok →
     verify_access_token settings tok now = Return subject →
     int_of_subject subject = Return user_id →
     deps.get_current_user settings creds now db'
     = (Raise (HTTPException 401 "Inactive user"
                             [("WWW-Authenticate", "Bearer")]), db'))
  ∧ (∀ creds now now_access now_refresh tok subject,
       get_current_user_token creds = Return tok →
       verify_refresh_token settings tok now = Return subject →
       int_of_subject subject = Return user_id →
       auth.refresh_token settings creds now now_access now_refresh db'
       = (Raise (HTTPException 401 "User not found or inactive"
                               [("WWW-Authenticate", "Bearer")]), db'))
  ∧ (∀ user user_credentials now_access now_refresh now_login now_updated,
       primary_keys db →
       List.find (λ u, String.eqb (u_email u) (login_email user_credentials))
                 (users db) = Some user →
       u_id user = user_id →
       verify_password (login_password user_credentials)
                       (u_password_hash user) = Return true →
       auth.login settings user_credentials now_access now_refresh now_login
                  now_updated db'
       = (Raise (HTTPException 401 "User account is inactive" []), db')).
Proof.
  cbv [UserService.deactivate_user bind UserService.get_user_by_id query
       commit_user ret raise].
  destruct (List.find _ (users db)) as [db_user|] eqn:Hfound; [|discriminate].
  intros Heq. injection Heq as <- <-.
  pose proof (List.find_some _ _ Hfound) as [Hin Hid]. apply Z.eqb_eq in Hid.
  set (row := UserService.with_is_active db_user false now_deactivated).
  set (db' := {| users := _; accounts := accounts db |}).
  assert (Hrow : List.find (λ u, u_id u =? user_id) (users db') = Some row).
  { cbn [db' users]. rewrite <- Hid.
    change (u_id db_user) with (u_id row).
    apply find_user_after_commit. exists db_user. now split. }
  split; [|split].
  - intros creds now tok subject Htok Hverify Hint.
    rewrite get_current_user_cases, Htok, Hverify, Hint, Hrow. reflexivity.
  - intros creds now now_access now_refresh tok subject Htok Hverify Hint.
    rewrite refresh_token_cases, Htok, Hverify, Hint, Hrow. reflexivity.
  - intros user user_credentials now_access now_refresh now_login now_updated
      [Hpk _] Hemail Huser Hverify.
    pose proof (List.find_some _ _ Hemail) as [Hin' Hmatch].
    assert (Hsame : user = db_user).
    { rewrite <- Huser in Hfound.
      rewrite (find_user_by_primary_key (users db) user Hpk Hin') in Hfound.
      congruence. }
    subst db_user.
    assert (Hfound' : List.find
              (λ u, String.eqb (u_email u) (login_email user_credentials))
              (users db') = Some row).
    { cbn [db' users].
      apply (find_after_commit_same _ (users db) user row Hpk Hemail);
        [reflexivity|exact Hmatch]. }
    cbv [auth.login bind UserService.get_user_by_email query lift raise].
    rewrite Hfound'. cbn [row UserService.with_is_active u_password_hash
                          u_is_active].
    now rewrite Hverify.
Qed.

(** The gateway's answer after the row of [row]'s key was replaced by a
    row that is as active as the one it replaces. *)
Lemma get_current_user_after_commit
    (creds : option HTTPAuthorizationCredentials) (now : Z) (db : Db)
    (user old row : User) :
  deps.get_current_user settings creds now db = (Return user, db) →
  List.find (λ u, u_id u =? u_id row) (users db) = Some old →
  u_is_active row = u_is_active old →
  let db' := {| users := map (λ r, if u_id r =? u_id row then row else r)
                             (users db);
                accounts := accounts db |} in
  ∃ user', deps.get_current_user settings creds now db' = (Return user', db')
           ∧ u_id user' = u_id user.
Proof.
  intros Hcurrent Hold Hactive db'.
  rewrite get_current_user_cases in *.
  destruct (get_current_user_token creds) as [tok|]; [|discriminate].
  destruct (verify_access_token settings tok now) as [subject|];
    [|discriminate].
  destruct (int_of_subject subject) as [uid|]; [|discriminate].
  destruct (List.find (λ u, u_id u =? uid) (users db)) as [found|] eqn:Hfound;
    [|discriminate].
  destruct (u_is_active found) eqn:Hfa; [|discriminate].
  injection Hcurrent as <-.
  pose proof (List.find_some _ _ Hfound) as [_ Hid]. apply Z.eqb_eq in Hid.
  cbn [db' users]. rewrite find_after_commit, Hfound.
  destruct (Z.eqb_spec (u_id found) (u_id row)) as [Heq|Hne].
  - rewrite <- Heq, Hid, Hfound in Hold. injection Hold as <-.
    rewrite Hactive, Hfa. exists row. split; [reflexivity|congruence].
  - rewrite Hfa. now exists found.
Qed.

(** X15.  Neither a reset nor a change of password revokes a session:
    a bearer token that the gateway accepted before is accepted after,
    at the same reading of the clock, for the same identity. *)
Theorem new_password_keeps_sessions
    (creds : option HTTPAuthorizationCredentials) (now : Z) (db : Db)
    (user : User) :
  primary_keys db →
  deps.get_current_user settings creds now db = (Return user, db) →
  (∀ reset_data salt t message db',
     auth.reset_password reset_data salt t db = (Return message, db') →
     ∃ user', deps.get_current_user settings creds now db'
              = (Return user', db')
              ∧ u_id user' = u_id user)
  ∧ (∀ password_data current_user salt t message db',
       Registration.change_password password_data current_user salt t db
       = (inl (Return message), db') →
       ∃ user', deps.get_current_user settings creds now db'
                = (Return user', db')
                ∧ u_id user' = u_id user).
Proof.
  intros Hpk Hcurrent. split.
  - intros reset_data salt t message db' Hreset.
    pose proof (reset_password_return_inv _ _ _ _ _ _ Hreset)
      as (holder & password_hash & Hholder & Hvalid & Hhash).
    rewrite (reset_password_success db reset_data salt t holder password_hash
               Hpk Hholder Hvalid Hhash) in Hreset.
    injection Hreset as _ <-.
    pose proof (List.find_some _ _ Hholder) as [Hin _].
    destruct Hpk as [Hpk _].
    apply (get_current_user_after_commit creds now db user holder
             (UserService.password_replaced holder password_hash t)
             Hcurrent).
    + exact (find_user_by_primary_key (users db) holder Hpk Hin).
    + reflexivity.
  - intros password_data current_user salt t message db'.
    cbv [Registration.change_password UserService.change_password bind
         UserService.get_user_by_id query lift commit_user ret raise].
    destruct (List.find _ (users db)) as [old|] eqn:Hold; [|discriminate].
    destruct (verify_password _ _) as [[|]|]; [|discriminate|discriminate].
    destruct (validate_password_strength _) as [[|] msg]; cbn [negb];
      [|discriminate].
    destruct (get_password_hash _ _) as [password_hash|]; [|discriminate].
    intros Heq. injection Heq as _ <-.
    pose proof (List.find_some _ _ Hold) as [_ Hid]. apply Z.eqb_eq in Hid.
    set (row := {| u_id := u_id old; u_password_hash := password_hash |}).
    apply (get_current_user_after_commit creds now db user old row Hcurrent).
    + cbn [row u_id]. now rewrite Hid.
    + reflexivity.
Qed.

(** X16.  [UserService.change_password] does not touch a pending reset
    token: a token that selected the identity before the change selects
    it after, so the reset endpoint still accepts it and replaces the
    password that was just chosen. *)
Theorem change_password_keeps_reset_token (db db' : Db) (user_id : Z)
    (new_password : pystr) (salt : string) (now : datetime)
    (holder row : User) (reset_data : PasswordReset) (salt' : string)
    (now' : datetime) (password_hash : string) :
  primary_keys db →
  List.find (auth.has_reset_token (reset_token reset_data)) (users db)
  = Some holder →
  u_id holder = user_id →
  UserService.change_password user_id new_password salt now db
  = (Return row, db') →
  (validate_password_strength (reset_new_password reset_data)).1 = true →
  get_password_hash salt' (reset_new_password reset_data)
  = Return password_hash →
  List.find (auth.has_reset_token (reset_token reset_data)) (users db')
  = Some row
  ∧ u_password_reset_token row = Some (reset_token reset_data)
  ∧ u_password_reset_expires row = u_password_reset_expires holder
  ∧ (auth.reset_password reset_data salt' now' db').1
    = Return "Password reset successfully".
Proof.
  intros [Hpk _] Hholder Hid Hchange Hvalid Hhash.
  pose proof (List.find_some _ _ Hholder) as [Hin Htok].
  revert Hchange.
  cbv [UserService.change_password bind UserService.get_user_by_id query lift
       commit_user ret raise].
  rewrite <- Hid, (find_user_by_primary_key (users db) holder Hpk Hin).
  destruct (get_password_hash salt new_password) as [new_hash|];
    [|discriminate].
  intros Heq. injection Heq as <- <-.
  set (row := {| u_id := u_id holder; u_password_hash := new_hash |}).
  assert (Hrow_tok : auth.has_reset_token (reset_token reset_data) row = true)
    by exact Htok.
  assert (Hfind : List.find (auth.has_reset_token (reset_token reset_data))
                    (map (λ r, if u_id r =? u_id row then row else r)
                         (users db)) = Some row).
  { apply (find_after_commit_same _ (users db) holder row Hpk Hholder);
      [reflexivity|exact Hrow_tok]. }
  split; [exact Hfind|].
  split.
  { unfold auth.has_reset_token in Htok. cbn [row u_password_reset_token].
    destruct (u_password_reset_token holder) as [t|]; [|discriminate].
    apply String.eqb_eq in Htok. now subst t. }
  split; [reflexivity|].
  pose proof (find_user_after_commit row (users db)) as Hrow.
  change (u_id row) with (u_id holder) in Hfind, Hrow.
  rewrite reset_password_cases. cbn [users].
  rewrite Hfind, Hvalid. change (u_id row) with (u_id holder).
  rewrite Hrow by (exists holder; now split).
  now rewrite Hhash.
Qed.

(** The row that [f] selects once the row of [row]'s key was replaced
    by [row], when [f] selected no row before and selects [row]. *)
Lemma find_after_commit_new (f : User → bool) (rows : list User)
    (row : User) :
  List.find f rows = None → f row = true →
  (∃ r, In r rows ∧ u_id r = u_id row) →
  List.find f (map (λ r, if u_id r =? u_id row then row else r) rows)
  = Some row.
Proof.
  induction rows as [|x rows IH]; intros Hnone Hrow (r & Hin & Hid);
    [destruct Hin|].
  cbn [List.find] in Hnone. destruct (f x) eqn:Hfx; [discriminate|].
  cbn [map List.find].
  destruct (Z.eqb_spec (u_id x) (u_id row)) as [Heq|Hne].
  - now rewrite Hrow.
  - rewrite Hfx. apply IH; [assumption..|].
    destruct Hin as [->|Hin]; [contradiction|]. eauto.
Qed.

(** X17.  The reset flow end to end: a request before 23:00 for a known
    e-mail hands out the fresh token and stores it, and a reset with
    that token and a password that passes the policy then succeeds and
    leaves the identity with the new hash and no token. *)
Theorem request_then_reset_password (db : Db) (email fresh_token : string)
    (now_replaced now_hour now_updated : datetime) (user : User)
    (new_password : pystr) (salt : string) (now : datetime)
    (password_hash : string) :
  primary_keys db →
  List.find (λ u, String.eqb (u_email u) email) (users db) = Some user →
  List.find (auth.has_reset_token fresh_token) (users db) = None →
  0 ≤ hour now_hour < 23 →
  (validate_password_strength new_password).1 = true →
  get_password_hash salt new_password = Return password_hash →
  ∃ db1 db2 row,
    auth.request_password_reset email fresh_token now_replaced now_hour
      now_updated db
    = (Return ("Password reset token generated", Some fresh_token), db1)
    ∧ auth.reset_password
        {| reset_token := fresh_token; reset_new_password := new_password |}
        salt now db1
      = (Return "Password reset successfully", db2)
    ∧ List.find (λ u, u_id u =? u_id user) (users db2) = Some row
    ∧ u_email row = u_email user
    ∧ u_password_hash row = password_hash
    ∧ u_password_reset_token row = None
    ∧ u_password_reset_expires row = None.
Proof.
  intros [Hpk _] Hfound Hfresh Hh Hvalid Hhash.
  pose proof (List.find_some _ _ Hfound) as [Hin _].
  cbv [auth.request_password_reset bind UserService.get_user_by_email query
       UserService.set_password_reset_token UserService.get_user_by_id lift
       commit_user ret raise].
  rewrite Hfound, (find_user_by_primary_key (users db) user Hpk Hin).
  unfold replace_hour.
  destruct (Z.leb_spec 0 (hour now_hour + 1)); [|lia].
  destruct (Z.leb_spec (hour now_hour + 1) 23); [|lia].
  cbn [andb].
  set (row1 := UserService.reset_requested user fresh_token _ now_updated).
  set (db1 := {| users := _; accounts := accounts db |}).
  assert (Htok : List.find (auth.has_reset_token fresh_token) (users db1)
                 = Some row1).
  { cbn [db1 users]. apply find_after_commit_new; [exact Hfresh| |].
    - unfold auth.has_reset_token. cbn. apply String.eqb_refl.
    - exists user. now split. }
  assert (Hrow1 : List.find (λ u, u_id u =? u_id row1) (users db1)
                  = Some row1).
  { cbn [db1 users]. apply find_user_after_commit. exists user. now split. }
  set (row2 := UserService.password_replaced row1 password_hash now).
  exists db1,
    {| users := map (λ r, if u_id r =? u_id row1 then row2 else r) (users db1);
       accounts := accounts db1 |}, row2.
  split; [reflexivity|].
  split.
  { rewrite reset_password_cases. cbn [reset_token reset_new_password].
    now rewrite Htok, Hvalid, Hrow1, Hhash. }
  split; [|now repeat split].
  cbn [users]. change (u_id user) with (u_id row2).
  change (u_id row1) with (u_id row2).
  apply find_user_after_commit. exists row1.
  split; [apply (List.find_some _ _ Hrow1)|reflexivity].
Qed.
End SessionFacts.

(* --------------------------------------------------------------------- *)
(* Registration and the change of password                               *)
(* --------------------------------------------------------------------- *)

Section RegistrationFacts.
Context {U : Unicode} {P : Passlib} {J : Jose} (settings : Settings).
Import SecurityManager.

Lemma find_existsb {A} (f : A → bool) (l : list A) :
  existsb f l = bool_decide (is_Some (List.find f l)).
Proof.
  induction l as [|x l IH]; [reflexivity|].
  cbn [existsb List.find]. destruct (f x); [reflexivity|exact IH].
Qed.

Lemma find_app_new {A} (f : A → bool) (l : list A) (x : A) :
  List.find f l = None → f x = true → List.find f (l ++ [x]) = Some x.
Proof.
  intros Hnone Hx. induction l as [|y l IH]; cbn [app List.find].
  - now rewrite Hx.
  - cbn [List.find] in Hnone. destruct (f y); [discriminate|]. now apply IH.
Qed.

(** The row that a registration inserts. *)
Lemma register_return_inv (db db' : Db) (user_data : UserCreate) (new_id : Z)
    (salt : string) (now_created now_updated : datetime) (row : User) :
  Registration.register user_data new_id salt now_created now_updated db
  = (inl (Return row), db') →
  List.find (λ u, String.eqb (u_email u) (create_email user_data)) (users db)
  = None
  ∧ (validate_password_strength (create_password user_data)).1 = true
  ∧ get_password_hash salt (create_password user_data)
    = Return (u_password_hash row)
  ∧ row = {| u_id := new_id;
             u_email := create_email user_data;
             u_password_hash := u_password_hash row;
             u_is_active := true;
             u_is_superuser := false;
             u_created_at := now_created;
             u_updated_at := now_updated;
             u_last_login := None;
             u_password_reset_token := None;
             u_password_reset_expires := None |}
  ∧ db' = {| users := users db ++ [row]; accounts := accounts db |}.
Proof.
  unfold Registration.register, Registration.create_user.
  rewrite find_existsb.
  destruct (List.find _ (users db)) as [existing|]; [discriminate|].
  destruct (validate_password_strength _) as [[|] message]; cbn [negb];
    [|discriminate].
  destruct (get_password_hash _ _) as [password_hash|]; [|discriminate].
  rewrite bool_decide_eq_false_2 by (intros [? ?]; discriminate).
  intros Heq. injection Heq as <- <-. now repeat split.
Qed.

(** X18.  Registration: a taken e-mail is reported as 400 "Email
    already registered" before the password is looked at; the
    [IntegrityError] of the UNIQUE constraint, which [create_user]
    alone ends in on a taken e-mail, never comes out of the endpoint
    (a request runs on the committed store, with no other request in
    between);
    and a registration that returns has appended one row, active and
    not a superuser, keeping e-mails unique and, for a fresh key, the
    keys too. *)
Theorem register_outcomes (db : Db) (user_data : UserCreate) (new_id : Z)
    (salt : string) (now_created now_updated : datetime) :
  (∀ existing,
     In existing (users db) → u_email existing = create_email user_data →
     Registration.register user_data new_id salt now_created now_updated db
     = (inl (Raise (HTTPException 400 "Email already registered" [])), db)
     ∧ ∀ password_hash,
         get_password_hash salt (create_password user_data)
         = Return password_hash →
         Registration.create_user user_data new_id salt now_created
           now_updated db
         = (inr (IntegrityError "UNIQUE constraint failed: users.email"), db))
  ∧ (∀ e, (Registration.register user_data new_id salt now_created
             now_updated db).1 ≠ inr e)
  ∧ (∀ row db',
       Registration.register user_data new_id salt now_created now_updated db
       = (inl (Return row), db') →
       users db' = users db ++ [row]
       ∧ accounts db' = accounts db
       ∧ u_id row = new_id
       ∧ u_email row = create_email user_data
       ∧ u_is_active row = true
       ∧ u_is_superuser row = false
       ∧ (NoDup (map u_email (users db)) → NoDup (map u_email (users db')))
       ∧ (new_id ∉ map u_id (users db) → primary_keys db →
          primary_keys db')).
Proof.
  split; [|split].
  - intros existing Hin Hemail.
    assert (Hex : is_Some (List.find
                    (λ u, String.eqb (u_email u) (create_email user_data))
                    (users db))).
    { destruct (List.find _ (users db)) eqn:Hfind; [eauto|].
      exfalso. pose proof (List.find_none _ _ Hfind existing Hin) as Hno.
      cbn beta in Hno. rewrite Hemail, String.eqb_refl in Hno.
      discriminate. }
    split.
    + unfold Registration.register. now destruct Hex as [x ->].
    + intros password_hash Hhash. unfold Registration.create_user.
      rewrite Hhash, find_existsb. now rewrite bool_decide_eq_true_2.
  - intros e. unfold Registration.register, Registration.create_user.
    rewrite find_existsb.
    destruct (List.find _ (users db)) as [existing|]; [discriminate|].
    destruct (validate_password_strength _) as [[|] message]; cbn [negb];
      [|discriminate].
    destruct (get_password_hash _ _); [|discriminate].
    rewrite bool_decide_eq_false_2 by (intros [? ?]; discriminate).
    discriminate.
  - intros row db' Hreg.
    apply register_return_inv in Hreg as (Hnone & _ & _ & Hrow & ->).
    cbn [users accounts].
    split; [reflexivity|]. split; [reflexivity|].
    split; [now rewrite Hrow|]. split; [now rewrite Hrow|].
    split; [now rewrite Hrow|]. split; [now rewrite Hrow|].
    split.
    + intros Hnd. rewrite map_app. cbn [map].
      apply NoDup_app. split; [exact Hnd|]. split; [|apply NoDup_singleton].
      intros email Hin Hnew. apply list_elem_of_singleton in Hnew. subst email.
      apply list_elem_of_In, in_map_iff in Hin as (u & Hu & Hin).
      pose proof (List.find_none _ _ Hnone u Hin) as Hno. cbn beta in Hno.
      rewrite Hu, Hrow in Hno. cbn [u_email] in Hno.
      rewrite String.eqb_refl in Hno. discriminate.
    + intros Hfresh [Hpk Hpa]. split; cbn [users accounts]; [|exact Hpa].
      rewrite map_app. cbn [map].
      apply NoDup_app. split; [exact Hpk|]. split; [|apply NoDup_singleton].
      intros i Hin Hnew. apply list_elem_of_singleton in Hnew. subst i.
      rewrite Hrow in Hin. now apply Hfresh.
Qed.

(** X19.  Register, then log in: when bcrypt accepts the password
    against the hash it made of it, a login with the e-mail and the
    password of a registration that returned answers tokens for the new
    identity. *)
Theorem register_then_login (db db' : Db) (user_data : UserCreate)
    (new_id : Z) (salt : string) (now_created now_updated : datetime)
    (row : User) (now_access now_refresh now_login now_updated' : datetime) :
  Registration.register user_data new_id salt now_created now_updated db
  = (inl (Return row), db') →
  verify_password (create_password user_data) (u_password_hash row)
  = Return true →
  (auth.login settings
     {| login_email := create_email user_data;
        login_password := create_password user_data |}
     now_access now_refresh now_login now_updated' db').1
  = Return {|
      access_token :=
        create_access_token settings (SubjInt new_id)
          (Some (timedelta_minutes (JWT_EXPIRE_MINUTES settings)))
          (timestamp_of now_access);
      refresh_token :=
        create_refresh_token settings (SubjInt new_id)
          (timestamp_of now_refresh);
      token_type := "bearer";
      expires_in := JWT_EXPIRE_MINUTES settings * 60 |}.
Proof.
  intros Hreg Hverify.
  apply register_return_inv in Hreg as (Hnone & _ & _ & Hrow & ->).
  assert (Hfound : List.find
                     (λ u, String.eqb (u_email u) (create_email user_data))
                     (users db ++ [row]) = Some row).
  { apply find_app_new; [exact Hnone|]. rewrite Hrow. cbn [u_email].
    apply String.eqb_refl. }
  assert (Hid : u_id row = new_id) by (rewrite Hrow; reflexivity).
  assert (Hactive : u_is_active row = true) by (rewrite Hrow; reflexivity).
  cbv [auth.login bind UserService.get_user_by_email query lift raise
       UserService.update_last_login UserService.get_user_by_id commit_user
       ret login_email login_password].
  cbn [users]. rewrite Hfound, Hverify, Hactive, Hid. cbn [negb users].
  destruct (find_by_id_some new_id (users db ++ [row]) row) as (r & -> & _);
    [apply in_app_iff; right; now left|exact Hid|].
  reflexivity.
Qed.

(** X20.  Change the password, then log in with it: for an active
    identity whose row the e-mail selects, a change of password that
    returns leaves a row that a login with the new password opens,
    provided bcrypt accepts the new password against the hash it made
    of it.  The endpoint never ends in the [AttributeError] of a
    missing row when the identity is in the store. *)
Theorem change_password_then_login (db db' : Db)
    (password_data : PasswordChange) (current_user : User) (salt : string)
    (now : datetime) (message : string)
    (now_access now_refresh now_login now_updated : datetime) :
  primary_keys db →
  List.find (λ u, String.eqb (u_email u) (u_email current_user)) (users db)
  = Some current_user →
  u_is_active current_user = true →
  Registration.change_password password_data current_user salt now db
  = (inl (Return message), db') →
  (∀ password_hash,
     get_password_hash salt (new_password password_data)
     = Return password_hash →
     verify_password (new_password password_data) password_hash
     = Return true) →
  (auth.login settings
     {| login_email := u_email current_user;
        login_password := new_password password_data |}
     now_access now_refresh now_login now_updated db').1
  = Return {|
      access_token :=
        create_access_token settings (SubjInt (u_id current_user))
          (Some (timedelta_minutes (JWT_EXPIRE_MINUTES settings)))
          (timestamp_of now_access);
      refresh_token :=
        create_refresh_token settings (SubjInt (u_id current_user))
          (timestamp_of now_refresh);
      token_type := "bearer";
      expires_in := JWT_EXPIRE_MINUTES settings * 60 |}
  ∧ message = "Password changed successfully"
  ∧ ∀ password_data' salt' now' e,
      (Registration.change_password password_data' current_user salt' now'
         db).1 ≠ inr e.
Proof.
  intros [Hpk _] Hemail Hactive Hchange Hbcrypt.
  pose proof (List.find_some _ _ Hemail) as [Hin _].
  pose proof (find_user_by_primary_key (users db) current_user Hpk Hin)
    as Hrow.
  split; [|split].
  - revert Hchange.
    cbv [Registration.change_password UserService.change_password bind
         UserService.get_user_by_id query lift commit_user ret raise].
    rewrite Hrow.
    destruct (verify_password _ _) as [[|]|]; [|discriminate|discriminate].
    destruct (validate_password_strength _) as [[|] msg]; cbn [negb];
      [|discriminate].
    destruct (get_password_hash _ _) as [password_hash|] eqn:Hhash;
      [|discriminate].
    intros Heq. injection Heq as _ <-.
    specialize (Hbcrypt password_hash eq_refl).
    set (row := {| u_id := u_id current_user;
                   u_password_hash := password_hash |}).
    assert (Hfound : List.find
                       (λ u, String.eqb (u_email u) (u_email current_user))
                       (map (λ r, if u_id r =? u_id row then row else r)
                            (users db)) = Some row).
    { apply (find_after_commit_same _ (users db) current_user row Hpk Hemail);
        [reflexivity|]. cbn. apply String.eqb_refl. }
    pose proof (find_user_after_commit row (users db)) as Hrow'.
    change (u_id row) with (u_id current_user) in Hfound, Hrow'.
    cbv [auth.login bind UserService.get_user_by_email query lift raise
         UserService.update_last_login UserService.get_user_by_id commit_user
         ret login_email login_password].
    cbn [users]. rewrite Hfound. cbn [row u_password_hash u_is_active u_id].
    rewrite Hbcrypt, Hactive. cbn [negb users]. fold row.
    rewrite Hrow' by (exists current_user; now split).
    reflexivity.
  - revert Hchange.
    cbv [Registration.change_password UserService.change_password bind
         UserService.get_user_by_id query lift commit_user ret raise].
    rewrite Hrow.
    destruct (verify_password _ _) as [[|]|]; [|discriminate|discriminate].
    destruct (validate_password_strength _) as [[|] msg]; cbn [negb];
      [|discriminate].
    destruct (get_password_hash _ _); [|discriminate].
    intros Heq. now injection Heq as <- _.
  - intros password_data' salt' now' e.
    cbv [Registration.change_password UserService.change_password bind
         UserService.get_user_by_id query lift commit_user ret raise].
    rewrite Hrow.
    destruct (verify_password _ _) as [[|]|]; [|discriminate|discriminate].
    destruct (validate_password_strength _) as [[|] msg]; cbn [negb];
      [|discriminate].
    destruct (get_password_hash salt' (new_password password_data'));
      discriminate.
Qed.
End RegistrationFacts.

(* --------------------------------------------------------------------- *)
(* Accounts: creation, names, deletion                                   *)
(* --------------------------------------------------------------------- *)

Section AccountFacts.

Lemma find_app_none {A} (f : A → bool) (l l' : list A) :
  List.find f l = None → List.find f (l ++ l') = List.find f l'.
Proof.
  intros Hnone. induction l as [|y l IH]; [reflexivity|].
  cbn [app List.find]. cbn [List.find] in Hnone.
  destruct (f y); [discriminate|]. now apply IH.
Qed.

(** A creation that returns found the user, no active account of that
    name, and appended the row. *)
Lemma create_account_return_inv (db db' : Db) (account_data : AccountCreate)
    (user_id new_id : Z) (now_created now_updated : datetime)
    (row : Account) :
  AccountService.create_account account_data user_id new_id now_created
    now_updated db = (Return row, db') →
  List.find (λ a, (a_user_id a =? user_id)
                  && String.eqb (a_name a) (new_name account_data)
                  && a_is_active a) (accounts db) = None
  ∧ row = {| a_id := new_id;
             a_user_id := user_id;
             a_name := new_name account_data;
             a_account_type := new_account_type account_data;
             a_bank_name := new_bank_name account_data;
             a_account_number := new_account_number account_data;
             a_description := new_description account_data;
             a_is_active := true;
             a_created_at := now_created;
             a_updated_at := now_updated |}
  ∧ db' = {| users := users db; accounts := accounts db ++ [row] |}.
Proof.
  cbv [AccountService.create_account bind query raise ret commit_add_account].
  destruct (List.find _ (users db)); [|discriminate].
  destruct (List.find _ (accounts db)); [discriminate|].
  intros Heq. injection Heq as <- <-. now repeat split.
Qed.

(** X21.  Create, then read: with a fresh key, the account that
    [create_account] returns is what its owner reads back under that
    key, and every other identity gets 404 for it. *)
Theorem create_account_then_get (db db' : Db) (account_data : AccountCreate)
    (current_user : User) (new_id : Z) (now_created now_updated : datetime)
    (row : Account) :
  new_id ∉ map a_id (accounts db) →
  accounts.create_account account_data current_user new_id now_created
    now_updated db = (Return row, db') →
  accounts.get_account new_id current_user db' = (Return row, db')
  ∧ a_user_id row = u_id current_user
  ∧ a_is_active row = true
  ∧ ∀ other : User,
      u_id other ≠ u_id current_user →
      accounts.get_account new_id other db'
      = (Raise (HTTPException 404 "Account not found" []), db').
Proof.
  intros Hfresh Hcreate. unfold accounts.create_account in Hcreate.
  apply create_account_return_inv in Hcreate as (_ & Hrow & ->).
  assert (Hold : ∀ uid, List.find (owned_by new_id uid) (accounts db) = None).
  { intros uid. apply find_all_false. intros x Hx. unfold owned_by.
    destruct (Z.eqb_spec (a_id x) new_id) as [Heq|]; [|reflexivity].
    exfalso. apply Hfresh. rewrite <- Heq.
    apply list_elem_of_In, in_map, Hx. }
  split; [|split; [now rewrite Hrow|split; [now rewrite Hrow|]]].
  - cbv [accounts.get_account AccountService.get_account bind query ret
         raise].
    cbn [accounts].
    rewrite (find_app_new _ (accounts db) row (Hold _));
      [reflexivity|].
    rewrite Hrow. unfold owned_by. cbn [a_id a_user_id].
    now rewrite !Z.eqb_refl.
  - intros other Hother.
    cbv [accounts.get_account AccountService.get_account bind query ret
         raise].
    cbn [accounts]. rewrite (find_app_none _ _ _ (Hold (u_id other))).
    cbn [List.find]. rewrite Hrow. unfold owned_by. cbn [a_id a_user_id].
    rewrite Z.eqb_refl. cbn [andb].
    destruct (Z.eqb_spec (u_id current_user) (u_id other)); [congruence|].
    reflexivity.
Qed.

(** X22.  [create_account] keeps the invariants of the table: with a
    fresh key the keys stay unique, and no user gets a second active
    account of a name, because an active account of that name makes the
    creation fail. *)
Theorem create_account_keeps_names_unique (db db' : Db)
    (account_data : AccountCreate) (user_id new_id : Z)
    (now_created now_updated : datetime) (row : Account) :
  primary_keys db → unique_active_names db →
  new_id ∉ map a_id (accounts db) →
  AccountService.create_account account_data user_id new_id now_created
    now_updated db = (Return row, db') →
  primary_keys db' ∧ unique_active_names db'.
Proof.
  intros [Hpu Hpa] Hunique Hfresh Hcreate.
  apply create_account_return_inv in Hcreate as (Hnone & Hrow & ->).
  assert (Hclash : ∀ a, In a (accounts db) → a_user_id a = a_user_id row →
                        a_name a = a_name row → a_is_active a = true →
                        False).
  { intros a Hin Huser Hname Hactive.
    pose proof (List.find_none _ _ Hnone a Hin) as Hno. cbn beta in Hno.
    rewrite Hrow in Huser, Hname. cbn [a_user_id a_name] in Huser, Hname.
    rewrite Huser, Hname, Hactive, Z.eqb_refl, String.eqb_refl in Hno.
    discriminate. }
  split.
  - split; cbn [users accounts]; [exact Hpu|].
    rewrite map_app. cbn [map].
    apply NoDup_app. split; [exact Hpa|]. split; [|apply NoDup_singleton].
    intros i Hin Hnew. apply list_elem_of_singleton in Hnew. subst i.
    rewrite Hrow in Hin. now apply Hfresh.
  - intros a b Ha Hb Huser Hname Haa Hab. cbn [accounts] in Ha, Hb.
    apply in_app_iff in Ha as [Ha|[<-|[]]], Hb as [Hb|[<-|[]]].
    + now apply Hunique.
    + exfalso. now apply (Hclash a).
    + exfalso. now apply (Hclash b).
    + reflexivity.
Qed.

(** What [update_account] does for the activation body. *)
Lemma activate_account_found (db : Db) (account : Account)
    (current_user : User) (now : datetime) :
  List.find (owned_by (a_id account) (u_id current_user)) (accounts db)
  = Some account →
  accounts.activate_account (a_id account) current_user now db
  = (Return ("Account activated successfully", true),
     {| users := users db;
        accounts := map (λ r, if a_id r =? a_id account
                              then with_status account true now else r)
                        (accounts db) |}).
Proof.
  intros Hfound.
  cbv [accounts.activate_account AccountService.update_account
       AccountService.get_account bind query ret raise commit_account
       upd_name].
  now rewrite Hfound.
Qed.

(** X23.  Activation is not checked against the names: when a user has
    an inactive account and an active one of the same name, activating
    the first succeeds and leaves the user with two active accounts of
    that name. *)
Theorem activate_account_breaks_unique_names (db : Db)
    (inactive other : Account) (current_user : User) (now : datetime) :
  primary_keys db →
  In inactive (accounts db) → In other (accounts db) →
  a_user_id inactive = u_id current_user →
  a_user_id other = u_id current_user →
  a_name inactive = a_name other →
  a_is_active inactive = false → a_is_active other = true →
  ∃ db',
    accounts.activate_account (a_id inactive) current_user now db
    = (Return ("Account activated successfully", true), db')
    ∧ In other (accounts db')
    ∧ In (with_status inactive true now) (accounts db')
    ∧ ¬ unique_active_names db'.
Proof.
  intros Hpk Hin Hother Hown Hown' Hname Hoff Hon.
  assert (Hne : a_id other ≠ a_id inactive).
  { intros Heq. destruct Hpk as [_ Hpa].
    pose proof (account_key_unique _ _ _ Hpa Hother Hin Heq). congruence. }
  pose proof (find_owned db inactive Hpk Hin) as Hfound. rewrite Hown in Hfound.
  eexists. split; [now apply activate_account_found|].
  cbn [accounts].
  assert (Hother' : In other
            (map (λ r, if a_id r =? a_id inactive
                       then with_status inactive true now else r)
                 (accounts db))).
  { apply in_map_iff. exists other. split; [|exact Hother].
    now destruct (Z.eqb_spec (a_id other) (a_id inactive)). }
  assert (Hrow' : In (with_status inactive true now)
            (map (λ r, if a_id r =? a_id inactive
                       then with_status inactive true now else r)
                 (accounts db))).
  { apply in_map_iff. exists inactive. split; [|exact Hin].
    now rewrite Z.eqb_refl. }
  split; [exact Hother'|]. split; [exact Hrow'|].
  intros Hunique. apply Hne.
  apply (Hunique other (with_status inactive true now) Hother' Hrow');
    cbn [with_status a_user_id a_name a_is_active]; congruence.
Qed.

(** [update_account], with the monad unfolded. *)
Lemma update_account_cases (db : Db) (account_id : Z)
    (account_data : AccountUpdate) (user_id : Z) (now : datetime) :
  AccountService.update_account account_id account_data user_id now db
  = match List.find (owned_by account_id user_id) (accounts db) with
    | None => (Return None, db)
    | Some account =>
      let saved :=
        match AccountService.null_column account_data with
        | Some column =>
          (Raise (IntegrityError
                    ("NOT NULL constraint failed: accounts." +:+ column)), db)
        | None =>
          (Return (Some (AccountService.apply_update account account_data
                           now)),
           {| users := users db;
              accounts :=
                map (λ r, if a_id r =? a_id account
                          then AccountService.apply_update account account_data
                                 now
                          else r) (accounts db) |})
        end in
      match attribute (upd_name account_data) with
      | Some name =>
        if negb (String.eqb name "") && negb (String.eqb name (a_name account))
        then
          match AccountService.name_taken account_id user_id name db with
          | Some _ =>
            (Raise (HTTPException 400
                      ("Account with name '" +:+ name +:+ "' already exists")
                      []), db)
          | None => saved
          end
        else saved
      | None => saved
      end
    end.
Proof.
  cbv [AccountService.update_account AccountService.get_account bind query
       ret raise commit_account].
  destruct (List.find _ (accounts db)) as [account|]; [|reflexivity].
  assert (Hsave :
    match AccountService.null_column account_data with
    | Some column =>
      λ db0 : Db,
        (Raise (IntegrityError
                  ("NOT NULL constraint failed: accounts." +:+ column)), db0)
    | None =>
      λ db0 : Db,
        (Return (Some (AccountService.apply_update account account_data now)),
         {| users := users db0;
            accounts :=
              map (λ r, if a_id r
                           =? a_id (AccountService.apply_update account
                                      account_data now)
                        then AccountService.apply_update account account_data
                               now
                        else r) (accounts db0) |})
    end db
    = match AccountService.null_column account_data with
      | Some column =>
        (Raise (IntegrityError
                  ("NOT NULL constraint failed: accounts." +:+ column)), db)
      | None =>
        (Return (Some (AccountService.apply_update account account_data now)),
         {| users := users db;
            accounts :=
              map (λ r, if a_id r =? a_id account
                        then AccountService.apply_update account account_data
                               now
                        else r) (accounts db) |})
      end)
    by (destruct (AccountService.null_column account_data); reflexivity).
  destruct (attribute (upd_name account_data)) as [name|]; [|exact Hsave].
  destruct (negb (String.eqb name "") && negb (String.eqb name (a_name account)));
    [|exact Hsave].
  destruct (AccountService.name_taken account_id user_id name db);
    [reflexivity|exact Hsave].
Qed.

(** X24.  An update keeps the names unique unless it activates the
    account or gives it the empty name (which the schema of the body
    refuses): a change of name is refused when another active account
    of the user has the new name, and a body that sets the name, the
    type or [is_active] to [null] is stopped by the database and writes
    nothing.  This holds whatever the update answers. *)
Theorem update_account_keeps_names_unique (db db' : Db) (account_id : Z)
    (account_data : AccountUpdate) (user_id : Z) (now : datetime)
    (outcome : result (option Account)) :
  primary_keys db → unique_active_names db →
  upd_is_active account_data ≠ Value true →
  upd_name account_data ≠ Value "" →
  AccountService.update_account account_id account_data user_id now db
  = (outcome, db') →
  primary_keys db' ∧ unique_active_names db'
  ∧ (upd_name account_data = Null ∨ upd_account_type account_data = Null
     ∨ upd_is_active account_data = Null →
     db' = db ∧ ∀ account, outcome ≠ Return (Some account)).
Proof.
  intros Hpk Hunique Hstatus Hname. rewrite update_account_cases.
  assert (Hnull : upd_name account_data = Null
                  ∨ upd_account_type account_data = Null
                  ∨ upd_is_active account_data = Null →
                  AccountService.null_column account_data ≠ None).
  { unfold AccountService.null_column.
    intros [-> | [-> | ->]]; [discriminate| |].
    - destruct (upd_name account_data); discriminate.
    - destruct (upd_name account_data), (upd_account_type account_data);
        discriminate. }
  assert (Hsame : ∀ o, (o, db) = (outcome, db') →
                       (∀ account, o ≠ Return (Some account)) →
                       primary_keys db' ∧ unique_active_names db'
                       ∧ (upd_name account_data = Null
                          ∨ upd_account_type account_data = Null
                          ∨ upd_is_active account_data = Null →
                          db' = db ∧ ∀ account, outcome ≠ Return (Some account))).
  { intros o Heq Ho. injection Heq as <- <-.
    split; [exact Hpk|]. split; [exact Hunique|]. intros _.
    split; [reflexivity|exact Ho]. }
  destruct (List.find _ (accounts db)) as [account|] eqn:Hfound.
  2: { intros Heq. apply (Hsame _ Heq). discriminate. }
  pose proof (List.find_some _ _ Hfound) as [Hin Howned].
  unfold owned_by in Howned. apply andb_prop in Howned as [Hid Hown].
  apply Z.eqb_eq in Hid, Hown.
  set (row := AccountService.apply_update account account_data now).
  cbv zeta.
  assert (Hkept :
    (a_name row = a_name account
     ∨ AccountService.name_taken account_id user_id (a_name row) db = None) →
    match AccountService.null_column account_data with
    | Some column =>
      (Raise (IntegrityError
                ("NOT NULL constraint failed: accounts." +:+ column)), db)
    | None =>
      (Return (Some row),
       {| users := users db;
          accounts := map (λ r, if a_id r =? a_id account then row else r)
                          (accounts db) |})
    end = (outcome, db') →
    primary_keys db' ∧ unique_active_names db'
    ∧ (upd_name account_data = Null ∨ upd_account_type account_data = Null
       ∨ upd_is_active account_data = Null →
       db' = db ∧ ∀ account, outcome ≠ Return (Some account))).
  { intros Hcase.
    destruct (AccountService.null_column account_data) as [column|] eqn:Hcol.
    { intros Heq. apply (Hsame _ Heq). discriminate. }
    intros Heq. injection Heq as <- <-.
    split; [|split; [|intros Hn; now destruct (Hnull Hn)]].
    - destruct Hpk as [Hpu Hpa]. split; cbn [users accounts]; [exact Hpu|].
      rewrite map_map.
      erewrite map_ext; [exact Hpa|]. intros r. cbn beta.
      destruct (Z.eqb_spec (a_id r) (a_id account)) as [Heq|]; [|reflexivity].
      now rewrite Heq.
    - assert (Hactive : a_is_active row = true → a_is_active account = true).
      { cbn [row AccountService.apply_update a_is_active].
        destruct (upd_is_active account_data) as [| |[|]]; cbn [AccountService.assign];
          congruence. }
      assert (Hclash : ∀ r, In r (accounts db) → a_id r ≠ a_id account →
                a_user_id r = a_user_id row → a_name r = a_name row →
                a_is_active r = true → a_is_active row = true → False).
      { intros r Hr Hne Huser Hnm Hr_on Hrow_on.
        destruct Hcase as [Hsame_name|Hfree].
        - apply Hne. apply (Hunique r account Hr Hin).
          + exact Huser.
          + congruence.
          + exact Hr_on.
          + now apply Hactive.
        - unfold AccountService.name_taken in Hfree.
          pose proof (List.find_none _ _ Hfree r Hr) as Hno. cbn beta in Hno.
          cbn [row AccountService.apply_update a_user_id] in Huser.
          rewrite Huser, Hown, Z.eqb_refl, Hnm, String.eqb_refl, Hr_on in Hno.
          cbn [andb] in Hno. apply negb_false_iff, Z.eqb_eq in Hno.
          congruence. }
      intros a b Ha Hb Huser Hnm Ha_on Hb_on. cbn [accounts] in Ha, Hb.
      apply in_map_iff in Ha as (ra & <- & Hra), Hb as (rb & <- & Hrb).
      destruct (Z.eqb_spec (a_id ra) (a_id account)) as [Hea|Hna],
               (Z.eqb_spec (a_id rb) (a_id account)) as [Heb|Hnb].
      + reflexivity.
      + exfalso. apply (Hclash rb Hrb Hnb); congruence.
      + exfalso. apply (Hclash ra Hra Hna); congruence.
      + now apply Hunique. }
  destruct (upd_name account_data) as [| |name] eqn:Hupd; cbn [attribute].
  - apply Hkept. left. cbn [row AccountService.apply_update a_name].
    now rewrite Hupd.
  - apply Hkept. left. cbn [row AccountService.apply_update a_name].
    now rewrite Hupd.
  - destruct (String.eqb_spec name "") as [->|Hnonempty]; [congruence|].
    cbn [negb andb].
    assert (Hrow_name : a_name row = name).
    { cbn [row AccountService.apply_update a_name]. now rewrite Hupd. }
    destruct (String.eqb_spec name (a_name account)) as [Hsame_name|Hchanged];
      cbn [negb].
    + apply Hkept. left. congruence.
    + destruct (AccountService.name_taken account_id user_id name db)
        eqn:Hfree.
      * intros Heq. apply (Hsame _ Heq). discriminate.
      * apply Hkept. right. now rewrite Hrow_name.
Qed.

(** Replacing the row of a key that [user_id] owns by a row of the same
    owner leaves the accounts of the others as they were. *)
Lemma others_after_commit (user_id : Z) (rows : list Account)
    (account row : Account) :
  NoDup (map a_id rows) → In account rows →
  a_user_id account = user_id → a_user_id row = user_id →
  List.filter (λ a, negb (a_user_id a =? user_id))
              (map (λ r, if a_id r =? a_id account then row else r) rows)
  = List.filter (λ a, negb (a_user_id a =? user_id)) rows.
Proof.
  intros Hnd Hin Hown Hrow.
  assert (Hall : ∀ r, In r rows → a_id r = a_id account → r = account)
    by (intros r Hr Heq; exact (account_key_unique rows r account Hnd Hr Hin Heq)).
  clear Hnd Hin. induction rows as [|x rows IH]; [reflexivity|].
  cbn [map List.filter].
  rewrite IH by (intros r Hr; apply Hall; now right).
  destruct (Z.eqb_spec (a_id x) (a_id account)) as [Heq|]; [|reflexivity].
  rewrite (Hall x (or_introl eq_refl) Heq), Hrow, Hown, Z.eqb_refl.
  reflexivity.
Qed.

Lemma others_after_delete (user_id : Z) (rows : list Account)
    (account : Account) :
  NoDup (map a_id rows) → In account rows → a_user_id account = user_id →
  List.filter (λ a, negb (a_user_id a =? user_id))
              (List.filter (λ r, negb (a_id r =? a_id account)) rows)
  = List.filter (λ a, negb (a_user_id a =? user_id)) rows.
Proof.
  intros Hnd Hin Hown.
  assert (Hall : ∀ r, In r rows → a_id r = a_id account → r = account)
    by (intros r Hr Heq; exact (account_key_unique rows r account Hnd Hr Hin Heq)).
  clear Hnd Hin. induction rows as [|x rows IH]; [reflexivity|].
  cbn [List.filter].
  destruct (Z.eqb_spec (a_id x) (a_id account)) as [Heq|]; cbn [negb].
  - rewrite (Hall x (or_introl eq_refl) Heq), Hown, Z.eqb_refl. cbn [negb].
    apply IH. intros r Hr. apply Hall. now right.
  - cbn [List.filter]. rewrite IH by (intros r Hr; apply Hall; now right).
    reflexivity.
Qed.

Lemma find_owned_inv (account_id user_id : Z) (rows : list Account)
    (account : Account) :
  List.find (owned_by account_id user_id) rows = Some account →
  In account rows ∧ a_id account = account_id ∧ a_user_id account = user_id.
Proof.
  intros Hfound. pose proof (List.find_some _ _ Hfound) as [Hin Howned].
  unfold owned_by in Howned. apply andb_prop in Howned as [Hid Hown].
  apply Z.eqb_eq in Hid, Hown. now repeat split.
Qed.

(** X25.  A user's requests write to that user's accounts only:
    whatever the five writing handlers answer, the users table and the
    accounts of every other user are as before. *)
Theorem writes_leave_others_alone (db : Db) (current_user : User)
    (account_id new_id : Z) (account_data : AccountUpdate)
    (new_account : AccountCreate) (hard_delete : bool)
    (now now' : datetime) :
  primary_keys db →
  let unchanged (db' : Db) :=
    users db' = users db
    ∧ accounts_of_others (u_id current_user) db'
      = accounts_of_others (u_id current_user) db in
  unchanged (accounts.create_account new_account current_user new_id now now'
               db).2
  ∧ unchanged (accounts.update_account account_id account_data current_user
                 now db).2
  ∧ unchanged (accounts.delete_account account_id hard_delete current_user
                 now db).2
  ∧ unchanged (accounts.activate_account account_id current_user now db).2.
Proof.
  intros [_ Hpa] unchanged.
  assert (Hsame : unchanged db) by now split.
  assert (Hcommit : ∀ account row,
            In account (accounts db) →
            a_user_id account = u_id current_user →
            a_user_id row = u_id current_user →
            unchanged {| users := users db;
                         accounts := map (λ r, if a_id r =? a_id account
                                               then row else r)
                                         (accounts db) |}).
  { intros account row Hin Hown Hrow.
    split; [reflexivity|]. unfold accounts_of_others. cbn [accounts].
    now apply others_after_commit. }
  assert (Hupdate : ∀ data,
            unchanged (AccountService.update_account account_id data
                         (u_id current_user) now db).2).
  { intros data. rewrite update_account_cases.
    destruct (List.find _ (accounts db)) as [account|] eqn:Hfound;
      [|exact Hsame].
    apply find_owned_inv in Hfound as (Hin & _ & Hown).
    assert (Hsaved : unchanged
              {| users := users db;
                 accounts :=
                   map (λ r, if a_id r =? a_id account
                             then AccountService.apply_update account data now
                             else r) (accounts db) |})
      by now apply Hcommit.
    assert (Hsaved' : unchanged
              (match AccountService.null_column data with
               | Some column =>
                 (Raise (IntegrityError
                           ("NOT NULL constraint failed: accounts."
                            +:+ column)) : result (option Account), db)
               | None =>
                 (Return (Some (AccountService.apply_update account data now)),
                  {| users := users db;
                     accounts :=
                       map (λ r, if a_id r =? a_id account
                                 then AccountService.apply_update account data
                                        now
                                 else r) (accounts db) |})
               end).2)
      by (destruct (AccountService.null_column data);
          [exact Hsame|exact Hsaved]).
    cbv zeta. destruct (attribute (upd_name data)) as [name|];
      [|exact Hsaved'].
    destruct (negb _ && negb _); [|exact Hsaved'].
    destruct (AccountService.name_taken _ _ _ _); [exact Hsame|exact Hsaved']. }
  split; [|split; [|split]].
  - cbv [accounts.create_account AccountService.create_account bind query
         raise ret commit_add_account].
    destruct (List.find _ (users db)); [|exact Hsame].
    destruct (List.find _ (accounts db)); [exact Hsame|].
    split; [reflexivity|]. unfold accounts_of_others. cbn [snd accounts].
    rewrite List.filter_app. cbn [List.filter a_user_id].
    rewrite Z.eqb_refl. cbn [negb]. apply app_nil_r.
  - unfold accounts.update_account, bind.
    specialize (Hupdate account_data).
    destruct (AccountService.update_account _ _ _ _ _) as [[[row|]|e] db'];
      exact Hupdate.
  - cbv [accounts.delete_account AccountService.delete_account
         AccountService.hard_delete_account AccountService.get_account bind
         query ret raise commit_account commit_delete_account].
    destruct hard_delete;
      (destruct (List.find _ (accounts db)) as [account|] eqn:Hfound;
       [|exact Hsame]); cbn [negb snd].
    + apply find_owned_inv in Hfound as (Hin & _ & Hown).
      split; [reflexivity|]. unfold accounts_of_others. cbn [accounts].
      now apply others_after_delete.
    + apply find_owned_inv in Hfound as (Hin & _ & Hown).
      now apply (Hcommit account).
  - unfold accounts.activate_account, bind.
    specialize (Hupdate activation). fold activation.
    destruct (AccountService.update_account _ _ _ _ _) as [[[row|]|e] db'];
      exact Hupdate.
Qed.

(** What the soft and the hard delete do to an account that the user
    owns. *)
Lemma delete_account_found (db : Db) (account : Account)
    (current_user : User) (hard_delete : bool) (now : datetime) :
  List.find (owned_by (a_id account) (u_id current_user)) (accounts db)
  = Some account →
  accounts.delete_account (a_id account) hard_delete current_user now db
  = if hard_delete then
      (Return ("Account permanently deleted", true),
       {| users := users db;
          accounts := List.filter (λ r, negb (a_id r =? a_id account))
                                  (accounts db) |})
    else
      (Return ("Account deactivated successfully", true),
       {| users := users db;
          accounts := map (λ r, if a_id r =? a_id account
                                then with_status account false now else r)
                          (accounts db) |}).
Proof.
  intros Hfound.
  cbv [accounts.delete_account AccountService.delete_account
       AccountService.hard_delete_account AccountService.get_account bind
       query ret raise commit_account commit_delete_account].
  destruct hard_delete; now rewrite Hfound.
Qed.

Lemma find_account_after_commit (account row : Account) (user_id : Z)
    (rows : list Account) :
  In account rows → a_id row = a_id account → a_user_id row = user_id →
  List.find (owned_by (a_id account) user_id)
            (map (λ r, if a_id r =? a_id account then row else r) rows)
  = Some row.
Proof.
  intros Hin Hid Hown. induction rows as [|x rows IH]; [destruct Hin|].
  cbn [map List.find]. unfold owned_by at 1.
  destruct (Z.eqb_spec (a_id x) (a_id account)) as [Heq|Hne].
  - now rewrite Hid, Hown, !Z.eqb_refl.
  - destruct (Z.eqb_spec (a_id x) (a_id account)); [contradiction|].
    cbn [andb]. destruct Hin as [->|Hin]; [contradiction|]. now apply IH.
Qed.

(** X26.  A soft delete is undone by an activation: the owner still
    reads the account after the delete, now inactive, and after the
    activation reads it as it was but for [updated_at]. *)
Theorem soft_delete_then_activate (db : Db) (account : Account)
    (current_user : User) (now_deleted now_activated : datetime) :
  primary_keys db → In account (accounts db) →
  a_user_id account = u_id current_user →
  ∃ db1 db2,
    accounts.delete_account (a_id account) false current_user now_deleted db
    = (Return ("Account deactivated successfully", true), db1)
    ∧ accounts.get_account (a_id account) current_user db1
      = (Return (with_status account false now_deleted), db1)
    ∧ accounts.activate_account (a_id account) current_user now_activated db1
      = (Return ("Account activated successfully", true), db2)
    ∧ accounts.get_account (a_id account) current_user db2
      = (Return (with_status account true now_activated), db2)
    ∧ primary_keys db2.
Proof.
  intros Hpk Hin Hown.
  pose proof (find_owned db account Hpk Hin) as Hfound.
  rewrite Hown in Hfound.
  set (off := with_status account false now_deleted).
  set (on := with_status account true now_activated).
  set (db1 := {| users := users db;
                 accounts := map (λ r, if a_id r =? a_id account
                                       then off else r) (accounts db) |}).
  set (db2 := {| users := users db1;
                 accounts := map (λ r, if a_id r =? a_id off
                                       then on else r) (accounts db1) |}).
  assert (Hoff : List.find (owned_by (a_id account) (u_id current_user))
                           (accounts db1) = Some off).
  { cbn [db1 accounts]. now apply find_account_after_commit. }
  assert (Hon : List.find (owned_by (a_id account) (u_id current_user))
                          (accounts db2) = Some on).
  { cbn [db2 accounts].
    apply (find_account_after_commit off on); [|reflexivity|exact Hown].
    apply (List.find_some _ _ Hoff). }
  exists db1, db2. split; [|split; [|split; [|split]]].
  - now rewrite (delete_account_found db account current_user false).
  - cbv [accounts.get_account AccountService.get_account bind query ret raise].
    now rewrite Hoff.
  - apply (activate_account_found db1 off current_user now_activated Hoff).
  - cbv [accounts.get_account AccountService.get_account bind query ret raise].
    now rewrite Hon.
  - destruct Hpk as [Hpu Hpa]. split; [exact Hpu|].
    cbn [db2 db1 accounts]. rewrite !map_map.
    erewrite map_ext; [exact Hpa|]. intros r. cbn beta.
    destruct (Z.eqb_spec (a_id r) (a_id account)) as [Heq|Hne].
    + cbn [off with_status a_id]. now rewrite Z.eqb_refl.
    + cbn [off with_status a_id].
      now destruct (Z.eqb_spec (a_id r) (a_id account)).
Qed.

(** X27.  A hard delete is final: the row is gone, the other rows are
    untouched, and reading, updating, activating or deleting the
    account again answers 404. *)
Theorem hard_delete_is_final (db : Db) (account : Account)
    (current_user : User) (now : datetime) :
  primary_keys db → In account (accounts db) →
  a_user_id account = u_id current_user →
  ∃ db',
    accounts.delete_account (a_id account) true current_user now db
    = (Return ("Account permanently deleted", true), db')
    ∧ (∀ a, In a (accounts db') ↔ In a (accounts db) ∧ a ≠ account)
    ∧ ∀ (account_data : AccountUpdate) (hard_delete : bool) (t : datetime),
        let not_found {A} : result A * Db :=
          (Raise (HTTPException 404 "Account not found" []), db') in
        accounts.get_account (a_id account) current_user db' = not_found
        ∧ accounts.update_account (a_id account) account_data current_user t
            db' = not_found
        ∧ accounts.delete_account (a_id account) hard_delete current_user t
            db' = not_found
        ∧ accounts.activate_account (a_id account) current_user t db'
          = not_found.
Proof.
  intros Hpk Hin Hown.
  pose proof (find_owned db account Hpk Hin) as Hfound.
  rewrite Hown in Hfound.
  eexists. split; [now rewrite (delete_account_found db account current_user true)|].
  split.
  - intros a. cbn [accounts]. rewrite filter_In.
    destruct Hpk as [_ Hpa]. split.
    + intros [Ha Hne]. split; [exact Ha|]. intros ->.
      now rewrite Z.eqb_refl in Hne.
    + intros [Ha Hne]. split; [exact Ha|].
      destruct (Z.eqb_spec (a_id a) (a_id account)) as [Heq|]; [|reflexivity].
      exfalso. apply Hne.
      exact (account_key_unique (accounts db) a account Hpa Ha Hin Heq).
  - intros account_data hard_delete t not_found.
    apply handlers_absent_account. cbn [accounts].
    intros a Ha. apply filter_In in Ha as [_ Hne].
    now apply negb_true_iff, Z.eqb_neq in Hne.
Qed.
End AccountFacts.

(* --------------------------------------------------------------------- *)
(* Accounts: the listing                                                 *)
(* --------------------------------------------------------------------- *)

Section QueryFacts.
Context {S : Sql}.

(** What the filters of the listing guarantee of a selected row. *)
Lemma selected_sound (user_id : Z) (account_type : option AccountType)
    (is_active : option bool) (search : option string) (a : Account) :
  AccountService.selected user_id account_type is_active search a = true →
  a_user_id a = user_id
  ∧ (∀ t, account_type = Some t → a_account_type a = t)
  ∧ (∀ b, is_active = Some b → a_is_active a = b).
Proof.
  unfold AccountService.selected. intros Hsel.
  apply andb_prop in Hsel as [Hsel _].
  apply andb_prop in Hsel as [Hsel Hactive].
  apply andb_prop in Hsel as [Hown Htype].
  apply Z.eqb_eq in Hown. split; [exact Hown|]. split.
  - intros t ->. now apply bool_decide_eq_true in Htype.
  - intros b ->. now apply Bool.eqb_prop in Hactive.
Qed.

Lemma in_page {A} (skip limit : nat) (l : list A) (x : A) :
  In x (take limit (drop skip l)) → In x l.
Proof.
  intros Hin. apply list_elem_of_In. apply list_elem_of_In in Hin.
  eapply elem_of_sublist; [exact Hin|].
  etransitivity; [apply sublist_take|apply sublist_drop].
Qed.

(** The size of a page, and where its rows come from. *)
Lemma page_length (skip limit : nat) (sel : list Account) :
  List.length (take limit (drop skip (order_by_name sel)))
  = Nat.min limit (List.length sel - skip).
Proof.
  rewrite length_take, length_drop.
  now rewrite (Permutation_length (order_by_name_perm sel)).
Qed.

Lemma page_sound (skip limit : nat) (f : Account → bool)
    (rows : list Account) (a : Account) :
  In a (take limit (drop skip (order_by_name (List.filter f rows)))) →
  In a rows ∧ f a = true.
Proof.
  intros Ha. apply in_page in Ha.
  apply list_elem_of_In in Ha.
  rewrite (order_by_name_perm (List.filter f rows)) in Ha.
  now apply list_elem_of_In, filter_In in Ha.
Qed.

(** X28.  A page of the listing: it holds [min limit (count - skip)]
    rows, where [count] is what [get_accounts_count] answers for the
    same filters; every row is a row of the table that the user owns and
    that has the type and the status asked for; and no row comes
    twice. *)
Theorem get_accounts_page (db : Db) (user_id : Z) (skip limit : nat)
    (account_type : option AccountType) (is_active : option bool)
    (search : option string) :
  ∃ rows count,
    AccountService.get_accounts user_id skip limit account_type is_active
      search db = (Return rows, db)
    ∧ AccountService.get_accounts_count user_id account_type is_active search
        db = (Return count, db)
    ∧ List.length rows = Nat.min limit (count - skip)
    ∧ (∀ a, In a rows →
         In a (accounts db)
         ∧ a_user_id a = user_id
         ∧ (∀ t, account_type = Some t → a_account_type a = t)
         ∧ (∀ b, is_active = Some b → a_is_active a = b))
    ∧ (primary_keys db → NoDup rows).
Proof.
  eexists _, _. split; [reflexivity|]. split; [reflexivity|].
  split; [apply page_length|]. split.
  - intros a Ha. apply page_sound in Ha as [Hin Hsel].
    split; [exact Hin|]. now apply selected_sound in Hsel.
  - intros [_ Hpa].
    eapply sublist_NoDup;
      [|etransitivity; [apply sublist_take|apply sublist_drop]].
    rewrite (order_by_name_perm (List.filter _ (accounts db))).
    apply NoDup_ListNoDup, List.NoDup_filter, NoDup_ListNoDup.
    exact (NoDup_fmap_1 a_id (accounts db) Hpa).
Qed.

(** X29.  The statistics cover the first hundred active accounts of the
    user and no more: [get_account_stats] lists through [get_accounts]
    with its default limit, so there are [min 100 count] entries for
    [count] active accounts, each the key, name and type of an active
    account of the user, with no transaction. *)
Theorem get_account_stats_truncated (db : Db) (user_id : Z) :
  ∃ stats count,
    AccountService.get_account_stats user_id db = (Return stats, db)
    ∧ AccountService.get_accounts_count user_id None (Some true) None db
      = (Return count, db)
    ∧ List.length stats = Nat.min 100 count
    ∧ ∀ s, In s stats →
        stat_transaction_count s = 0
        ∧ ∃ a, In a (accounts db)
               ∧ a_user_id a = user_id ∧ a_is_active a = true
               ∧ stat_id s = a_id a ∧ stat_name s = a_name a
               ∧ stat_account_type s = a_account_type a.
Proof.
  eexists _, _. split; [reflexivity|]. split; [reflexivity|]. split.
  - rewrite length_map, page_length. now rewrite Nat.sub_0_r.
  - intros s Hs. apply in_map_iff in Hs as (a & <- & Ha).
    split; [reflexivity|]. exists a.
    apply page_sound in Ha as [Hin Hsel].
    apply selected_sound in Hsel as (Hown & _ & Hactive).
    repeat split; try assumption. now apply Hactive.
Qed.
End QueryFacts.

Section ReactivationFacts.
Context {J : Jose} {I : PyInt} (settings : Settings).

(** X30.  Deactivation is undone by [activate_user]: a bearer token
    that the gateway accepted before the two calls is refused between
    them and accepted after them, and the gateway then returns the row
    as it was, column by column, but for [updated_at], which is the
    time of the activation. *)
Theorem deactivate_then_activate
    (creds : option HTTPAuthorizationCredentials) (now : Z) (db db1 db2 : Db)
    (user off on : User) (now_deactivated now_activated : datetime) :
  deps.get_current_user settings creds now db = (Return user, db) →
  UserService.deactivate_user (u_id user) now_deactivated db
  = (Return off, db1) →
  UserService.activate_user (u_id user) now_activated db1 = (Return on, db2) →
  on = {| u_id := u_id user;
          u_email := u_email user;
          u_password_hash := u_password_hash user;
          u_is_active := true;
          u_is_superuser := u_is_superuser user;
          u_created_at := u_created_at user;
          u_updated_at := now_activated;
          u_last_login := u_last_login user;
          u_password_reset_token := u_password_reset_token user;
          u_password_reset_expires := u_password_reset_expires user |}
  ∧ u_is_active user = true
  ∧ deps.get_current_user settings creds now db1
    = (Raise (HTTPException 401 "Inactive user"
                            [("WWW-Authenticate", "Bearer")]), db1)
  ∧ deps.get_current_user settings creds now db2 = (Return on, db2).
Proof.
  rewrite !get_current_user_cases.
  destruct (get_current_user_token creds) as [tok|]; [|discriminate].
  destruct (verify_access_token settings tok now) as [subject|];
    [|discriminate].
  destruct (int_of_subject subject) as [uid|]; [|discriminate].
  destruct (List.find (λ u, u_id u =? uid) (users db)) as [found|] eqn:Hfound;
    [|discriminate].
  destruct (u_is_active found) eqn:Hactive; [|discriminate].
  intros Heq. injection Heq as <-.
  pose proof (List.find_some _ _ Hfound) as [Hin Hid]. apply Z.eqb_eq in Hid.
  subst uid.
  cbv [UserService.deactivate_user UserService.activate_user bind
       UserService.get_user_by_id query commit_user ret raise].
  rewrite Hfound. intros Heq. injection Heq as <- <-.
  set (off := UserService.with_is_active found false now_deactivated).
  assert (Hoff : List.find (λ u, u_id u =? u_id found)
                   (map (λ r, if u_id r =? u_id found then off else r)
                        (users db)) = Some off).
  { apply (find_user_after_commit off (users db)). exists found. now split. }
  cbn [users]. rewrite Hoff. intros Heq. injection Heq as <- <-.
  split; [reflexivity|]. split; [exact Hactive|]. split; [reflexivity|].
  set (on := UserService.with_is_active off true now_activated).
  cbn [users].
  rewrite (find_user_after_commit on); [reflexivity|].
  exists off. split; [apply (List.find_some _ _ Hoff)|reflexivity].
Qed.
End ReactivationFacts.

(* ===================================================================== *)
(* Further worked examples                                               *)
(* ===================================================================== *)

Lemma sample_unique_active_names : unique_active_names Sample.db.
Proof. intros a b [<-|[]] [<-|[]] _ _ _ _. reflexivity. Defined.

Example int_of_decimal :
  int (pretty 42) = Return 42
  ∧ int "-7" = Return (-7)
  ∧ int "4 2" = Raise (ValueError "invalid literal for int() with base 10").
Proof. now vm_compute. Qed.

Example listing_by_name :
  (AccountService.get_accounts (S := Scenario.sql) 7 0 10 None (Some true)
     (Some "DAY") Scenario.two_everyday).1
  = Return [Scenario.account44].
Proof. vm_compute. reflexivity. Qed.

(** A refresh token issued at 10:30 is accepted just before 11:00. *)
Lemma refresh_token_round_trip_witness :
  SecurityManager.verify_token default_settings
    (SecurityManager.create_refresh_token default_settings (SubjInt 7)
       (timestamp_of Sample.morning)) "refresh" Scenario.now7
  = Some (CStr (str (SubjInt 7)))
  ∧ verify_refresh_token default_settings
      (SecurityManager.create_refresh_token default_settings (SubjInt 7)
         (timestamp_of Sample.morning)) Scenario.now7
    = Return (CStr (str (SubjInt 7))).
Proof.
  apply (refresh_token_round_trip default_settings (SubjInt 7)
           (timestamp_of Sample.morning) Scenario.now7).
  vm_compute. discriminate.
Defined.

(** The access token of 10:30 is refused at 11:01, when the refresh
    token is still good; the refresh token is refused eight days
    later. *)
Lemma expired_token_rejected_witness :
  let issued := timestamp_of Sample.morning in
  let later := issued + 31 * 60 * 1000000 in
  let much_later := issued + 8 * 86400 * 1000000 in
  (SecurityManager.verify_token default_settings
     (SecurityManager.create_access_token default_settings (SubjInt 7) None
        issued) "access" later = None
   ∧ verify_access_token default_settings
       (SecurityManager.create_access_token default_settings (SubjInt 7) None
          issued) later
     = Raise (HTTPException 401 "Could not validate credentials"
                            [("WWW-Authenticate", "Bearer")]))
  ∧ (SecurityManager.verify_token default_settings
       (SecurityManager.create_refresh_token default_settings (SubjInt 7)
          issued) "refresh" much_later = None
     ∧ verify_refresh_token default_settings
         (SecurityManager.create_refresh_token default_settings (SubjInt 7)
            issued) much_later
       = Raise (HTTPException 401 "Could not validate refresh token"
                              [("WWW-Authenticate", "Bearer")])).
Proof.
  split.
  - apply (proj1 (expired_token_rejected default_settings (SubjInt 7) None
                    (timestamp_of Sample.morning)
                    (timestamp_of Sample.morning + 31 * 60 * 1000000))).
    vm_compute. discriminate.
  - apply (proj2 (expired_token_rejected default_settings (SubjInt 7) None
                    (timestamp_of Sample.morning)
                    (timestamp_of Sample.morning + 8 * 86400 * 1000000))).
    vm_compute. discriminate.
Defined.

Example refresh_token_outlives_access_token :
  SecurityManager.verify_token default_settings
    (SecurityManager.create_refresh_token default_settings (SubjInt 7)
       (timestamp_of Sample.morning)) "refresh"
    (timestamp_of Sample.morning + 31 * 60 * 1000000)
  = Some (CStr "7").
Proof. vm_compute. reflexivity. Qed.

(** A token signed with the key whose "exp" is a string of digits is
    accepted, and is as the theorem says. *)
Lemma verify_token_sound_witness :
  ∃ claims,
    Scenario.text_exp_token
    = Jws (JWT_ALGORITHM default_settings) claims
          (jws_sign (JWT_ALGORITHM default_settings)
                    (SECRET_KEY default_settings) claims)
    ∧ claims !! "type" = Some (CStr "access")
    ∧ claims !! "sub" = Some (CStr "7")
    ∧ (∃ sub, CStr "7" = CStr sub)
    ∧ (∀ exp, claims !! "exp" = Some exp →
              ∃ seconds, reads_as exp seconds
                         ∧ timegm Scenario.now7 ≤ seconds)
    ∧ (∀ nbf, claims !! "nbf" = Some nbf →
              ∃ seconds, reads_as nbf seconds
                         ∧ seconds ≤ timegm Scenario.now7)
    ∧ (∀ iat, claims !! "iat" = Some iat → ∃ seconds, reads_as iat seconds)
    ∧ (∀ jti, claims !! "jti" = Some jti → ∃ text, jti = CStr text)
    ∧ claims !! "aud" = None
    ∧ claims !! "at_hash" = None.
Proof.
  apply (verify_token_sound default_settings Scenario.text_exp_token "access"
           Scenario.now7 (CStr "7")).
  vm_compute. reflexivity.
Defined.

(** A token that is not yet valid, one with an audience and one whose
    "exp" is no number are refused. *)
Example verify_token_refuses :
  SecurityManager.verify_token default_settings
    (Scenario.signed (<["nbf" := CInt 1762171800]> Scenario.text_exp_claims))
    "access" Scenario.now7 = None
  ∧ SecurityManager.verify_token default_settings
      (Scenario.signed (<["aud" := CStr "api"]> Scenario.text_exp_claims))
      "access" Scenario.now7 = None
  ∧ SecurityManager.verify_token default_settings
      (Scenario.signed (<["exp" := CStr "soon"]> Scenario.text_exp_claims))
      "access" Scenario.now7 = None.
Proof. vm_compute. now repeat split. Qed.

Lemma zero_expires_delta_is_default_witness :
  SecurityManager.create_access_token default_settings (SubjInt 7) (Some 0)
    (timestamp_of Sample.morning)
  = SecurityManager.create_access_token default_settings (SubjInt 7) None
      (timestamp_of Sample.morning)
  ∧ SecurityManager.verify_token default_settings
      (SecurityManager.create_access_token default_settings (SubjInt 7)
         (Some 0) (timestamp_of Sample.morning)) "access" Scenario.now7
    = Some (CStr (str (SubjInt 7))).
Proof.
  apply (zero_expires_delta_is_default default_settings (SubjInt 7)
           (timestamp_of Sample.morning) Scenario.now7).
  vm_compute. discriminate.
Defined.

(** Client 10.0.0.1 gets the answers it would get without the call of
    10.0.0.2. *)
Lemma run_isolated_witness :
  RateLimiter.answers_of "10.0.0.1" Sample.calls
    (RateLimiter.run RateLimiter.init 3 60 Sample.calls).1
  = (RateLimiter.run RateLimiter.init 3 60
       (RateLimiter.calls_of "10.0.0.1" Sample.calls)).1.
Proof.
  apply (run_isolated "10.0.0.1" 3 60 Sample.calls RateLimiter.init
           RateLimiter.init).
  reflexivity.
Defined.

(** Client 10.0.0.1 was refused at 60.000001 s; at 200 s it is admitted
    again and its list starts afresh. *)
Lemma is_allowed_after_window_witness :
  RateLimiter.is_allowed Scenario.limiter "10.0.0.1" 3 60 200000000
  = (true, <["10.0.0.1" := [200000000]]> Scenario.limiter).
Proof.
  apply (is_allowed_after_window Scenario.limiter "10.0.0.1" 3 60 200000000).
  - lia.
  - refine (bool_decide_unpack _ _). vm_compute. exact I.
Defined.

Lemma run_state_shape_witness :
  RateLimiter.within_limit 3
    (RateLimiter.run RateLimiter.init 3 60 Sample.calls).2
  ∧ dom (RateLimiter.run RateLimiter.init 3 60 Sample.calls).2
    = list_to_set Sample.calls.*1.
Proof. apply (run_state_shape 3 60 Sample.calls). lia. Defined.

Lemma scenario_logged_in :
  Scenario.logged_in = (Return Scenario.session, Scenario.after_login).
Proof. vm_compute. reflexivity. Defined.

(** User 7 logs in at 10:30 and is let through just before 11:00. *)
Lemma login_then_get_current_user_witness :
  ∃ current_user,
    deps.get_current_user default_settings
      (bearer (access_token Scenario.session)) Scenario.now7
      Scenario.after_login
    = (Return current_user, Scenario.after_login)
    ∧ u_id current_user = u_id Sample.user7
    ∧ u_email current_user = u_email Sample.user7
    ∧ u_last_login current_user = Some Sample.morning
    ∧ In current_user (users Scenario.after_login).
Proof.
  apply (login_then_get_current_user default_settings Sample.db
           Scenario.after_login Scenario.login7 Sample.morning Sample.morning
           Sample.morning Sample.morning Scenario.session Sample.user7
           Scenario.now7).
  - exact sample_primary_keys.
  - reflexivity.
  - reflexivity.
  - exact scenario_logged_in.
  - vm_compute. discriminate.
Defined.

Lemma get_current_user_returns_witness :
  Scenario.after_login = Scenario.after_login
  ∧ In Scenario.current7 (users Scenario.after_login)
  ∧ u_is_active Scenario.current7 = true
  ∧ (∃ c subject,
       Scenario.credentials7 = Some c
       ∧ SecurityManager.verify_token default_settings (credentials c)
           "access" Scenario.now7 = Some subject
       ∧ int_of_subject subject = Return (u_id Scenario.current7))
  ∧ deps.get_current_active_user Scenario.current7 Scenario.after_login
    = (Return Scenario.current7, Scenario.after_login).
Proof.
  apply (get_current_user_returns default_settings Scenario.credentials7
           Scenario.now7 Scenario.after_login Scenario.after_login
           Scenario.current7).
  vm_compute. reflexivity.
Defined.

(** The refresh token of 10:30 gives new tokens just before 11:00, and
    would again. *)
Lemma refresh_token_reusable_witness :
  auth.refresh_token default_settings
    (bearer (SecurityManager.create_refresh_token default_settings
               (SubjInt (u_id Sample.user7)) (timestamp_of Sample.morning)))
    Scenario.now7 Scenario.now7 Scenario.now7 Sample.db
  = (Return {|
       access_token :=
         SecurityManager.create_access_token default_settings
           (SubjInt (u_id Sample.user7))
           (Some (timedelta_minutes (JWT_EXPIRE_MINUTES default_settings)))
           Scenario.now7;
       refresh_token :=
         SecurityManager.create_refresh_token default_settings
           (SubjInt (u_id Sample.user7)) Scenario.now7;
       token_type := "bearer";
       expires_in := JWT_EXPIRE_MINUTES default_settings * 60 |}, Sample.db).
Proof.
  apply (refresh_token_reusable default_settings Sample.db Sample.user7
           (timestamp_of Sample.morning) Scenario.now7 Scenario.now7
           Scenario.now7).
  - reflexivity.
  - reflexivity.
  - reflexivity.
  - vm_compute. discriminate.
Defined.

(** Once user 7 is deactivated, the tokens of the morning and the
    password are refused. *)
Lemma deactivated_user_locked_out_witness :
  deps.get_current_user default_settings Scenario.credentials7 Scenario.now7
    Scenario.deactivated.2
  = (Raise (HTTPException 401 "Inactive user"
                          [("WWW-Authenticate", "Bearer")]),
     Scenario.deactivated.2)
  ∧ auth.refresh_token default_settings
      (bearer (refresh_token Scenario.session)) Scenario.now7 Scenario.now7
      Scenario.now7 Scenario.deactivated.2
    = (Raise (HTTPException 401 "User not found or inactive"
                            [("WWW-Authenticate", "Bearer")]),
       Scenario.deactivated.2)
  ∧ auth.login default_settings Scenario.login7 Sample.next_day
      Sample.next_day Sample.next_day Sample.next_day Scenario.deactivated.2
    = (Raise (HTTPException 401 "User account is inactive" []),
       Scenario.deactivated.2).
Proof.
  destruct (deactivated_user_locked_out default_settings Sample.db
              Scenario.deactivated.2 7 Sample.next_day
              (Scenario.returned Sample.user7 Scenario.deactivated))
    as (Hgateway & Hrefresh & Hlogin).
  - vm_compute. reflexivity.
  - split; [|split].
    + apply (Hgateway Scenario.credentials7 Scenario.now7
               (access_token Scenario.session) (CStr "7")); reflexivity.
    + apply (Hrefresh (bearer (refresh_token Scenario.session)) Scenario.now7
               Scenario.now7 Scenario.now7 (refresh_token Scenario.session)
               (CStr "7")); reflexivity.
    + apply (Hlogin Sample.user7).
      * exact sample_primary_keys.
      * reflexivity.
      * reflexivity.
      * reflexivity.
Defined.

Lemma scenario_gateway :
  deps.get_current_user default_settings Scenario.credentials7 Scenario.now7
    Sample.db = (Return Sample.user7, Sample.db).
Proof. vm_compute. reflexivity. Defined.

(** The token of the morning is still accepted after the reset and
    after the change of password of user 7. *)
Lemma new_password_keeps_sessions_witness :
  (∃ user', deps.get_current_user default_settings Scenario.credentials7
              Scenario.now7 Sample.after_reset
            = (Return user', Sample.after_reset)
            ∧ u_id user' = u_id Sample.user7)
  ∧ (∃ user', deps.get_current_user default_settings Scenario.credentials7
                Scenario.now7 Scenario.password_changed.2
              = (Return user', Scenario.password_changed.2)
              ∧ u_id user' = u_id Sample.user7).
Proof.
  destruct (new_password_keeps_sessions default_settings Scenario.credentials7
              Scenario.now7 Sample.db Sample.user7 sample_primary_keys
              scenario_gateway) as [Hreset Hchange].
  split.
  - apply (Hreset Sample.reset "pepper" Sample.next_day
             "Password reset successfully").
    vm_compute. reflexivity.
  - apply (Hchange Scenario.new_password7 Sample.user7 "salt3"
             Sample.next_day "Password changed successfully").
    vm_compute. reflexivity.
Defined.

(** User 7 changes the password; the reset token of the morning still
    resets it. *)
Lemma change_password_keeps_reset_token_witness :
  let row := Scenario.returned Sample.user7 Scenario.service_changed in
  List.find (auth.has_reset_token (reset_token Sample.reset))
            (users Scenario.service_changed.2) = Some row
  ∧ u_password_reset_token row = Some (reset_token Sample.reset)
  ∧ u_password_reset_expires row = u_password_reset_expires Sample.user7
  ∧ (auth.reset_password Sample.reset "pepper" Sample.next_day
       Scenario.service_changed.2).1
    = Return "Password reset successfully".
Proof.
  apply (change_password_keeps_reset_token Sample.db
           Scenario.service_changed.2 7 (text "Newer-Pass3") "salt3"
           Sample.next_day Sample.user7
           (Scenario.returned Sample.user7 Scenario.service_changed)
           Sample.reset "pepper" Sample.next_day "$2b$Fresh-Pass2$pepper").
  - exact sample_primary_keys.
  - reflexivity.
  - reflexivity.
  - vm_compute. reflexivity.
  - reflexivity.
  - reflexivity.
Defined.

(** User 9 asks for a reset at 10:30 and uses the token the next day. *)
Lemma request_then_reset_password_witness :
  ∃ db1 db2 row,
    auth.request_password_reset "b@x.com" "Zx81mQ" Sample.morning
      Sample.morning Sample.morning Sample.db
    = (Return ("Password reset token generated", Some "Zx81mQ"), db1)
    ∧ auth.reset_password
        {| reset_token := "Zx81mQ";
           reset_new_password := text "Fresh-Pass2" |}
        "pepper" Sample.next_day db1
      = (Return "Password reset successfully", db2)
    ∧ List.find (λ u, u_id u =? u_id Sample.user9) (users db2) = Some row
    ∧ u_email row = u_email Sample.user9
    ∧ u_password_hash row = "$2b$Fresh-Pass2$pepper"
    ∧ u_password_reset_token row = None
    ∧ u_password_reset_expires row = None.
Proof.
  apply (request_then_reset_password Sample.db "b@x.com" "Zx81mQ"
           Sample.morning Sample.morning Sample.morning Sample.user9
           (text "Fresh-Pass2") "pepper" Sample.next_day
           "$2b$Fresh-Pass2$pepper").
  - exact sample_primary_keys.
  - reflexivity.
  - reflexivity.
  - cbn. lia.
  - reflexivity.
  - reflexivity.
Defined.

Lemma scenario_registration :
  Scenario.registration
  = (inl (Return (Scenario.registered Sample.user7 Scenario.registration)),
     Scenario.registration.2).
Proof. vm_compute. reflexivity. Defined.

(** c@x.com registers and logs in. *)
Lemma register_then_login_witness :
  (auth.login default_settings
     {| login_email := create_email Scenario.newcomer;
        login_password := create_password Scenario.newcomer |}
     Sample.next_day Sample.next_day Sample.next_day Sample.next_day
     Scenario.registration.2).1
  = Return {|
      access_token :=
        SecurityManager.create_access_token default_settings (SubjInt 10)
          (Some (timedelta_minutes (JWT_EXPIRE_MINUTES default_settings)))
          (timestamp_of Sample.next_day);
      refresh_token :=
        SecurityManager.create_refresh_token default_settings (SubjInt 10)
          (timestamp_of Sample.next_day);
      token_type := "bearer";
      expires_in := JWT_EXPIRE_MINUTES default_settings * 60 |}.
Proof.
  apply (register_then_login default_settings Sample.db
           Scenario.registration.2 Scenario.newcomer 10 "pepper"
           Sample.morning Sample.morning
           (Scenario.registered Sample.user7 Scenario.registration)
           Sample.next_day Sample.next_day Sample.next_day Sample.next_day).
  - exact scenario_registration.
  - reflexivity.
Defined.

(** User 7 changes the password and logs in with the new one. *)
Lemma change_password_then_login_witness :
  (auth.login default_settings
     {| login_email := u_email Sample.user7;
        login_password := new_password Scenario.new_password7 |}
     Sample.next_day Sample.next_day Sample.next_day Sample.next_day
     Scenario.password_changed.2).1
  = Return {|
      access_token :=
        SecurityManager.create_access_token default_settings
          (SubjInt (u_id Sample.user7))
          (Some (timedelta_minutes (JWT_EXPIRE_MINUTES default_settings)))
          (timestamp_of Sample.next_day);
      refresh_token :=
        SecurityManager.create_refresh_token default_settings
          (SubjInt (u_id Sample.user7)) (timestamp_of Sample.next_day);
      token_type := "bearer";
      expires_in := JWT_EXPIRE_MINUTES default_settings * 60 |}
  ∧ "Password changed successfully" = "Password changed successfully"
  ∧ ∀ password_data' salt' now' e,
      (Registration.change_password password_data' Sample.user7 salt' now'
         Sample.db).1 ≠ inr e.
Proof.
  apply (change_password_then_login default_settings Sample.db
           Scenario.password_changed.2 Scenario.new_password7 Sample.user7
           "salt3" Sample.next_day "Password changed successfully"
           Sample.next_day Sample.next_day Sample.next_day Sample.next_day).
  - exact sample_primary_keys.
  - reflexivity.
  - reflexivity.
  - vm_compute. reflexivity.
  - intros password_hash Hhash. vm_compute in Hhash.
    injection Hhash as <-. reflexivity.
Defined.

Lemma scenario_holiday :
  Scenario.holiday_created
  = (Return (Scenario.returned Sample.account42 Scenario.holiday_created),
     Scenario.holiday_created.2).
Proof. vm_compute. reflexivity. Defined.

Lemma scenario_fresh_key : 43 ∉ map a_id (accounts Sample.db).
Proof. refine (bool_decide_unpack _ _). vm_compute. exact I. Defined.

(** User 7 opens the account "Holiday" under key 43 and reads it back;
    nobody else can. *)
Lemma create_account_then_get_witness :
  let row := Scenario.returned Sample.account42 Scenario.holiday_created in
  accounts.get_account 43 Sample.user7 Scenario.holiday_created.2
  = (Return row, Scenario.holiday_created.2)
  ∧ a_user_id row = u_id Sample.user7
  ∧ a_is_active row = true
  ∧ ∀ other : User,
      u_id other ≠ u_id Sample.user7 →
      accounts.get_account 43 other Scenario.holiday_created.2
      = (Raise (HTTPException 404 "Account not found" []),
         Scenario.holiday_created.2).
Proof.
  apply (create_account_then_get Sample.db Scenario.holiday_created.2
           Scenario.holiday Sample.user7 43 Sample.morning Sample.morning
           (Scenario.returned Sample.account42 Scenario.holiday_created)).
  - exact scenario_fresh_key.
  - exact scenario_holiday.
Defined.

Lemma create_account_keeps_names_unique_witness :
  primary_keys Scenario.holiday_created.2
  ∧ unique_active_names Scenario.holiday_created.2.
Proof.
  apply (create_account_keeps_names_unique Sample.db
           Scenario.holiday_created.2 Scenario.holiday 7 43 Sample.morning
           Sample.morning
           (Scenario.returned Sample.account42 Scenario.holiday_created)).
  - exact sample_primary_keys.
  - exact sample_unique_active_names.
  - exact scenario_fresh_key.
  - exact scenario_holiday.
Defined.

(** Account 42 "Everyday" is deactivated, account 44 "Everyday" is
    opened, account 42 is activated: two active accounts "Everyday". *)
Lemma activate_account_breaks_unique_names_witness :
  ∃ db',
    accounts.activate_account (a_id Scenario.account42_off) Sample.user7
      Sample.next_day Scenario.two_everyday
    = (Return ("Account activated successfully", true), db')
    ∧ In Scenario.account44 (accounts db')
    ∧ In (with_status Scenario.account42_off true Sample.next_day)
         (accounts db')
    ∧ ¬ unique_active_names db'.
Proof.
  apply (activate_account_breaks_unique_names Scenario.two_everyday
           Scenario.account42_off Scenario.account44 Sample.user7
           Sample.next_day).
  - split; refine (bool_decide_unpack (NoDup _) _); vm_compute; exact I.
  - left. reflexivity.
  - right. left. reflexivity.
  - reflexivity.
  - reflexivity.
  - reflexivity.
  - reflexivity.
  - reflexivity.
Defined.

(** Account 42 is renamed; a body with the name set to [null] is
    stopped by the database. *)
Lemma update_account_keeps_names_unique_witness :
  (primary_keys Scenario.renamed.2 ∧ unique_active_names Scenario.renamed.2
   ∧ (upd_name Sample.rename = Null ∨ upd_account_type Sample.rename = Null
      ∨ upd_is_active Sample.rename = Null →
      Scenario.renamed.2 = Sample.db
      ∧ ∀ account, Scenario.renamed.1 ≠ Return (Some account)))
  ∧ (primary_keys Scenario.name_nulled.2
     ∧ unique_active_names Scenario.name_nulled.2
     ∧ (upd_name Scenario.null_name = Null
        ∨ upd_account_type Scenario.null_name = Null
        ∨ upd_is_active Scenario.null_name = Null →
        Scenario.name_nulled.2 = Sample.db
        ∧ ∀ account, Scenario.name_nulled.1 ≠ Return (Some account))).
Proof.
  split.
  - apply (update_account_keeps_names_unique Sample.db Scenario.renamed.2 42
             Sample.rename 7 Sample.next_day Scenario.renamed.1).
    + exact sample_primary_keys.
    + exact sample_unique_active_names.
    + discriminate.
    + discriminate.
    + reflexivity.
  - apply (update_account_keeps_names_unique Sample.db Scenario.name_nulled.2
             42 Scenario.null_name 7 Sample.next_day Scenario.name_nulled.1).
    + exact sample_primary_keys.
    + exact sample_unique_active_names.
    + discriminate.
    + discriminate.
    + reflexivity.
Defined.

Example null_name_is_refused :
  Scenario.name_nulled
  = (Raise (IntegrityError "NOT NULL constraint failed: accounts.name"),
     Sample.db).
Proof. vm_compute. reflexivity. Qed.

Example null_bank_name_is_written :
  a_bank_name <$> List.find (λ a, a_id a =? 42)
                    (accounts
                       (AccountService.update_account 42
                          {| upd_name := Unset; upd_account_type := Unset;
                             upd_bank_name := Null;
                             upd_account_number := Unset;
                             upd_description := Unset;
                             upd_is_active := Unset |}
                          7 Sample.next_day Sample.db).2)
  = Some None.
Proof. vm_compute. reflexivity. Qed.

Lemma writes_leave_others_alone_witness :
  let unchanged (db' : Db) :=
    users db' = users Sample.db
    ∧ accounts_of_others (u_id Sample.user9) db'
      = accounts_of_others (u_id Sample.user9) Sample.db in
  unchanged (accounts.create_account Scenario.holiday Sample.user9 43
               Sample.morning Sample.next_day Sample.db).2
  ∧ unchanged (accounts.update_account 42 Sample.rename Sample.user9
                 Sample.morning Sample.db).2
  ∧ unchanged (accounts.delete_account 42 true Sample.user9 Sample.morning
                 Sample.db).2
  ∧ unchanged (accounts.activate_account 42 Sample.user9 Sample.morning
                 Sample.db).2.
Proof.
  apply (writes_leave_others_alone Sample.db Sample.user9 42 43 Sample.rename
           Scenario.holiday true Sample.morning Sample.next_day).
  exact sample_primary_keys.
Defined.

Lemma soft_delete_then_activate_witness :
  ∃ db1 db2,
    accounts.delete_account (a_id Sample.account42) false Sample.user7
      Sample.morning Sample.db
    = (Return ("Account deactivated successfully", true), db1)
    ∧ accounts.get_account (a_id Sample.account42) Sample.user7 db1
      = (Return (with_status Sample.account42 false Sample.morning), db1)
    ∧ accounts.activate_account (a_id Sample.account42) Sample.user7
        Sample.next_day db1
      = (Return ("Account activated successfully", true), db2)
    ∧ accounts.get_account (a_id Sample.account42) Sample.user7 db2
      = (Return (with_status Sample.account42 true Sample.next_day), db2)
    ∧ primary_keys db2.
Proof.
  apply (soft_delete_then_activate Sample.db Sample.account42 Sample.user7
           Sample.morning Sample.next_day).
  - exact sample_primary_keys.
  - left. reflexivity.
  - reflexivity.
Defined.

Lemma hard_delete_is_final_witness :
  ∃ db',
    accounts.delete_account (a_id Sample.account42) true Sample.user7
      Sample.morning Sample.db
    = (Return ("Account permanently deleted", true), db')
    ∧ (∀ a, In a (accounts db')
            ↔ In a (accounts Sample.db) ∧ a ≠ Sample.account42)
    ∧ ∀ (account_data : AccountUpdate) (hard_delete : bool) (t : datetime),
        let not_found {A} : result A * Db :=
          (Raise (HTTPException 404 "Account not found" []), db') in
        accounts.get_account (a_id Sample.account42) Sample.user7 db'
        = not_found
        ∧ accounts.update_account (a_id Sample.account42) account_data
            Sample.user7 t db' = not_found
        ∧ accounts.delete_account (a_id Sample.account42) hard_delete
            Sample.user7 t db' = not_found
        ∧ accounts.activate_account (a_id Sample.account42) Sample.user7 t
            db' = not_found.
Proof.
  apply (hard_delete_is_final Sample.db Sample.account42 Sample.user7
           Sample.morning).
  - exact sample_primary_keys.
  - left. reflexivity.
  - reflexivity.
Defined.

(** User 7 is deactivated and activated again: the token of the
    morning is refused in between and accepted after. *)
Lemma deactivate_then_activate_witness :
  let on := Scenario.returned Sample.user7 Scenario.activated in
  on = {| u_id := 7;
          u_email := u_email Sample.user7;
          u_password_hash := u_password_hash Sample.user7;
          u_is_active := true;
          u_is_superuser := u_is_superuser Sample.user7;
          u_created_at := u_created_at Sample.user7;
          u_updated_at := Sample.next_day;
          u_last_login := u_last_login Sample.user7;
          u_password_reset_token := u_password_reset_token Sample.user7;
          u_password_reset_expires :=
            u_password_reset_expires Sample.user7 |}
  ∧ u_is_active Sample.user7 = true
  ∧ deps.get_current_user default_settings Scenario.credentials7 Scenario.now7
      Scenario.deactivated.2
    = (Raise (HTTPException 401 "Inactive user"
                            [("WWW-Authenticate", "Bearer")]),
       Scenario.deactivated.2)
  ∧ deps.get_current_user default_settings Scenario.credentials7 Scenario.now7
      Scenario.activated.2
    = (Return on, Scenario.activated.2).
Proof.
  apply (deactivate_then_activate default_settings Scenario.credentials7
           Scenario.now7 Sample.db Scenario.deactivated.2 Scenario.activated.2
           Sample.user7 (Scenario.returned Sample.user7 Scenario.deactivated)
           (Scenario.returned Sample.user7 Scenario.activated) Sample.next_day
           Sample.next_day).
  - exact scenario_gateway.
  - vm_compute. reflexivity.
  - vm_compute. reflexivity.
Defined.
